(** * EazZy-Shop scraper core (src/scraper.py): a shallow embedding

    The development follows the layout of [scraper.py]:
    text helpers and the Unicode tables Python consults, binary64
    arithmetic, the parsers ([_price], [_norm_img], [_blocked],
    [_normalize_specs]), URL resolution, the two platform scrapers and
    [analyze_url] with its comparison and prediction blocks.

    Python values are modelled as the interpreter has them: a [str] is a
    sequence of code points, a [float] is an IEEE-754 binary64 value, a dict
    that is iterated is an insertion-ordered association list, [None] is
    [None] of [option].  Library calls whose result depends on the outside
    world (HTTP, the HTML parser, the regular-expression engine on page
    bodies, [urllib.parse]) are fields of an environment record; the code of
    the repository that consumes their results is written out. *)

From Stdlib Require Import ZArith NArith Lia Bool Ascii String.
From Stdlib Require Import Floats.SpecFloat.
From stdpp Require Import base list gmap.

#[local] Set Warnings "-clear-no-such-hyp,-register-all".

Local Open Scope Z_scope.

(** ** Text: Python [str] as a list of code points *)

Definition char := N.
Definition str := list char.

Definition lit (s : string) : str := map N_of_ascii (list_ascii_of_string s).
Arguments lit s%_string.

Definition len {A} (l : list A) : Z := Z.of_nat (length l).

Fixpoint startswith (p s : str) : bool :=
  match p, s with
  | [], _ => true
  | _ :: _, [] => false
  | a :: p', b :: s' => N.eqb a b && startswith p' s'
  end.

(** [needle in hay] *)
Fixpoint contains (needle hay : str) : bool :=
  startswith needle hay ||
  match hay with
  | [] => false
  | _ :: hay' => contains needle hay'
  end.

Definition str_eqb (a b : str) : bool := bool_decide (a = b).

(** [s in xs] for a list or set literal of strings. *)
Definition str_in (s : str) (xs : list str) : bool := existsb (str_eqb s) xs.

Fixpoint lstrip_by (f : char -> bool) (s : str) : str :=
  match s with
  | [] => []
  | c :: s' => if f c then lstrip_by f s' else s
  end.

Definition rstrip_by (f : char -> bool) (s : str) : str :=
  rev (lstrip_by f (rev s)).

Definition strip_by (f : char -> bool) (s : str) : str :=
  rstrip_by f (lstrip_by f s).

Definition char_in (cs : str) (c : char) : bool := existsb (N.eqb c) cs.

(** [s.replace(old, new)] for a non-empty [old]: leftmost, non-overlapping. *)
Fixpoint replace_from (fuel : nat) (old new s : str) : str :=
  match fuel with
  | O => s
  | S fuel' =>
      match s with
      | [] => []
      | c :: s' =>
          if startswith old s
          then new ++ replace_from fuel' old new (drop (length old) s)
          else c :: replace_from fuel' old new s'
      end
  end.

Definition replace (old new s : str) : str :=
  replace_from (S (length s)) old new s.

(** ** The Unicode tables of the interpreter

    [str.lower], [str.strip], the regular-expression classes [\s] and [\d],
    [float()] and case-insensitive matching all read CPython's Unicode
    database.  The tables are a parameter; [UnicodeOK] records what the
    database says about the ASCII range, which is all the proofs use. *)

Record Unicode := {
  (** [Py_UNICODE_ISSPACE]: [str.strip()] and [\s]. *)
  u_isspace : char -> bool;
  (** [Py_UNICODE_TODECIMAL]: [\d] matches exactly the characters with a
      decimal value, and [float()] reads that value. *)
  u_decimal : char -> option Z;
  (** The lower-case image of one character of a string, given the
      characters before and after it ([str.lower] is context sensitive for
      the final sigma, and may produce several characters). *)
  u_lower : str -> char -> str -> str;
  (** [re.IGNORECASE]: does the pattern literal (first argument) match the
      subject character (second argument)? *)
  u_ieq : char -> char -> bool;
}.

Definition ascii_lower (c : char) : char :=
  if (65 <=? c)%N && (c <=? 90)%N then (c + 32)%N else c.

Definition ascii_isspace (c : char) : bool :=
  ((9 <=? c)%N && (c <=? 13)%N) || ((28 <=? c)%N && (c <=? 32)%N).

Definition ascii_decimal (c : char) : option Z :=
  if (48 <=? c)%N && (c <=? 57)%N then Some (Z.of_N c - 48) else None.

Record UnicodeOK (U : Unicode) : Prop := {
  ok_isspace : forall c, (c < 128)%N -> u_isspace U c = ascii_isspace c;
  ok_decimal : forall c, (c < 128)%N -> u_decimal U c = ascii_decimal c;
  ok_decimal_range : forall c d, u_decimal U c = Some d -> 0 <= d < 10;
  ok_lower : forall b c a, (c < 128)%N -> u_lower U b c a = [ascii_lower c];
  ok_ieq : forall p c, (p < 128)%N -> (c < 128)%N ->
    u_ieq U p c = N.eqb (ascii_lower p) (ascii_lower c);
}.

(** The tables restricted to ASCII (every other character is caseless, no
    digit and no space): the instance used to run the model. *)
Definition ascii_tables : Unicode := {|
  u_isspace := ascii_isspace;
  u_decimal := ascii_decimal;
  u_lower := fun _ c _ => [ascii_lower c];
  u_ieq := fun p c => N.eqb (ascii_lower p) (ascii_lower c);
|}.

Section Text.
Context (U : Unicode).

(** [s.lower()] *)
Fixpoint lower_from (before s : str) : str :=
  match s with
  | [] => []
  | c :: s' => u_lower U before c s' ++ lower_from (before ++ [c]) s'
  end.

Definition lower (s : str) : str := lower_from [] s.

(** [s.strip()] *)
Definition strip (s : str) : str := strip_by (u_isspace U) s.

(** ** Bot-block detection *)

Definition signals : list str :=
  [lit "robot check"; lit "captcha"; lit "are you a robot";
   lit "enter the characters"; lit "verify you are human"].

Definition _blocked (html : str) : bool :=
  let low := lower html in
  existsb (fun s => contains s low) signals && (len html <? 20000).

(** ** Image URL normalisation

    The argument is [None], or the text [str(url)] of the value passed.
    [not url] holds for [None] and for the empty string. *)
Definition _norm_img (url : option str) : option str :=
  match url with
  | None => None
  | Some [] => None
  | Some u =>
      let u := strip u in
      let u := if startswith (lit "//") u then lit "https:" ++ u else u in
      if startswith (lit "http") u then Some u else None
  end.

End Text.

(** ** Binary64 arithmetic

    A Python [float] is an IEEE-754 binary64 value: [spec_float] of the
    Standard Library at precision 53 and maximal exponent 1024, with the
    library's reference operations for [*], [-], [/] and the comparisons. *)

Definition float := spec_float.
Definition prec : Z := 53.
Definition emax : Z := 1024.

Definition fmul : float -> float -> float := SFmul prec emax.
Definition fsub : float -> float -> float := SFsub prec emax.
Definition fdiv : float -> float -> float := SFdiv prec emax.
Definition fabs : float -> float := SFabs.
Definition fltb : float -> float -> bool := SFltb.
Definition fleb : float -> float -> bool := SFleb.
Definition feqb : float -> float -> bool := SFeqb.
Definition finf : float := S754_infinity false.

(** [bool(x)] for a float: everything but the two zeros. *)
Definition float_truthy (x : float) : bool :=
  match x with S754_zero _ => false | _ => true end.

#[global] Instance float_eq_dec : EqDecision float.
Proof. solve_decision. Defined.

(** *** Correct rounding of a rational

    [float("12.5")], the literals of the source ([0.98], [1000]) and
    [round(x, 2)] all produce the binary64 value nearest to a rational
    [n / d], ties to the even mantissa. *)

(** [(n', d')] with [n' / d' = (n / d) / 2^e]. *)
Definition shifted (n d e : Z) : Z * Z :=
  if 0 <=? e then (n, d * 2 ^ e) else (n * 2 ^ (- e), d).

(** The integer [g] with [2^g <= n / d < 2^(g+1)], for positive [n], [d]. *)
Definition floor_log2_ratio (n d : Z) : Z :=
  let g := Z.log2 n - Z.log2 d in
  let '(n', d') := shifted n d g in
  if d' <=? n' then g else g - 1.

(** The integer nearest to [n / d], ties to even. *)
Definition round_half_even (n d : Z) : Z :=
  let q := n / d in
  let r := n mod d in
  match 2 * r ?= d with
  | Lt => q
  | Gt => q + 1
  | Eq => if Z.even q then q else q + 1
  end.

(** Mantissa and exponent of the binary64 value nearest to [n / d]. *)
Definition rn_core (n d : Z) : Z * Z :=
  let e := Z.max (floor_log2_ratio n d - 52) (-1074) in
  let '(n', d') := shifted n d e in
  let m := round_half_even n' d' in
  if m =? 2 ^ 53 then (2 ^ 52, e + 1) else (m, e).

Definition pack (s : bool) (me : Z * Z) : float :=
  let '(m, e) := me in
  match m with
  | Zpos p => if e <=? 971 then S754_finite s p e else S754_infinity s
  | _ => S754_zero s
  end.

(** The binary64 value nearest to [(-1)^s * n / d], for [0 <= n], [0 < d]. *)
Definition rn_ratio (s : bool) (n d : Z) : float :=
  if n =? 0 then S754_zero s else pack s (rn_core n d).

(** A numeric literal of the source with value [n / d]. *)
Definition flit (n d : Z) : float := rn_ratio false n d.

(** The exact value of a finite float as a fraction [(num, den)] of its
    magnitude, [den] a power of two. *)
Definition fexact (m : positive) (e : Z) : Z * Z :=
  if 0 <=? e then (Zpos m * 2 ^ e, 1) else (Zpos m, 2 ^ (- e)).

(** *** [round(x, 2)]

    CPython rounds the exact binary value to two decimals (ties to even,
    [_Py_dg_dtoa] mode 3) and converts the decimal back with correct
    rounding; infinities and NaN are returned as they are. *)
Definition py_round2 (x : float) : float :=
  match x with
  | S754_finite s m e =>
      let '(n, d) := fexact m e in
      rn_ratio s (round_half_even (n * 100) d) 100
  | _ => x
  end.

(** [min(xs)] over floats: the first minimal element. *)
Definition fmin_list (x : float) (xs : list float) : float :=
  fold_left (fun cur y => if fltb y cur then y else cur) xs x.

(** *** [str(x)] for a float

    [float.__repr__]: the shortest decimal string that reads back as [x]
    (the nearest to [x] when several have that length), printed in fixed
    notation when the decimal point position lies in (-4, 16], with [.0]
    appended to an integer, and in exponent notation otherwise. *)

(** Decimal digits of a non-negative integer, most significant first. *)
Fixpoint digits_from (fuel : nat) (n : Z) (acc : list Z) : list Z :=
  match fuel with
  | O => acc
  | S fuel' =>
      if n <? 10 then n :: acc
      else digits_from fuel' (n / 10) (n mod 10 :: acc)
  end.

Definition digits_of (n : Z) : list Z :=
  digits_from (S (Z.to_nat (Z.log2 n))) n [].

Definition digit_char (d : Z) : char := Z.to_N (d + 48).

Definition digits_str (ds : list Z) : str := map digit_char ds.

(** [n / d] scaled by [10^t]. *)
Definition scale10 (n d t : Z) : Z * Z :=
  if 0 <=? t then (n * 10 ^ t, d) else (n, d * 10 ^ (- t)).

(** Is [10^j <= n / d]? *)
Definition pow10_le (j n d : Z) : bool :=
  let '(n', d') := scale10 n d (- j) in d' <=? n'.

Fixpoint log10_down (fuel : nat) (j n d : Z) : Z :=
  match fuel with
  | O => j
  | S fuel' => if pow10_le j n d then j else log10_down fuel' (j - 1) n d
  end.

(** The integer [j] with [10^j <= n / d < 10^(j+1)]: a search downwards
    from an upper estimate taken from the binary logarithm. *)
Definition floor_log10_ratio (n d : Z) : Z :=
  let j0 := (floor_log2_ratio n d + 1) * 30103 / 100000 + 1 in
  log10_down 3 j0 n d.


(** The float read from the decimal [c * 10^(-t)]. *)
Definition float_of_scaled (c t : Z) : float :=
  let '(n, d) := scale10 c 1 (- t) in rn_ratio false n d.

(** The [dg]-digit decimal that reads back as [v = n / d], if there is one:
    [Some c] stands for [c * 10^(j + 1 - dg)]. *)
Definition try_digits (v : float) (n d j dg : Z) : option Z :=
  let t := dg - 1 - j in
  let '(sn, sd) := scale10 n d t in
  let lo := sn / sd in
  let r := sn mod sd in
  let rt c := bool_decide (float_of_scaled c t = v) in
  if r =? 0 then (if rt lo then Some lo else None)
  else
    match rt lo, rt (lo + 1) with
    | true, true =>
        Some (match 2 * r ?= sd with
              | Lt => lo
              | Gt => lo + 1
              | Eq => if Z.even lo then lo else lo + 1
              end)
    | true, false => Some lo
    | false, true => Some (lo + 1)
    | false, false => None
    end.

Fixpoint shortest_from (fuel : nat) (v : float) (n d j dg : Z) : Z * Z :=
  match try_digits v n d j dg with
  | Some c => (c, dg)
  | None =>
      match fuel with
      | O => (let '(sn, sd) := scale10 n d (dg - 1 - j) in
              round_half_even sn sd, dg)
      | S fuel' => shortest_from fuel' v n d j (dg + 1)
      end
  end.

Fixpoint strip_zeros (fuel : nat) (c : Z) : Z :=
  match fuel with
  | O => c
  | S fuel' => if (c mod 10 =? 0) && (0 <? c) then strip_zeros fuel' (c / 10) else c
  end.

(** Digits and decimal point position of the shortest representation:
    [x = 0.d1 d2 ... * 10^decpt]. *)
Definition repr_digits (m : positive) (e : Z) : list Z * Z :=
  let '(n, d) := fexact m e in
  let j := floor_log10_ratio n d in
  let '(c, dg) := shortest_from 16 (S754_finite false m e) n d j 1 in
  let decpt := j + 1 + (len (digits_of c) - dg) in
  (digits_of (strip_zeros 17 c), decpt).

Definition zeros (k : Z) : str := repeat 48%N (Z.to_nat k).

Definition format_repr (ds : list Z) (decpt : Z) : str :=
  let nd := len ds in
  if (decpt <=? -4) || (16 <? decpt) then
    let ex := decpt - 1 in
    let mant :=
      match ds with
      | [] => []
      | d0 :: rest =>
          digit_char d0 ::
          (match rest with [] => [] | _ => lit "." ++ digits_str rest end)
      end in
    let exd := digits_str (digits_of (Z.abs ex)) in
    mant ++ lit "e" ++ (if ex <? 0 then lit "-" else lit "+") ++
    (if Z.abs ex <? 10 then lit "0" else []) ++ exd
  else if decpt <=? 0 then
    lit "0." ++ zeros (- decpt) ++ digits_str ds
  else if nd <=? decpt then
    digits_str ds ++ zeros (decpt - nd) ++ lit ".0"
  else
    digits_str (take (Z.to_nat decpt) ds) ++ lit "." ++
    digits_str (drop (Z.to_nat decpt) ds).

Definition float_repr (x : float) : str :=
  match x with
  | S754_nan => lit "nan"
  | S754_infinity s => (if s then lit "-" else []) ++ lit "inf"
  | S754_zero s => (if s then lit "-" else []) ++ lit "0.0"
  | S754_finite s m e =>
      let '(ds, decpt) := repr_digits m e in
      (if s then lit "-" else []) ++ format_repr ds decpt
  end.


(** ** Parsers *)

Section Parsers.
Context (U : Unicode).

(** *** Price normalisation *)

(** The characters of the class [[,\xa0₹\$£€]]. *)
Definition price_noise : str := [44; 160; 8377; 36; 163; 8364]%N.

(** Does the pattern word [p] match at the head of [s], ignoring case? *)
Fixpoint ci_startswith (p s : str) : bool :=
  match p, s with
  | [], _ => true
  | _ :: _, [] => false
  | a :: p', b :: s' => u_ieq U a b && ci_startswith p' s'
  end.

(** Length of the match of [(?i)(INR|MRP|RS\.?|USD)] at the head of [s]. *)
Definition currency_match (s : str) : option nat :=
  if ci_startswith (lit "INR") s then Some 3%nat
  else if ci_startswith (lit "MRP") s then Some 3%nat
  else if ci_startswith (lit "RS") s then
    match drop 2 s with
    | 46%N :: _ => Some 3%nat
    | _ => Some 2%nat
    end
  else if ci_startswith (lit "USD") s then Some 3%nat
  else None.

(** [re.sub(r'(?i)(INR|MRP|RS\.?|USD)', '', s)]; [skip] counts the
    characters of the current match still to be dropped. *)
Fixpoint sub_currency (skip : nat) (s : str) : str :=
  match s with
  | [] => []
  | c :: s' =>
      match skip with
      | S k => sub_currency k s'
      | O =>
          match currency_match s with
          | Some n => sub_currency (pred n) s'
          | None => c :: sub_currency O s'
          end
      end
  end.

(** The longest run of at most [max] characters matching [\d] at the head
    of [s], as digit values, and what follows it. *)
Fixpoint take_digits (max : nat) (s : str) : list Z * str :=
  match max, s with
  | S k, c :: s' =>
      match u_decimal U c with
      | Some d => let '(ds, rest) := take_digits k s' in (d :: ds, rest)
      | None => ([], s)
      end
  | _, _ => ([], s)
  end.

(** The optional group [(?:\.\d{1,2})?] at the head of [s]. *)
Definition take_fraction (s : str) : list Z :=
  match s with
  | 46%N :: s' => fst (take_digits 2 s')
  | _ => []
  end.

(** [re.search(r'(\d{2,7}(?:\.\d{1,2})?)', s)]: the leftmost match, as the
    digit values of its integer and fractional parts. *)
Fixpoint search_number (s : str) : option (list Z * list Z) :=
  match s with
  | [] => None
  | _ :: s' =>
      let '(ds, rest) := take_digits 7 s in
      if (2 <=? length ds)%nat then Some (ds, take_fraction rest)
      else search_number s'
  end.

Definition digits_value (ds : list Z) : Z :=
  fold_left (fun acc d => acc * 10 + d) ds 0.

(** [float(m.group(1))] for a matched token. *)
Definition float_of_token (ip fp : list Z) : float :=
  rn_ratio false (digits_value (ip ++ fp)) (10 ^ len fp).

(** [_price(text)]; the argument is [None] or [str(text)]. *)
Definition _price (text : option str) : option float :=
  match text with
  | None => None
  | Some text =>
      let t := filter (fun c => negb (char_in price_noise c)) text in
      let t := strip U (sub_currency O t) in
      match search_number t with
      | Some (ip, fp) =>
          let v := float_of_token ip fp in
          if fltb (flit 10 1) v && fltb v (flit 10000000 1) then Some v
          else None
      | None => None
      end
  end.


(** *** Specification normalisation *)

Definition SPEC_MAX_ITEMS : Z := 36.

Definition SPEC_NOISE_KEYS : list str :=
  [lit ""; lit "asin"; lit "manufacturer"; lit "customerreviews";
   lit "customerrating"; lit "reviews"; lit "ratings"; lit "bestsellersrank";
   lit "datefirstavailable"; lit "sellers"; lit "seller"; lit "returnpolicy";
   lit "delivery"; lit "offers"; lit "warranty"; lit "services";
   lit "producturl"; lit "url"; lit "image"; lit "sku"; lit "modelnumber";
   lit "itemmodelnumber"].

(** The value tokens read as unavailable. *)
Definition UNAVAILABLE : list str :=
  [lit "na"; lit "n/a"; lit "not available"; lit "none"; lit "-"; lit "--"].

(** The class [[‎‏‪-‮]]. *)
Definition is_bidi (c : char) : bool :=
  (c =? 8206)%N || (c =? 8207)%N || ((8234 <=? c)%N && (c <=? 8238)%N).

(** [re.sub(r"\s+", " ", s)]; [in_run] tells that the previous character
    was white space, already replaced. *)
Fixpoint collapse_spaces (in_run : bool) (s : str) : str :=
  match s with
  | [] => []
  | c :: s' =>
      if u_isspace U c
      then (if in_run then collapse_spaces true s'
            else 32%N :: collapse_spaces true s')
      else c :: collapse_spaces false s'
  end.

(** [_clean_spec_text(value)]; the argument is [None] or [str(value)]. *)
Definition _clean_spec_text (value : option str) : str :=
  match value with
  | None => []
  | Some v =>
      let txt := replace [160%N] (lit " ") v in
      let txt := filter (fun c => negb (is_bidi c)) txt in
      let txt := strip U (collapse_spaces false txt) in
      strip U (strip_by (char_in (lit ": ")) txt)
  end.

(** [re.sub(r"[^a-z0-9]+", "", key.lower())] *)
Definition is_alnum_lower (c : char) : bool :=
  ((97 <=? c)%N && (c <=? 122)%N) || ((48 <=? c)%N && (c <=? 57)%N).

Definition key_norm (key : str) : str := filter is_alnum_lower (lower U key).

(** [val[:257].rstrip() + "..."] for a value longer than 260. *)
Definition clip_value (val : str) : str :=
  if 260 <? len val
  then rstrip_by (u_isspace U) (take 257 val) ++ lit "..."
  else val.

(** [specs[key] = val] on an insertion-ordered dict. *)
Fixpoint dict_set {V} (key : str) (val : V) (d : list (str * V)) : list (str * V) :=
  match d with
  | [] => [(key, val)]
  | (k, v) :: d' =>
      if str_eqb k key then (k, val) :: d' else (k, v) :: dict_set key val d'
  end.

(** The loop of [_normalize_specs], from the state [(specs, seen)]. *)
Fixpoint normalize_loop (max_items : Z) (pairs : list (option str * option str))
    (specs : list (str * str)) (seen : gset str) : list (str * str) :=
  match pairs with
  | [] => specs
  | (raw_k, raw_v) :: rest =>
      let key := _clean_spec_text raw_k in
      let val := _clean_spec_text raw_v in
      if str_eqb key [] || str_eqb val [] then
        normalize_loop max_items rest specs seen
      else
        let kn := key_norm key in
        if str_eqb kn [] || str_in kn SPEC_NOISE_KEYS || bool_decide (kn ∈ seen) then
          normalize_loop max_items rest specs seen
        else if str_in (lower U val) UNAVAILABLE then
          normalize_loop max_items rest specs seen
        else if 80 <? len key then
          normalize_loop max_items rest specs seen
        else
          let specs' := dict_set key (clip_value val) specs in
          let seen' := {[kn]} ∪ seen in
          if max_items <=? len specs' then specs'
          else normalize_loop max_items rest specs' seen'
  end.

Definition _normalize_specs (pairs : list (option str * option str)) (max_items : Z)
    : list (str * str) :=
  normalize_loop max_items pairs [] ∅.

End Parsers.

(** ** Python values, exceptions and effects *)

(** Values as [json.loads] builds them; the analysis result and the product
    records are dicts of such values. *)
Inductive json :=
  | JNull
  | JBool (b : bool)
  | JInt (z : Z)
  | JFloat (f : float)
  | JStr (s : str)
  | JList (l : list json)
  | JObj (kv : list (str * json)).

(** [bool(v)] *)
Definition truthy (v : json) : bool :=
  match v with
  | JNull => false
  | JBool b => b
  | JInt z => negb (z =? 0)
  | JFloat f => float_truthy f
  | JStr s => negb (str_eqb s [])
  | JList l => negb (bool_decide (l = []))
  | JObj kv => negb (bool_decide (kv = []))
  end.

(** [a or b] *)
Definition py_or (a b : json) : json := if truthy a then a else b.

(** [d.get(k)] *)
Fixpoint jget (d : list (str * json)) (k : str) : json :=
  match d with
  | [] => JNull
  | (k', v) :: d' => if str_eqb k' k then v else jget d' k
  end.

(** [x or y] on optional strings and floats ([None] and the empty string,
    [None] and zero are falsy). *)
Definition str_truthy (s : option str) : bool :=
  match s with Some (_ :: _) => true | _ => false end.

Definition str_or (a b : option str) : option str :=
  if str_truthy a then a else b.

Definition price_truthy (p : option float) : bool :=
  match p with Some f => float_truthy f | None => false end.

Definition price_or (a b : option float) : option float :=
  if price_truthy a then a else b.

(** [(s or "").strip() or None] *)
Definition nonempty (s : str) : option str :=
  match s with [] => None | _ => Some s end.

Inductive exn :=
  | ValueError
  | AttributeError
  | RecursionError.

Inductive Result (A : Type) :=
  | Ok (a : A)
  | Raise (e : exn).
Arguments Ok {A} a.
Arguments Raise {A} e.

(** *** What the outside world is asked *)

(** One HTTP request of the program. *)
Inductive NetCall :=
  (** [requests.get] on the structured-data endpoint *)
  | GetStructured (url : str) (timeout : Z)
  (** [requests.get] on the rendering proxy *)
  | GetProxy (url : str) (render : bool) (timeout : Z)
  (** [cloudscraper]'s [get] *)
  | GetCloudscraper (url referer : str) (timeout : Z)
  (** [requests.get] with the user agent [UAS[ua]] *)
  | GetDirect (url referer : str) (ua : nat) (timeout : Z)
  (** [requests.Session().get] with header profile [profile] *)
  | GetResolve (url : str) (profile : nat) (timeout : Z).

(** What the program does that can be observed: the requests it sends, and
    the line each scraper prints when it is entered. *)
Inductive Event :=
  | Fetch (c : NetCall)
  | Enter (fn url : str).

Definition Log := list Event.

(** A [requests.Response]. [json_body] is the outcome of [r.json()]. *)
Record Response := {
  status_code : Z;
  content_len : Z;
  text : str;
  resp_url : str;
  location : str;
  json_body : option json;
}.

(** A tag found by a CSS selector. *)
Record Element := {
  (** [el.get_text(" ", strip=True)] *)
  text_joined : str;
  (** [el.get_text()] *)
  text_plain : str;
  (** [el.string or el.get_text()], stripped: the payload of a script tag *)
  script_text : str;
  (** [el.get(name)]; [None] when the attribute is absent *)
  attr : str -> option str;
}.

(** [urlparse(url)] *)
Record Url := {
  netloc : str;
  path : str;
  query : str;
}.

(** The regular expressions the source runs over page bodies and URLs, by
    the list they stand in and their position in it. *)
Inductive Pattern :=
  | PricePattern (i : nat)
  | ImagePattern (i : nat)
  | PidPricePattern (i : nat) (pid : str)
  | ProductUrlPattern (i : nat)
  | AmazonNamePattern
  | FlipkartNamePattern.

(** The libraries and the network. Every field is a deterministic function
    of its arguments; the network answers depend on what was asked so far. *)
Class Env := {
  uni : Unicode;
  SCRAPER_API_KEY : str;
  _HAS_CS : bool;
  (** frames the interpreter still allows *)
  recursion_limit : nat;
  (** the answer to a request; [None] when the request raises *)
  http : Log -> NetCall -> option Response;
  (** which of the two raced proxy requests ([false]: plain, [true]:
      rendered) complete before the deadline, in completion order *)
  completion_order : Log -> list bool;
  urlparse : str -> Result Url;
  parse_qs : str -> Result (list (str * list str));
  unquote : str -> str;
  urljoin : str -> str -> Result str;
  json_loads : str -> option json;
  (** [str(v)] for a list or a dict *)
  repr_container : json -> str;
  Soup : Type;
  BeautifulSoup : str -> Soup;
  select_one : Soup -> str -> option Element;
  select : Soup -> str -> list Element;
  (** [re.search(pattern, text)]: the group the caller reads *)
  re_search : Pattern -> str -> option str;
  (** the pairs [_extract_specs_from_tables] reads off the page *)
  table_pairs : Soup -> list str -> list (option str * option str);
  (** the pairs [_collect_ld_props] appends for one JSON-LD document *)
  ld_props : json -> list (option str * option str);
  (** the pairs [_extract_specs_from_structured] collects *)
  structured_pairs : list (str * json) -> list (option str * option str);
}.

(** *** The effect monad: a log of events, and exceptions *)

Definition M (A : Type) : Type := Log -> Result A * Log.

Definition ret {A} (a : A) : M A := fun log => (Ok a, log).

Definition bind {A B} (m : M A) (k : A -> M B) : M B :=
  fun log =>
    match m log with
    | (Ok a, log') => k a log'
    | (Raise e, log') => (Raise e, log')
    end.

Definition raise {A} (e : exn) : M A := fun log => (Raise e, log).

Definition lift {A} (r : Result A) : M A := fun log => (r, log).

(** [try: m except Exception: h] *)
Definition try_except {A} (m : M A) (h : M A) : M A :=
  fun log =>
    match m log with
    | (Ok a, log') => (Ok a, log')
    | (Raise _, log') => h log'
    end.

Definition emit (e : Event) : M unit := fun log => (Ok tt, log ++ [e]).

Notation "'let*' x ':=' m 'in' k" := (bind m (fun x => k))
  (at level 10, x name, m at level 100, k at level 200).
Notation "m ;;; k" := (bind m (fun _ => k))
  (at level 100, k at level 200, right associativity).

(** [str(v)] *)
Definition py_str `{Env} (v : json) : str :=
  match v with
  | JNull => lit "None"
  | JBool b => if b then lit "True" else lit "False"
  | JInt z => (if z <? 0 then lit "-" else []) ++ digits_str (digits_of (Z.abs z))
  | JFloat f => float_repr f
  | JStr s => s
  | JList _ | JObj _ => repr_container v
  end.

Definition DQ : str := [34%N].

Section Fetch.
Context `{E : Env}.

(** Send a request: it is logged, and the world answers. *)
Definition request (c : NetCall) : M (option Response) :=
  fun log => (Ok (http log c), log ++ [Fetch c]).

Definition has_key : bool := negb (str_eqb SCRAPER_API_KEY []).

(** [bool(resp)] is [resp.ok]. *)
Definition resp_ok (r : Response) : bool := status_code r <? 400.

(** Strategy 1: the structured-data endpoint. *)
Definition _scraperapi_structured (url : str) (timeout : Z)
    : M (option (list (str * json))) :=
  if negb has_key then ret None
  else if negb (contains (lit "amazon") (lower uni url)) then ret None
  else
    let* r := request (GetStructured url timeout) in
    match r with
    | Some r =>
        if status_code r =? 200 then
          match json_body r with
          | Some (JObj data) => ret (Some data)
          | _ => ret None
          end
        else ret None
    | None => ret None
    end.

(** Strategy 2: the HTML proxy. *)
Definition _scraperapi_html (url : str) (render : bool) (timeout : Z)
    : M (option Response) :=
  if negb has_key then ret None
  else
    let* r := request (GetProxy url render timeout) in
    match r with
    | Some r =>
        if (status_code r =? 200) && (1000 <? content_len r) then ret (Some r)
        else ret None
    | None => ret None
    end.

Definition usable (r : option Response) : bool :=
  match r with
  | Some r => resp_ok r && negb (_blocked uni (text r))
  | None => false
  end.

(** The race of a plain and a rendered proxy request for short links: both
    are sent; the first to complete with a usable body wins. *)
Definition _scraperapi_html_flipkart_short (url : str) (timeout : Z)
    : M (option Response) :=
  if negb has_key then ret None
  else
    let* plain := _scraperapi_html url false timeout in
    let* rendered := _scraperapi_html url true timeout in
    fun log =>
      let results :=
        (fun which : bool => if which then rendered else plain) <$> completion_order log in
      (Ok (default None (head (filter (fun r => usable r = true) results))), log).

Definition accepted (r : option Response) : option Response :=
  match r with
  | Some r => if (status_code r =? 200) && (2000 <? content_len r) then Some r else None
  | None => None
  end.

(** The loop over the user-agent pool of [_direct_fetch]. *)
Fixpoint direct_loop (url referer : str) (timeout : Z) (uas : list nat)
    : M (option Response) :=
  match uas with
  | [] => ret None
  | ua :: uas' =>
      let* r := request (GetDirect url referer ua timeout) in
      match accepted r with
      | Some r => ret (Some r)
      | None => direct_loop url referer timeout uas'
      end
  end.

(** Strategy 3: cloudscraper, then plain requests. *)
Definition _direct_fetch (url referer : str) (fast : bool) : M (option Response) :=
  let cs_timeout := if fast then 6 else 20 in
  let req_timeout := if fast then 4 else 15 in
  let ua_pool := if fast then [0%nat] else [0; 1; 2; 3]%nat in
  let* r := (if _HAS_CS then
                let* r := request (GetCloudscraper url referer cs_timeout) in
                ret (accepted r)
              else ret None) in
  match r with
  | Some r => ret (Some r)
  | None => direct_loop url referer req_timeout ua_pool
  end.

End Fetch.


(** ** URL resolution *)

Section Resolve.
Context `{E : Env}.

Definition SHORT_HOSTS : list str :=
  [lit "amzn.in"; lit "amzn.to"; lit "amzn.eu"; lit "a.co";
   lit "fkrt.cc"; lit "fkrt.it"; lit "fkrt.to"; lit "dl.flipkart.com";
   lit "bit.ly"; lit "t.co"; lit "ow.ly"; lit "goo.gl"; lit "tinyurl.com"].

Definition FK_SHORT_HOSTS : list str :=
  [lit "dl.flipkart.com"; lit "fkrt.cc"; lit "fkrt.it"; lit "fkrt.to"].

(** [urlparse(url).netloc.lower()] *)
Definition netloc_lower (url : str) : Result str :=
  match urlparse url with
  | Ok u => Ok (lower uni (netloc u))
  | Raise e => Raise e
  end.

(** [urlparse(url).netloc.lower().lstrip("www.")] *)
Definition stripped_host (url : str) : Result str :=
  match netloc_lower url with
  | Ok h => Ok (lstrip_by (char_in (lit "www.")) h)
  | Raise e => Raise e
  end.

Definition _is_short (url : str) : Result bool :=
  match stripped_host url with
  | Ok h => Ok (str_in h SHORT_HOSTS)
  | Raise e => Raise e
  end.

(** ["amazon.in" in c or "amazon.com" in c or "flipkart.com" in c] *)
Definition is_marketplace (c : str) : bool :=
  contains (lit "amazon.in") c || contains (lit "amazon.com") c ||
  contains (lit "flipkart.com") c.

(** ["amazon.in" in c or "flipkart.com" in c] *)
Definition is_marketplace_in (c : str) : bool :=
  contains (lit "amazon.in") c || contains (lit "flipkart.com") c.

(** [d.get(k)] for the dict of [parse_qs]. *)
Fixpoint qs_get (qs : list (str * list str)) (k : str) : option (list str) :=
  match qs with
  | [] => None
  | (k', vs) :: qs' => if str_eqb k' k then Some vs else qs_get qs' k
  end.

Definition REDIRECT_KEYS : list str :=
  [lit "url"; lit "u"; lit "redirect"; lit "redirect_url"; lit "target"].

(** The loop over the redirect parameters of [resolve_url]. *)
Fixpoint query_target (qs : list (str * list str)) (keys : list str) : option str :=
  match keys with
  | [] => None
  | k :: keys' =>
      match qs_get qs k with
      | Some (v :: _) =>
          let c := unquote v in
          if is_marketplace c then Some c else query_target qs keys'
      | _ => query_target qs keys'
      end
  end.

(** The first [try] block of [resolve_url]: any exception is swallowed. *)
Definition resolve_from_query (url : str) : option str :=
  match urlparse url with
  | Ok u =>
      match parse_qs (query u) with
      | Ok qs => query_target qs REDIRECT_KEYS
      | Raise _ => None
      end
  | Raise _ => None
  end.

Definition QUOTE_CHARS : str := [39; 34; 60; 62]%N.
Definition ESC_SLASH : str := [92; 47]%N.
Definition ESC_U002F : str := [92; 117; 48; 48; 50; 70]%N.

Fixpoint product_url_in (blob : str) (pats : list nat) : option str :=
  match pats with
  | [] => None
  | i :: pats' =>
      match re_search (ProductUrlPattern i) blob with
      | Some g =>
          let c := strip_by (char_in QUOTE_CHARS) (strip uni g) in
          let c := replace ESC_U002F (lit "/") (replace ESC_SLASH (lit "/") c) in
          if is_marketplace c then Some c else product_url_in blob pats'
      | None => product_url_in blob pats'
      end
  end.

Definition _extract_product_url_from_text (text : str) : option str :=
  match text with
  | [] => None
  | _ =>
      match product_url_in text [0; 1]%nat with
      | Some c => Some c
      | None => product_url_in (unquote text) [0; 1]%nat
      end
  end.

(** [el.get("content") or el.get("href") or ""] and the like. *)
Fixpoint first_attr (el : Element) (names : list str) : str :=
  match names with
  | [] => []
  | n :: names' =>
      match attr el n with
      | Some (c :: v) => c :: v
      | _ => first_attr el names'
      end
  end.

(** What one answered request of the redirect loop yields. *)
Definition resolve_from_response (url : str) (r : Response) : Result (option str) :=
  let final := match resp_url r with [] => url | f => f end in
  if is_marketplace_in final && negb (str_eqb final url) then Ok (Some final)
  else
    match (match location r with
           | [] => Ok None
           | loc =>
               match urljoin url loc with
               | Ok c => Ok (if is_marketplace c then Some c else None)
               | Raise e => Raise e
               end
           end) with
    | Ok (Some c) => Ok (Some c)
    | Ok None => Ok (_extract_product_url_from_text (text r))
    | Raise e => Raise e
    end.

(** The loop over the header profiles; an exception ends the profile. *)
Fixpoint resolve_profiles (url : str) (timeout : Z) (profiles : list nat)
    : M (option str) :=
  match profiles with
  | [] => ret None
  | h :: profiles' =>
      let* r := request (GetResolve url h timeout) in
      match r with
      | Some r =>
          match resolve_from_response url r with
          | Ok (Some c) => ret (Some c)
          | _ => resolve_profiles url timeout profiles'
          end
      | None => resolve_profiles url timeout profiles'
      end
  end.

Definition META_OG_URL : str :=
  lit "meta[property=" ++ DQ ++ lit "og:url" ++ DQ ++ lit "]".
Definition LINK_CANONICAL : str :=
  lit "link[rel=" ++ DQ ++ lit "canonical" ++ DQ ++ lit "]".

Fixpoint resolve_from_meta (soup : Soup) (sels : list str) : option str :=
  match sels with
  | [] => None
  | sel :: sels' =>
      match select_one soup sel with
      | Some el =>
          let c := first_attr el [lit "content"; lit "href"] in
          if is_marketplace_in c then Some c else resolve_from_meta soup sels'
      | None => resolve_from_meta soup sels'
      end
  end.

Definition resolve_url (url : str) (fast : bool) : M str :=
  emit (Enter (lit "resolve_url") url) ;;;
  match resolve_from_query url with
  | Some c => ret c
  | None =>
      let profiles := if fast then [0; 1]%nat else [0; 1; 2]%nat in
      let direct_timeout := if fast then 6 else 15 in
      let* found := resolve_profiles url direct_timeout profiles in
      match found with
      | Some c => ret c
      | None =>
          let* host := lift (netloc_lower url) in
          let is_fk_short := contains (lit "dl.flipkart.com") host in
          let scraper_timeout :=
            if fast && is_fk_short then 15 else if is_fk_short then 40 else 30 in
          let* r := _scraperapi_html url is_fk_short scraper_timeout in
          match r with
          | Some r =>
              if resp_ok r then
                let soup := BeautifulSoup (text r) in
                match resolve_from_meta soup [META_OG_URL; LINK_CANONICAL] with
                | Some c => ret c
                | None =>
                    match _extract_product_url_from_text (text r) with
                    | Some c => ret c
                    | None => ret url
                    end
                end
              else ret url
          | None => ret url
          end
      end
  end.

End Resolve.


(** ** Field extractors *)

(** A product record, as the scrapers build it. *)
Record Product := {
  platform : str;
  title : option str;
  price : option float;
  image_url : option str;
  url : json;
  availability : json;
  specs : list (str * str);
}.

Section Extract.
Context `{E : Env}.

(** [_price(v)] for a JSON value: [None] stays [None], anything else is
    read through [str(v)]. *)
Definition price_of_json (v : json) : option float :=
  match v with
  | JNull => None
  | _ => _price uni (Some (py_str v))
  end.

(** [_norm_img(v)] for a JSON value. *)
Definition img_of_json (v : json) : option str :=
  if truthy v then _norm_img uni (Some (py_str v)) else None.

Definition LD_JSON : str :=
  lit "script[type=" ++ DQ ++ lit "application/ld+json" ++ DQ ++ lit "]".

(** One [item] of a JSON-LD document in [_json_ld]; [item.get] raises
    [AttributeError] unless the item is a dict. *)
Definition json_ld_item (st : option str * option float * option str) (item : json)
    : Result (option str * option float * option str) :=
  let '(title, pr, img) := st in
  if str_truthy title && str_truthy img && price_truthy pr then Ok st
  else
    match item with
    | JObj d =>
        let title :=
          if str_truthy title then title
          else match jget d (lit "name") with
               | JStr s => nonempty (strip uni s)
               | _ => title
               end in
        let img :=
          if str_truthy img then img
          else match jget d (lit "image") with
               | JStr s => Some s
               | JList (JStr s :: _) => Some s
               | _ => None
               end in
        let pr :=
          if price_truthy pr then pr
          else match jget d (lit "offers") with
               | JObj o => price_of_json (py_or (jget o (lit "price")) (jget o (lit "lowPrice")))
               | JList (JObj o :: _) => price_of_json (jget o (lit "price"))
               | JList (_ :: _) => None
               | _ => pr
               end in
        Ok (title, pr, img)
    | _ => Raise AttributeError
    end.

Fixpoint json_ld_items (st : option str * option float * option str) (items : list json)
    : Result (option str * option float * option str) :=
  match items with
  | [] => Ok st
  | item :: items' =>
      match json_ld_item st item with
      | Ok st' => json_ld_items st' items'
      | Raise e => Raise e
      end
  end.

Fixpoint json_ld_scripts (st : option str * option float * option str)
    (scripts : list Element) : Result (option str * option float * option str) :=
  match scripts with
  | [] => Ok st
  | sc :: scripts' =>
      match script_text sc with
      | [] => json_ld_scripts st scripts'
      | raw =>
          match json_loads raw with
          | None => json_ld_scripts st scripts'
          | Some data =>
              let items := match data with JList l => l | _ => [data] end in
              match json_ld_items st items with
              | Ok st' => json_ld_scripts st' scripts'
              | Raise e => Raise e
              end
          end
      end
  end.

(** [_json_ld(soup)]: title, price, image. *)
Definition _json_ld (soup : Soup) : Result (option str * option float * option str) :=
  json_ld_scripts (None, None, None) (select soup LD_JSON).

Definition meta_sel (key name : str) : str :=
  lit "meta[" ++ key ++ lit "=" ++ DQ ++ name ++ DQ ++ lit "]".

(** [(el.get("content") or "").strip() or None] for the first match. *)
Definition meta_content (soup : Soup) (sel : str) : option str :=
  match select_one soup sel with
  | Some el => nonempty (strip uni (default [] (attr el (lit "content"))))
  | None => None
  end.

(** [_og(soup)]: title, price, image. *)
Definition _og (soup : Soup) : option str * option float * option str :=
  let title := meta_content soup (meta_sel (lit "property") (lit "og:title")) in
  let img := meta_content soup (meta_sel (lit "property") (lit "og:image")) in
  let pr :=
    match select_one soup (meta_sel (lit "property") (lit "product:price:amount")) with
    | Some el => _price uni (attr el (lit "content"))
    | None => None
    end in
  let title :=
    if str_truthy title then title
    else meta_content soup (meta_sel (lit "name") (lit "twitter:title")) in
  let img :=
    if str_truthy img then img
    else meta_content soup (meta_sel (lit "name") (lit "twitter:image")) in
  (title, pr, img).

Fixpoint price_from_patterns (html : str) (pats : list Pattern) : option float :=
  match pats with
  | [] => None
  | pat :: pats' =>
      match re_search pat html with
      | Some g =>
          let v := _price uni (Some g) in
          if price_truthy v then v else price_from_patterns html pats'
      | None => price_from_patterns html pats'
      end
  end.

Definition _extract_price_from_scripts (html : str) : option float :=
  price_from_patterns html (PricePattern <$> seq 0 10).

Fixpoint image_from_patterns (html : str) (pats : list nat) : option str :=
  match pats with
  | [] => None
  | i :: pats' =>
      match re_search (ImagePattern i) html with
      | Some g =>
          let u := replace ESC_SLASH (lit "/") (replace ESC_U002F (lit "/") g) in
          if str_truthy (_norm_img uni (Some u)) then Some u
          else image_from_patterns html pats'
      | None => image_from_patterns html pats'
      end
  end.

Definition _extract_image_from_scripts (html : str) : option str :=
  image_from_patterns html (seq 0 6).

(** [_extract_flipkart_pid_price]: the whole body is inside a [try]. *)
Definition _extract_flipkart_pid_price (html url : str) : option float :=
  match urlparse url with
  | Ok u =>
      match parse_qs (query u) with
      | Ok qs =>
          match qs_get qs (lit "pid") with
          | Some ((c :: pid') :: _) =>
              price_from_patterns html ((fun i => PidPricePattern i (c :: pid')) <$> seq 0 3)
          | _ => None
          end
      | Raise _ => None
      end
  | Raise _ => None
  end.

Fixpoint ld_pairs (scripts : list Element) : list (option str * option str) :=
  match scripts with
  | [] => []
  | sc :: scripts' =>
      match script_text sc with
      | [] => ld_pairs scripts'
      | raw =>
          match json_loads raw with
          | Some data => ld_props data ++ ld_pairs scripts'
          | None => ld_pairs scripts'
          end
      end
  end.

Definition _extract_specs_from_json_ld (soup : Soup) : list (option str * option str) :=
  ld_pairs (select soup LD_JSON).

Definition AMZN_SPEC_SELS : list str :=
  [lit "#productDetails_techSpec_section_1"; lit "#productDetails_techSpec_section_2";
   lit "#technicalSpecifications_section_1"; lit "#productDetails_detailBullets_sections1";
   lit "#detailBullets_feature_div"; lit "#poExpander table";
   lit "#productOverview_feature_div table"; lit "table.a-normal.a-spacing-micro"].

Definition FK_SPEC_SELS : list str :=
  [lit "table._0ZhAN9"; lit "table._14cfVK"; lit "div._3k-BhJ table";
   lit "div._1UhVsV table"; lit "div.X3BRps table"; lit "div.GNDEQ- table"].

Definition _extract_amazon_specs (soup : Soup) : list (str * str) :=
  _normalize_specs uni
    (table_pairs soup AMZN_SPEC_SELS ++ _extract_specs_from_json_ld soup) SPEC_MAX_ITEMS.

Definition _extract_flipkart_specs (soup : Soup) : list (str * str) :=
  _normalize_specs uni
    (table_pairs soup FK_SPEC_SELS ++ _extract_specs_from_json_ld soup) SPEC_MAX_ITEMS.

Definition _extract_specs_from_structured (data : list (str * json)) : list (str * str) :=
  _normalize_specs uni (structured_pairs data) SPEC_MAX_ITEMS.

(** The loop over the title selectors (both platforms). *)
Fixpoint title_from (soup : Soup) (sels : list str) : option str :=
  match sels with
  | [] => None
  | sel :: sels' =>
      match select_one soup sel with
      | Some el =>
          let t := text_joined el in
          if negb (str_eqb t []) && (3 <? len t) then Some t
          else title_from soup sels'
      | None => title_from soup sels'
      end
  end.

(** The loop over the price selectors (both platforms). *)
Fixpoint price_from (soup : Soup) (sels : list str) : option float :=
  match sels with
  | [] => None
  | sel :: sels' =>
      match select_one soup sel with
      | Some el =>
          let p := _price uni (Some (match attr el (lit "content") with
                                     | Some c => c
                                     | None => text_plain el
                                     end)) in
          if price_truthy p then p else price_from soup sels'
      | None => price_from soup sels'
      end
  end.

End Extract.


(** ** Platform scrapers *)

Section Scrapers.
Context `{E : Env}.

Definition AMZN_TITLE_SELS : list str :=
  [lit "#productTitle"; lit "span#productTitle"; lit "h1.a-size-large";
   lit "#title span"; lit "h1 span"].

Definition AMZN_PRICE_SELS : list str :=
  [lit "span.a-price.priceToPay span.a-offscreen";
   lit ".priceToPay span.a-offscreen";
   lit "#corePriceDisplay_desktop_feature_div span.a-offscreen";
   lit "#corePriceDisplay_desktop_feature_div .a-price-whole";
   lit ".a-price .a-offscreen";
   lit "#priceblock_ourprice"; lit "#priceblock_dealprice";
   lit "#priceblock_saleprice"; lit ".a-price-whole";
   lit "span[data-a-color='price'] .a-offscreen";
   lit "#apex_offerDisplay_desktop span.a-offscreen";
   lit ".reinventPricePriceToPayMargin span.a-offscreen"].

Definition AMZN_IMG_SELS : list str :=
  [lit "#landingImage"; lit "#imgTagWrapperId img";
   lit "#imgBlkFront"; lit "img#main-image";
   lit "#imageBlock img"; lit ".imgTagWrapper img"].

(** The first truthy value among [data.get(k)] for the keys, else the last. *)
Fixpoint jget_or (d : list (str * json)) (keys : list str) (last : json) : json :=
  match keys with
  | [] => last
  | k :: keys' => py_or (jget d k) (jget_or d keys' last)
  end.

(** A loop [for key in keys: v = d.get(key); if v: price = _price(str(v));
    if price: break], from the current [price]. *)
Fixpoint price_keys (d : list (str * json)) (keys : list str) (price : option float)
    : option float :=
  match keys with
  | [] => price
  | k :: keys' =>
      let v := jget d k in
      if truthy v then
        let p := _price uni (Some (py_str v)) in
        if price_truthy p then p else price_keys d keys' p
      else price_keys d keys' price
  end.

Definition STRUCT_PRICE_KEYS : list str :=
  [lit "price"; lit "pricing"; lit "list_price"; lit "sale_price";
   lit "original_price"].

Definition STRUCT_PRICING_KEYS : list str :=
  [lit "current_price"; lit "price"; lit "sale_price"].

(** The price of [_parse_amazon_structured]: the first price among the
    top-level keys, then among the keys of a nested ["pricing"] dict. *)
Definition structured_price (data : list (str * json)) : option float :=
  let price := price_keys data STRUCT_PRICE_KEYS None in
  if price_truthy price then price
  else match jget data (lit "pricing") with
       | JObj pricing =>
           price_keys pricing STRUCT_PRICING_KEYS price
       | _ => price
       end.

(** The image of [_parse_amazon_structured]. *)
Definition structured_img (data : list (str * json)) : option str :=
  let img :=
    match jget_or data [lit "images"; lit "product_photos"] (JList []) with
    | JList (JStr s :: _) => JStr s
    | _ => JNull
    end in
  let img :=
    if truthy img then img
    else jget_or data [lit "main_image"; lit "image"] (jget data (lit "thumbnail")) in
  img_of_json img.

(** [_parse_amazon_structured(data)] *)
Definition _parse_amazon_structured (data : list (str * json)) : Result (option Product) :=
  match data with
  | [] => Ok None
  | _ =>
      match jget_or data [lit "name"; lit "product_title"] (JStr []) with
      | JStr s =>
          let title := nonempty (strip uni s) in
          let price := structured_price data in
          let img := structured_img data in
          let url := jget_or data [lit "url"; lit "product_url"] (JStr []) in
          let avail := py_or (jget data (lit "availability")) (JStr (lit "In Stock")) in
          let specs := _extract_specs_from_structured data in
          if negb (str_truthy title || price_truthy price || str_truthy img) then Ok None
          else Ok (Some {| platform := lit "Amazon"; title := title; price := price;
                           image_url := img; url := url; availability := avail;
                           specs := specs |})
      | _ => Raise AttributeError
      end
  end.

(** The response a scraper goes on with: [not resp or _blocked(resp.text)]
    sends it to the next strategy. *)
Definition unusable (r : option Response) : bool := negb (usable r).

(** The loop over the image selectors of [scrape_amazon], from the current
    [img]. *)
Fixpoint amazon_img_from (soup : Soup) (sels : list str) (img : option str) : option str :=
  match sels with
  | [] => img
  | sel :: sels' =>
      match select_one soup sel with
      | Some el =>
          let dyn := default [] (attr el (lit "data-a-dynamic-image")) in
          let from_dyn :=
            match dyn with
            | [] => None
            | _ =>
                match json_loads dyn with
                | Some (JObj ((k, _) :: _)) => Some k
                | _ => None
                end
            end in
          match from_dyn with
          | Some k => Some k
          | None =>
              let img :=
                match attr el (lit "src") with
                | Some (c :: v) => Some (c :: v)
                | _ =>
                    match attr el (lit "data-old-hires") with
                    | Some (c :: v) => Some (c :: v)
                    | _ => attr el (lit "data-src")
                    end
                end in
              if str_truthy img && startswith (lit "http") (default [] img) then img
              else amazon_img_from soup sels' img
          end
      | None => amazon_img_from soup sels' img
      end
  end.

(** The extraction part of [scrape_amazon], from the body of the page. *)
Definition amazon_extract (url html : str) : Result (option Product) :=
  let soup := BeautifulSoup html in
  let title := title_from soup AMZN_TITLE_SELS in
  let price := price_from soup AMZN_PRICE_SELS in
  let price := if price_truthy price then price
               else _extract_price_from_scripts html in
  let img := amazon_img_from soup AMZN_IMG_SELS None in
  let img := if str_truthy img then img
             else _extract_image_from_scripts html in
  match _json_ld soup with
  | Raise e => Raise e
  | Ok (ld_t, ld_p, ld_i) =>
      let '(og_t, og_p, og_i) := _og soup in
      let title := str_or title (str_or ld_t og_t) in
      let price := price_or price (price_or ld_p og_p) in
      let img := _norm_img uni (str_or img (str_or ld_i og_i)) in
      let specs := _extract_amazon_specs soup in
      let avail :=
        match select_one soup (lit "#availability span") with
        | Some el => match text_joined el with
                     | [] => lit "In Stock"
                     | t => t
                     end
        | None => lit "In Stock"
        end in
      if negb (str_truthy title || price_truthy price || str_truthy img)
      then Ok None
      else Ok (Some {| platform := lit "Amazon"; title := title; price := price;
                       image_url := img; url := JStr url;
                       availability := JStr avail; specs := specs |})
  end.

(** Strategy 1 of [scrape_amazon]: the structured record, when it has a
    title or a price. *)
Definition amazon_structured (struct : option (list (str * json)))
    : Result (option Product) :=
  match struct with
  | Some (kv :: data) =>
      match _parse_amazon_structured (kv :: data) with
      | Ok (Some r) =>
          if str_truthy (title r) || price_truthy (price r) then Ok (Some r)
          else Ok None
      | Ok None => Ok None
      | Raise e => Raise e
      end
  | _ => Ok None
  end.

Definition scrape_amazon (url : str) : M (option Product) :=
  emit (Enter (lit "scrape_amazon") url) ;;;
  let* struct := _scraperapi_structured url 30 in
  let* early := lift (amazon_structured struct) in
  match early with
  | Some r => ret (Some r)
  | None =>
      let* resp := _scraperapi_html url false 60 in
      let* resp := (if unusable resp
                    then _direct_fetch url (lit "https://www.amazon.in/") false
                    else ret resp) in
      match resp with
      | Some r =>
          if unusable resp then ret None
          else lift (amazon_extract url (text r))
      | None => ret None
      end
  end.

Definition FK_TITLE_SELS : list str :=
  [lit "span.VU-ZEz"; lit "h1.yhB1nd"; lit ".B_NuCI"; lit "span.B_NuCI";
   lit "span[class*='VU-ZEz']"; lit "div[class*='GNDEQ-'] h1";
   lit "div.col.col-7-12 h1"; lit "h1"].

Definition FK_PRICE_SELS : list str :=
  [lit "div.Nx9bqj.CxhGGd"; lit "div.Nx9bqj"; lit "div[class*='Nx9bqj']";
   lit "._30jeq3._16Jk6d"; lit "._30jeq3"; lit "div._16Jk6d";
   lit "[itemprop='price']"; lit "div.UOCQB1"; lit "div._3tbKJL";
   lit "div.CEmiEU div.Nx9bqj"].

Definition FK_IMG_SELS : list str :=
  [lit "img.DByuf4"; lit "img._396cs4"; lit "img._2r_T1I"; lit "img._53J4C-";
   lit "img[src*='rukminim']"; lit "img[src*='flixcart']";
   lit "div._2r_T1I img"; lit "div._3kidU img"].

Fixpoint take_until (f : char -> bool) (s : str) : str :=
  match s with
  | [] => []
  | c :: s' => if f c then [] else c :: take_until f s'
  end.

(** [src.split(",")[0].split()[0]] for a [src] that starts with ["http"]. *)
Definition first_src (src : str) : str :=
  take_until (u_isspace uni) (take_until (N.eqb 44%N) src).

(** The loop over the image selectors of [scrape_flipkart]. *)
Fixpoint flipkart_img_from (soup : Soup) (sels : list str) : option str :=
  match sels with
  | [] => None
  | sel :: sels' =>
      match select_one soup sel with
      | Some el =>
          let src := first_attr el [lit "src"; lit "data-src"] in
          if negb (str_eqb src []) && startswith (lit "http") src
          then Some (first_src src)
          else flipkart_img_from soup sels'
      | None => flipkart_img_from soup sels'
      end
  end.

(** The price tied to the product id is preferred to a missing price, and
    to a price below 1000 when it is itself at least 1000. *)
Definition prefer_pid_price (pid_price price : option float) : option float :=
  match pid_price with
  | Some pp =>
      if float_truthy pp &&
         (negb (price_truthy price) ||
          match price with
          | Some p => fltb p (flit 1000 1) && fleb (flit 1000 1) pp
          | None => false
          end)
      then pid_price else price
  | None => price
  end.

(** The extraction part of [scrape_flipkart], from the body of the page:
    the URL (canonical when the page names one) and the record, [None]
    when title, price and image are all missing. *)
Definition flipkart_extract (url html : str) : Result (str * option Product) :=
  let soup := BeautifulSoup html in
  match (match select_one soup LINK_CANONICAL with
         | Some canon =>
             match strip uni (default [] (attr canon (lit "href"))) with
             | [] => Ok url
             | href => urljoin url href
             end
         | None => Ok url
         end) with
  | Raise e => Raise e
  | Ok url =>
      let title := title_from soup FK_TITLE_SELS in
      let price := price_from soup FK_PRICE_SELS in
      let price := if price_truthy price then price
                   else _extract_price_from_scripts html in
      let pid_price := _extract_flipkart_pid_price html url in
      let price := prefer_pid_price pid_price price in
      let img := flipkart_img_from soup FK_IMG_SELS in
      let img := if str_truthy img then img
                 else _extract_image_from_scripts html in
      match _json_ld soup with
      | Raise e => Raise e
      | Ok (ld_t, ld_p, ld_i) =>
          let '(og_t, og_p, og_i) := _og soup in
          let title := str_or title (str_or ld_t og_t) in
          let price := price_or price (price_or ld_p og_p) in
          let img := _norm_img uni (str_or img (str_or ld_i og_i)) in
          let specs := _extract_flipkart_specs soup in
          if negb (str_truthy title || price_truthy price || str_truthy img)
          then Ok (url, None)
          else Ok (url, Some {| platform := lit "Flipkart"; title := title;
                                price := price; image_url := img; url := JStr url;
                                availability := JStr (lit "In Stock");
                                specs := specs |})
      end
  end.

(** The fetch strategies of [scrape_flipkart]. *)
Definition flipkart_fetch (url : str) (is_short_fk : bool) : M (option Response) :=
  let* resp :=
    (if is_short_fk then
       let* resp := _scraperapi_html_flipkart_short url 15 in
       if unusable resp then _scraperapi_html url false 20 else ret resp
     else _scraperapi_html url false 25) in
  let* resp := (if unusable resp
                then _direct_fetch url (lit "https://www.flipkart.com/") true
                else ret resp) in
  if unusable resp && has_key && negb is_short_fk
  then _scraperapi_html url true 25
  else ret resp.

(** [scrape_flipkart]; [depth] is the number of frames the interpreter
    still allows: a call that has none left raises [RecursionError]. *)
Fixpoint scrape_flipkart (depth : nat) (url : str) : M (option Product) :=
  match depth with
  | O => raise RecursionError
  | S depth' =>
      emit (Enter (lit "scrape_flipkart") url) ;;;
      let* host := lift (netloc_lower url) in
      let is_short_fk := str_in host FK_SHORT_HOSTS in
      let* resp := flipkart_fetch url is_short_fk in
      match resp with
      | Some r =>
          if unusable resp then ret None
          else
            let* found := lift (flipkart_extract url (text r)) in
            match found.2 with
            | Some record => ret (Some record)
            | None =>
                if is_short_fk then
                  let* resolved := resolve_url found.1 false in
                  if negb (str_eqb resolved []) && negb (str_eqb resolved found.1)
                  then scrape_flipkart depth' resolved
                  else ret None
                else ret None
            end
      | None => ret None
      end
  end.

End Scrapers.


(** ** The main entry point *)

(** The ["comparison"] dict of the result. *)
Record Comparison := {
  cheapest_platform : option str;
  cheapest_price : option float;
  price_difference : option float;
  savings_platform : option str;
  both_found : bool;
}.

(** The ["prediction"] dict of the result. *)
Record Prediction := {
  future_prices : list (str * float);
  recommendation : str;
  max_savings : option float;
  best_time_days : option Z;
  confidence : float;
}.

(** The dict [analyze_url] returns; a failure carries [success] and [error]
    only, a success everything but [error]. *)
Record Analysis := {
  success : bool;
  error : option str;
  product_name : option str;
  source_platform : option str;
  source_url : option str;
  resolved_url : option str;
  platforms_found : list str;
  current_price : option float;
  product_image_url : option str;
  prediction : option Prediction;
  amazon : option Product;
  flipkart : option Product;
  comparison : option Comparison;
}.

Definition failure (msg : str) : Analysis := {|
  success := false; error := Some msg; product_name := None;
  source_platform := None; source_url := None; resolved_url := None;
  platforms_found := []; current_price := None; product_image_url := None;
  prediction := None; amazon := None; flipkart := None; comparison := None;
|}.

(** *** Comparison *)

(** The loop [for plat, info in results.items()] that tracks the cheapest
    platform, from [(cheapest_platform, cheapest_price)]. *)
Fixpoint cheapest_loop (results : list (str * Product)) (best : option str * float)
    : option str * float :=
  match results with
  | [] => best
  | (plat, info) :: rest =>
      match price info with
      | Some p =>
          if float_truthy p && fltb p best.2 then cheapest_loop rest (Some plat, p)
          else cheapest_loop rest best
      | None => cheapest_loop rest best
      end
  end.

(** [[v.get("price") for v in results.values() if v.get("price")]] *)
Definition found_prices (results : list (str * Product)) : list float :=
  omap (fun kv => match price kv.2 with
                  | Some p => if float_truthy p then Some p else None
                  | None => None
                  end) results.

Definition build_comparison (results : list (str * Product)) : Comparison :=
  let '(plat, cp) := cheapest_loop results (None, finf) in
  let price_diff :=
    match found_prices results with
    | [p0; p1] => Some (fabs (fsub p0 p1))
    | _ => None
    end in
  {| cheapest_platform := plat;
     cheapest_price := if feqb cp finf then None else Some cp;
     price_difference := price_diff;
     savings_platform := plat;
     both_found := (length results =? 2)%nat |}.

(** *** Prediction *)

Definition HORIZONS : list (str * float) :=
  [(lit "7_days", flit 98 100); (lit "15_days", flit 95 100);
   (lit "30_days", flit 92 100); (lit "60_days", flit 90 100);
   (lit "90_days", flit 88 100)].

Definition build_prediction (current_price : option float) (n_results : nat)
    : Prediction :=
  let conf := if (n_results =? 2)%nat then flit 85 100 else flit 60 100 in
  match current_price with
  | Some p =>
      if float_truthy p then
        let future := (fun hf : str * float => (hf.1, py_round2 (fmul p hf.2))) <$> HORIZONS in
        let lowest :=
          match future.*2 with
          | [] => p
          | x :: xs => fmin_list x xs
          end in
        let ms := py_round2 (fsub p lowest) in
        let wait := fltb (flit 5 100) (fdiv ms p) in
        {| future_prices := future;
           recommendation := if wait then lit "WAIT" else lit "BUY_NOW";
           max_savings := Some ms;
           best_time_days := if wait then Some 90 else None;
           confidence := conf |}
      else
        {| future_prices := []; recommendation := lit "PRICE_UNAVAILABLE";
           max_savings := None; best_time_days := None; confidence := conf |}
  | None =>
      {| future_prices := []; recommendation := lit "PRICE_UNAVAILABLE";
         max_savings := None; best_time_days := None; confidence := conf |}
  end.

Section Analyze.
Context `{E : Env}.

(** [re.sub(r'[-_]+', ' ', s)] *)
Fixpoint dashes_to_space (in_run : bool) (s : str) : str :=
  match s with
  | [] => []
  | c :: s' =>
      if (c =? 45)%N || (c =? 95)%N
      then (if in_run then dashes_to_space true s'
            else 32%N :: dashes_to_space true s')
      else c :: dashes_to_space false s'
  end.

(** [s.split('/')] *)
Fixpoint split_slash (cur : str) (s : str) : list str :=
  match s with
  | [] => [cur]
  | c :: s' =>
      if (c =? 47)%N then cur :: split_slash [] s'
      else split_slash (cur ++ [c]) s'
  end.

(** [max(segs, key=len)]: the first of the longest. *)
Definition longest (x : str) (xs : list str) : str :=
  fold_left (fun cur y => if len cur <? len y then y else cur) xs x.

Definition name_of (g : str) : option str :=
  Some (strip uni (dashes_to_space false g)).

(** [_name_from_url(url)]: the whole body is inside a [try]. *)
Definition _name_from_url (url : str) : option str :=
  match urlparse url with
  | Raise _ => None
  | Ok u =>
      let path := unquote (path u) in
      let host := lower uni (netloc u) in
      let amazon :=
        if contains (lit "amazon") host then re_search AmazonNamePattern path
        else None in
      match amazon with
      | Some g => name_of g
      | None =>
          let flip :=
            if contains (lit "flipkart") host then re_search FlipkartNamePattern path
            else None in
          match flip with
          | Some g => name_of g
          | None =>
              let segs :=
                filter (fun s => contains (lit "-") s = true /\ 10 < len s)
                       (split_slash [] path) in
              match segs with
              | [] => None
              | x :: xs => name_of (longest x xs)
              end
          end
      end
  end.

Definition MSG_REQUIRED : str := lit "URL is required".

Definition MSG_PLATFORM : str :=
  lit "Could not identify platform. Please paste a direct Amazon.in or Flipkart.com product URL.".

Definition MSG_NO_DATA : str :=
  lit "Could not extract product details from this URL. (ScraperAPI key: " ++
  (if has_key then lit "active" else lit "MISSING") ++
  lit "). Please try a full product URL, not a short link.".

(** [results.get(source) or next(iter(results.values()))], [None] for an
    empty dict. *)
Definition source_data (results : list (str * Product)) (source : str) : option Product :=
  match list_find (fun kv => kv.1 = source) results with
  | Some (_, kv) => Some kv.2
  | None => match results with kv :: _ => Some kv.2 | [] => None end
  end.

Definition result_for (results : list (str * Product)) (plat : str) : option Product :=
  match list_find (fun kv => kv.1 = plat) results with
  | Some (_, kv) => Some kv.2
  | None => None
  end.

(** The tail of [analyze_url], from the dict [results]. *)
Definition report (raw_url url source : str) (product_name : option str)
    (results : list (str * Product)) : Analysis :=
  let src_data := source_data results source in
  let current := match src_data with Some d => price d | None => None end in
  {| success := true; error := None;
     product_name := product_name;
     source_platform := Some source;
     source_url := Some raw_url;
     resolved_url := Some url;
     platforms_found := results.*1;
     current_price := current;
     product_image_url := match src_data with Some d => image_url d | None => None end;
     prediction := Some (build_prediction current (length results));
     amazon := result_for results (lit "amazon");
     flipkart := result_for results (lit "flipkart");
     comparison := Some (build_comparison results) |}.

Definition analyze_url (raw_url : str) : M Analysis :=
  let url := strip uni raw_url in
  match url with
  | [] => ret (failure MSG_REQUIRED)
  | _ =>
      let* host := lift (stripped_host url) in
      let is_fk_short := str_in host FK_SHORT_HOSTS in
      let* must_resolve :=
        (if is_fk_short then ret false
         else
           let* short := lift (_is_short url) in
           ret (short || (negb (contains (lit "amazon.in") url) &&
                          negb (contains (lit "flipkart.com") url)))) in
      let* url := (if must_resolve then resolve_url url false else ret url) in
      let url_l := lower uni url in
      let source :=
        if contains (lit "amazon.in") url_l || contains (lit "amazon.com") url_l
        then Some (lit "amazon")
        else if contains (lit "flipkart.com") url_l then Some (lit "flipkart")
        else None in
      match source with
      | None => ret (failure MSG_PLATFORM)
      | Some source =>
          let* data :=
            (if str_eqb source (lit "amazon") then scrape_amazon url
             else scrape_flipkart recursion_limit url) in
          let results := match data with Some d => [(source, d)] | None => [] end in
          let product_name := match data with Some d => title d | None => None end in
          let product_name :=
            if str_truthy product_name then product_name else _name_from_url url in
          match results with
          | [] =>
              if negb (str_truthy product_name) then ret (failure MSG_NO_DATA)
              else
                ret (report raw_url url source product_name
                       [(source,
                         {| platform := if str_eqb source (lit "amazon")
                                        then lit "Amazon" else lit "Flipkart";
                            title := product_name; price := None; image_url := None;
                            url := JStr url;
                            availability := JStr (lit "Price could not be verified");
                            specs := [] |})])
          | _ => ret (report raw_url url source product_name results)
          end
      end
  end.

End Analyze.


(** ** Reference worlds

    To run the program the environment has to be filled in.  The three
    functions of [urllib.parse] below follow the library on ASCII input
    ([urlsplit]'s scheme, [//netloc], [?query] and [#fragment] split with
    its bracket check; [parse_qs] with blank values dropped; [unquote] of
    escapes below [%80]).  The worlds differ in what the network answers. *)

Definition is_alpha (c : char) : bool :=
  ((65 <=? c)%N && (c <=? 90)%N) || ((97 <=? c)%N && (c <=? 122)%N).

Definition is_scheme_char (c : char) : bool :=
  is_alpha c || ((48 <=? c)%N && (c <=? 57)%N) || char_in (lit "+-.") c.

(** The part of [s] before the first character satisfying [f], and the rest
    (from that character on). *)
Fixpoint break_at (f : char -> bool) (s : str) : str * str :=
  match s with
  | [] => ([], [])
  | c :: s' =>
      if f c then ([], s)
      else let '(a, b) := break_at f s' in (c :: a, b)
  end.

Definition drop_scheme (u : str) : str :=
  let '(sch, rest) := break_at (N.eqb 58%N) u in
  match sch, rest with
  | c :: _, _ :: after =>
      if is_alpha c && forallb is_scheme_char sch then after else u
  | _, _ => u
  end.

Definition model_urlparse (url : str) : Result Url :=
  let u := lstrip_by (fun c => (c <=? 32)%N) url in
  let u := filter (fun c => negb (char_in [9; 10; 13]%N c)) u in
  let u := drop_scheme u in
  let '(net, rest) :=
    if startswith (lit "//") u
    then break_at (char_in (lit "/?#")) (drop 2 u)
    else ([], u) in
  if xorb (char_in net 91%N) (char_in net 93%N) then Raise ValueError
  else
    let '(before_frag, _) := break_at (N.eqb 35%N) rest in
    let '(pth, q) := break_at (N.eqb 63%N) before_frag in
    Ok {| netloc := net; path := pth; query := drop 1 q |}.

Definition hex_value (c : char) : option N :=
  if (48 <=? c)%N && (c <=? 57)%N then Some (c - 48)%N
  else if (65 <=? c)%N && (c <=? 70)%N then Some (c - 55)%N
  else if (97 <=? c)%N && (c <=? 102)%N then Some (c - 87)%N
  else None.

Fixpoint model_unquote (s : str) : str :=
  match s with
  | 37%N :: ((h :: l :: s') as rest) =>
      match hex_value h, hex_value l with
      | Some a, Some b =>
          if (a <? 8)%N then (16 * a + b)%N :: model_unquote s'
          else 37%N :: model_unquote rest
      | _, _ => 37%N :: model_unquote rest
      end
  | c :: s' => c :: model_unquote s'
  | [] => []
  end.

(** [s.split(c)] *)
Fixpoint split_char (c : char) (cur : str) (s : str) : list str :=
  match s with
  | [] => [cur]
  | x :: s' =>
      if (x =? c)%N then cur :: split_char c [] s'
      else split_char c (cur ++ [x]) s'
  end.

Fixpoint qs_add (k v : str) (qs : list (str * list str)) : list (str * list str) :=
  match qs with
  | [] => [(k, [v])]
  | (k', vs) :: qs' =>
      if str_eqb k' k then (k', vs ++ [v]) :: qs' else (k', vs) :: qs_add k v qs'
  end.

Definition plus_to_space (s : str) : str :=
  map (fun c => if (c =? 43)%N then 32%N else c) s.

Definition model_parse_qs (q : str) : Result (list (str * list str)) :=
  Ok (fold_left
        (fun qs piece =>
           let '(name, rest) := break_at (N.eqb 61%N) piece in
           match rest with
           | _ :: (c :: v) =>
               qs_add (model_unquote (plus_to_space name))
                      (model_unquote (plus_to_space (c :: v))) qs
           | _ => qs
           end)
        (split_char 38%N [] q) []).

(** The key the source falls back to when the environment sets none. *)
Definition DEFAULT_KEY : str := lit "de53cb944e251074ae54345f7eef6f07".

(** No connectivity: every request raises. Pages are never parsed. *)
Definition offline : Env := {|
  uni := ascii_tables;
  SCRAPER_API_KEY := DEFAULT_KEY;
  _HAS_CS := false;
  recursion_limit := 1000;
  http := fun _ _ => None;
  completion_order := fun _ => [false; true];
  urlparse := model_urlparse;
  parse_qs := model_parse_qs;
  unquote := model_unquote;
  urljoin := fun _ u => Ok u;
  json_loads := fun _ => None;
  repr_container := fun _ => [];
  Soup := unit;
  BeautifulSoup := fun _ => tt;
  select_one := fun _ _ => None;
  select := fun _ _ => [];
  re_search := fun _ _ => None;
  table_pairs := fun _ _ => [];
  ld_props := fun _ => [];
  structured_pairs := fun _ => [];
|}.

(** A page of 1200 blanks: large enough for the proxy strategy to accept
    it, and with nothing in it to extract. *)
Definition blank_response : Response := {|
  status_code := 200;
  content_len := 1200;
  text := repeat 32%N 1200%nat;
  resp_url := [];
  location := [];
  json_body := None;
|}.

(** The proxy answers every request with the blank page; direct requests
    fail. *)
Definition blank_pages : Env := {|
  uni := ascii_tables;
  SCRAPER_API_KEY := DEFAULT_KEY;
  _HAS_CS := false;
  recursion_limit := 1000;
  http := fun _ c => match c with GetProxy _ _ _ => Some blank_response | _ => None end;
  completion_order := fun _ => [false; true];
  urlparse := model_urlparse;
  parse_qs := model_parse_qs;
  unquote := model_unquote;
  urljoin := fun _ u => Ok u;
  json_loads := fun _ => None;
  repr_container := fun _ => [];
  Soup := unit;
  BeautifulSoup := fun _ => tt;
  select_one := fun _ _ => None;
  select := fun _ _ => [];
  re_search := fun _ _ => None;
  table_pairs := fun _ _ => [];
  ld_props := fun _ => [];
  structured_pairs := fun _ => [];
|}.


(** A tag with the given text and attributes. *)
Definition tag (txt : str) (attrs : list (str * str)) : Element := {|
  text_joined := txt;
  text_plain := txt;
  script_text := txt;
  attr := fun name => snd <$> head (filter (fun kv => kv.1 = name) attrs);
|}.

Definition SAMPLE_TITLE : str := lit "Sample Phone (Black, 128 GB)".
Definition SAMPLE_PRICE : str := 8377%N :: lit "1,299.00".

(** The tags of the sample product page, by selector. *)
Definition sample_select_one (sel : str) : option Element :=
  if str_eqb sel (lit "#productTitle") || str_eqb sel (lit "span.VU-ZEz")
  then Some (tag SAMPLE_TITLE [])
  else if str_eqb sel (lit ".a-price .a-offscreen") || str_eqb sel (lit "div.Nx9bqj")
  then Some (tag SAMPLE_PRICE [])
  else if str_eqb sel (lit "#landingImage")
  then Some (tag [] [(lit "src", lit "//m.media-amazon.com/images/I/sample.jpg")])
  else if str_eqb sel (lit "img.DByuf4")
  then Some (tag [] [(lit "src", lit "https://rukminim2.flixcart.com/image/sample.jpeg?q=70 1x")])
  else None.

Definition sample_response : Response := {|
  status_code := 200;
  content_len := 1220;
  text := lit "<html>sample</html>" ++ repeat 32%N 1200%nat;
  resp_url := [];
  location := [];
  json_body := None;
|}.

(** The proxy answers every page request with a product page that carries
    a title, a price of 1,299.00 rupees and an image. *)
Definition sample_pages : Env := {|
  uni := ascii_tables;
  SCRAPER_API_KEY := DEFAULT_KEY;
  _HAS_CS := false;
  recursion_limit := 1000;
  http := fun _ c => match c with GetProxy _ _ _ => Some sample_response | _ => None end;
  completion_order := fun _ => [false; true];
  urlparse := model_urlparse;
  parse_qs := model_parse_qs;
  unquote := model_unquote;
  urljoin := fun _ u => Ok u;
  json_loads := fun _ => None;
  repr_container := fun _ => [];
  Soup := unit;
  BeautifulSoup := fun _ => tt;
  select_one := fun _ sel => sample_select_one sel;
  select := fun _ _ => [];
  re_search := fun _ _ => None;
  table_pairs := fun _ _ => [];
  ld_props := fun _ => [];
  structured_pairs := fun _ => [];
|}.

Definition SAMPLE_AMAZON_URL : str := lit "https://www.amazon.in/sample-phone/dp/B0SAMPLE".
Definition SAMPLE_FLIPKART_URL : str :=
  lit "https://www.flipkart.com/sample-phone/p/itmsample?pid=MOBSAMPLE".


Definition SHORT_A : str := lit "https://dl.flipkart.com/a".
Definition SHORT_B : str := lit "https://dl.flipkart.com/b".

(** A response whose final URL, after redirects, is [final]. *)
Definition redirected_to (final : str) : Response := {|
  status_code := 200;
  content_len := 1200;
  text := repeat 32%N 1200%nat;
  resp_url := final;
  location := [];
  json_body := None;
|}.

(** Two short links that lead to each other: following [SHORT_A] ends at
    [SHORT_B] and following [SHORT_B] ends at [SHORT_A]; the proxy serves the
    blank page for both. *)
Definition two_short_links : Env := {|
  uni := ascii_tables;
  SCRAPER_API_KEY := DEFAULT_KEY;
  _HAS_CS := false;
  recursion_limit := 1000;
  http := fun _ c =>
    match c with
    | GetProxy _ _ _ => Some blank_response
    | GetResolve u _ _ =>
        if str_eqb u SHORT_A then Some (redirected_to SHORT_B)
        else if str_eqb u SHORT_B then Some (redirected_to SHORT_A)
        else None
    | _ => None
    end;
  completion_order := fun _ => [false; true];
  urlparse := model_urlparse;
  parse_qs := model_parse_qs;
  unquote := model_unquote;
  urljoin := fun _ u => Ok u;
  json_loads := fun _ => None;
  repr_container := fun _ => [];
  Soup := unit;
  BeautifulSoup := fun _ => tt;
  select_one := fun _ _ => None;
  select := fun _ _ => [];
  re_search := fun _ _ => None;
  table_pairs := fun _ _ => [];
  ld_props := fun _ => [];
  structured_pairs := fun _ => [];
|}.

(** A short link whose [url] parameter is a short link whose [url]
    parameter is a short link. *)
Definition NESTED_A : str :=
  lit "https://dl.flipkart.com/a?url=https%3A%2F%2Fdl.flipkart.com%2Fb%3Furl%3Dhttps%253A%252F%252Fdl.flipkart.com%252Fc".
Definition NESTED_B : str :=
  lit "https://dl.flipkart.com/b?url=https://dl.flipkart.com/c".
Definition NESTED_C : str := lit "https://dl.flipkart.com/c".

(** The URLs [scrape_flipkart] was entered with, in order. *)
Definition flipkart_entries (log : Log) : list str :=
  omap (fun e => match e with
                 | Enter fn u => if str_eqb fn (lit "scrape_flipkart") then Some u else None
                 | Fetch _ => None
                 end) log.


(** A record with the given title and price, for the comparison examples. *)
Definition record_of (plat ttl : str) (p : option float) : Product := {|
  platform := plat;
  title := Some ttl;
  price := p;
  image_url := None;
  url := JStr [];
  availability := JStr (lit "In Stock");
  specs := [];
|}.

(** Both marketplaces found, at 500 and 650. *)
Definition both_priced : list (str * Product) :=
  [(lit "amazon", record_of (lit "Amazon") (lit "Phone") (Some (flit 500 1)));
   (lit "flipkart", record_of (lit "Flipkart") (lit "Phone") (Some (flit 650 1)))].


(** ** The analysis endpoint

    [analyze_product] of [app.py], the caller of [analyze_url]. *)




Section Endpoint.
Context `{E : Env}.
(** [str(e)] for an exception. *)
Context (exn_text : exn -> str).




End Endpoint.


(** ** Further worlds and sample runs *)

(** A world like [offline], with no key for the proxy service. *)
Definition keyless : Env := {|
  uni := ascii_tables;
  SCRAPER_API_KEY := [];
  _HAS_CS := true;
  recursion_limit := 1000;
  http := fun _ _ => None;
  completion_order := fun _ => [false; true];
  urlparse := model_urlparse;
  parse_qs := model_parse_qs;
  unquote := model_unquote;
  urljoin := fun _ u => Ok u;
  json_loads := fun _ => None;
  repr_container := fun _ => [];
  Soup := unit;
  BeautifulSoup := fun _ => tt;
  select_one := fun _ _ => None;
  select := fun _ _ => [];
  re_search := fun _ _ => None;
  table_pairs := fun _ _ => [];
  ld_props := fun _ => [];
  structured_pairs := fun _ => [];
|}.


(** What [scrape_flipkart] returns for the sample Flipkart page, and what it
    logs. *)
Definition sample_flipkart_record : Product := {|
  platform := lit "Flipkart";
  title := Some SAMPLE_TITLE;
  price := Some (flit 1299 1);
  image_url := Some (lit "https://rukminim2.flixcart.com/image/sample.jpeg?q=70");
  url := JStr SAMPLE_FLIPKART_URL;
  availability := JStr (lit "In Stock");
  specs := [];
|}.

Definition sample_flipkart_log : Log :=
  [Enter (lit "scrape_flipkart") SAMPLE_FLIPKART_URL;
   Fetch (GetProxy SAMPLE_FLIPKART_URL false 25)].

(** The analysis of the sample Amazon page. *)
Definition sample_analysis : Analysis :=
  match (@analyze_url sample_pages SAMPLE_AMAZON_URL []).1 with
  | Ok r => r
  | Raise _ => failure []
  end.


(** ** Runs, requests and records

    The vocabulary of the properties of the fetch strategies, the
    resolution and the scrapers. *)

(** The URL a request is for. *)
Definition call_url (c : NetCall) : str :=
  match c with
  | GetStructured u _ | GetProxy u _ _ | GetCloudscraper u _ _
  | GetDirect u _ _ _ | GetResolve u _ _ => u
  end.

(** The requests that go to the proxy service. *)
Definition via_proxy (c : NetCall) : bool :=
  match c with
  | GetStructured _ _ | GetProxy _ _ _ => true
  | _ => false
  end.

(** The requests among the events of a run. *)
Definition requests_of (evs : list Event) : list NetCall :=
  omap (fun e => match e with Fetch c => Some c | Enter _ _ => None end) evs.

(** From any log, [m] appends events that satisfy [ev], at most [n] of
    them requests, and ends with a result satisfying [P]. *)
Definition bounded {A} (ev : Event -> Prop) (n : nat) (P : Result A -> Prop) (m : M A)
    : Prop :=
  forall log, exists res evs,
    m log = (res, log ++ evs) /\
    (length (requests_of evs) <= n)%nat /\ Forall ev evs /\ P res.


Section Sent.
Context `{E : Env}.

(** An event of a run on [url]: the entry of a function called on it, or
    a request for it, which goes to the proxy service only when there is
    a key for it. *)
Definition sent (url : str) (e : Event) : Prop :=
  match e with
  | Fetch c => call_url c = url /\ (via_proxy c = true -> has_key = true)
  | Enter _ u => u = url
  end.

End Sent.

(** An event of a run on [url] that does not involve the proxy service. *)
Definition direct_to (url : str) (e : Event) : Prop :=
  match e with
  | Fetch c => call_url c = url /\ via_proxy c = false
  | Enter _ u => u = url
  end.

(** A response that passed a size check. *)
Definition sized (n : Z) (r : option Response) : Prop :=
  match r with Some r => status_code r = 200 /\ n < content_len r | None => True end.

(** A result that is a value satisfying [Q], not an exception. *)
Definition returns {A} (Q : A -> Prop) (res : Result A) : Prop :=
  match res with Ok a => Q a | Raise _ => False end.

(** A record that has a title, a price or an image. *)
Definition filled (r : Product) : Prop :=
  str_truthy (title r) || price_truthy (price r) || str_truthy (image_url r) = true.

(** A title that is absent or has at least one character. *)
Definition titled (t : option str) : Prop := t <> Some [].

(** A string with something other than [f]-characters at both ends. *)
Definition trimmed (f : char -> bool) (s : str) : Prop :=
  s = [] \/ exists a m z, s = a :: m /\ s = z.1 ++ [z.2] /\ f a = false /\ f z.2 = false.

(** No no-break space and no directional mark. *)
Definition unmarked (c : char) : Prop := c <> 160%N /\ is_bidi c = false.

Section Tidy.
Context (U : Unicode).

(** White space occurs only as single blanks; [prev] tells that the
    character before the string is white space. *)
Fixpoint single_spaced (prev : bool) (s : str) : bool :=
  match s with
  | [] => true
  | c :: s' =>
      if u_isspace U c then (c =? 32)%N && negb prev && single_spaced true s'
      else single_spaced false s'
  end.

(** A colon, a blank or white space. *)
Definition spec_trim (c : char) : bool := u_isspace U c || char_in (lit ": ") c.

(** What [_clean_spec_text] produces. *)
Definition tidy (s : str) : Prop :=
  Forall unmarked s /\ single_spaced false s = true /\ trimmed spec_trim s.

End Tidy.

(** An entry with a key of 1 to 80 characters and a value of 1 to 260. *)
Definition entry_sized (kv : str * str) : Prop :=
  kv.1 <> [] /\ len kv.1 <= 80 /\ kv.2 <> [] /\ len kv.2 <= 260.

(** The name of the platform a record should carry. *)
Definition platform_name (source : str) : str :=
  if str_eqb source (lit "amazon") then lit "Amazon" else lit "Flipkart".

(** The result of a successful analysis, for the source platform [source]
    and its record [d]. *)
Definition single_platform (raw : str) (r : Analysis) (source : str) (d : Product) : Prop :=
  source_platform r = Some source /\
  platforms_found r = [source] /\
  source_url r = Some raw /\
  amazon r = (if str_eqb source (lit "amazon") then Some d else None) /\
  flipkart r = (if str_eqb source (lit "amazon") then None else Some d) /\
  platform d = platform_name source /\
  current_price r = price d /\
  product_image_url r = image_url d /\
  (exists c, comparison r = Some c /\ both_found c = false /\ price_difference c = None) /\
  (exists p, prediction r = Some p /\ confidence p = flit 60 100).


(** * Properties *)

(** ** Text lemmas *)

Lemma startswith_spec (p s : str) :
  startswith p s = true <-> exists t, s = p ++ t.
Proof.
  revert s; induction p as [|a p IH]; intros s; simpl.
  - split; [intros _; by exists s | done].
  - destruct s as [|b s]; simpl.
    + split; [done | intros [t Ht]; discriminate].
    + rewrite andb_true_iff, N.eqb_eq, IH. split.
      * intros [-> [t ->]]. by exists t.
      * intros [t Ht]. injection Ht as -> ->. eauto.
Qed.

Lemma contains_spec (n h : str) :
  contains n h = true <-> exists a b, h = a ++ n ++ b.
Proof.
  induction h as [|c h IH]; simpl.
  - rewrite orb_false_r, startswith_spec. split.
    + intros [t Ht]. exists [], t. done.
    + intros (a & b & Hab). destruct a; [|done]. simpl in Hab. eauto.
  - rewrite orb_true_iff, startswith_spec, IH. split.
    + intros [[t Ht] | (a & b & ->)].
      * exists [], t. done.
      * exists (c :: a), b. done.
    + intros (a & b & Hab). destruct a as [|c' a]; simpl in Hab.
      * left. eauto.
      * right. injection Hab as -> ->. eauto.
Qed.

Lemma len_app {A} (a b : list A) : len (a ++ b) = len a + len b.
Proof. unfold len. rewrite length_app. lia. Qed.


Lemma str_eqb_eq (a b : str) : str_eqb a b = true <-> a = b.
Proof. unfold str_eqb. by rewrite bool_decide_eq_true. Qed.

Lemma str_in_spec (s : str) (xs : list str) : str_in s xs = true <-> s ∈ xs.
Proof.
  unfold str_in. rewrite existsb_exists. setoid_rewrite str_eqb_eq.
  setoid_rewrite <- list_elem_of_In. naive_solver.
Qed.

Lemma ascii_tables_ok : UnicodeOK ascii_tables.
Proof.
  split; simpl; try done.
  intros c d. unfold ascii_decimal.
  destruct (_ && _) eqn:E; [|done].
  apply andb_true_iff in E as [E1 E2].
  apply N.leb_le in E1, E2. intros [= <-]. lia.
Qed.

(** ** Bot-block detection (C5) *)

Section BlockedFacts.
Context (U : Unicode) (OK : UnicodeOK U).

(** A character [str.lower] leaves alone: ASCII, and no capital letter. *)
Definition lower_fixed (c : char) : bool :=
  (c <? 128)%N && N.eqb (ascii_lower c) c.

Lemma lower_from_fixed (s b post : str) :
  forallb lower_fixed s = true ->
  lower_from U b (s ++ post) = s ++ lower_from U (b ++ s) post.
Proof using OK.
  revert b; induction s as [|c s IH]; intros b Hs; simpl.
  - by rewrite app_nil_r.
  - simpl in Hs. apply andb_true_iff in Hs as [Hc Hs].
    apply andb_true_iff in Hc as [Hc1%N.ltb_lt Hc2%N.eqb_eq].
    rewrite (ok_lower U OK) by done. rewrite Hc2. simpl.
    rewrite IH by done. by rewrite <- app_assoc.
Qed.

Lemma lower_keeps_fixed (s pre post b : str) :
  forallb lower_fixed s = true ->
  exists x y, lower_from U b (pre ++ s ++ post) = x ++ s ++ y.
Proof using OK.
  intros Hs. revert b; induction pre as [|c pre IH]; intros b; simpl.
  - exists [], (lower_from U (b ++ s) post). by rewrite lower_from_fixed.
  - destruct (IH (b ++ [c])) as (x & y & ->).
    exists (u_lower U b c (pre ++ s ++ post) ++ x), y. by rewrite <- app_assoc.
Qed.

Lemma signals_fixed (s : str) : s ∈ signals -> forallb lower_fixed s = true.
Proof.
  unfold signals. rewrite !elem_of_cons, elem_of_nil.
  intros [->|[->|[->|[->|[->|[]]]]]]; vm_compute; reflexivity.
Qed.

Lemma contains_lower (s html : str) :
  s ∈ signals -> contains s html = true -> contains s (lower U html) = true.
Proof using OK.
  intros Hs (a & b & ->)%contains_spec. apply contains_spec.
  apply lower_keeps_fixed, signals_fixed, Hs.
Qed.

End BlockedFacts.

(** C5. A body shorter than 20000 characters that contains one of the block
    phrases (["captcha"], ["robot check"], ...) is reported as blocked, and
    a body of 20000 characters or more never is, whatever it contains. *)
Theorem blocked_iff_phrase_and_short (U : Unicode) (OK : UnicodeOK U) (html : str) :
  (len html < 20000 ->
   (exists s, s ∈ signals /\ contains s html = true) ->
   _blocked U html = true) /\
  (20000 <= len html -> _blocked U html = false).
Proof.
  unfold _blocked. split.
  - intros Hlen (s & Hs & Hc). apply andb_true_iff. split.
    + apply existsb_exists. exists s. split.
      * by apply list_elem_of_In.
      * by apply contains_lower.
    + by apply Z.ltb_lt.
  - intros Hlen. apply andb_false_iff. right. by apply Z.ltb_ge.
Qed.

(** A captcha page of 31 characters, and the same text in a body of 20007. *)
Definition captcha_page : str := lit "please solve the captcha to go on".
Definition large_page : str := lit "captcha" ++ repeat 120%N (Z.to_nat 20000).

Lemma blocked_iff_phrase_and_short_witness :
  _blocked ascii_tables captcha_page = true /\
  _blocked ascii_tables large_page = false.
Proof.
  split.
  - apply (blocked_iff_phrase_and_short ascii_tables ascii_tables_ok captcha_page).
    + vm_compute. reflexivity.
    + exists (lit "captcha"). split; [|vm_compute; reflexivity].
      unfold signals. rewrite !elem_of_cons. auto.
  - apply (blocked_iff_phrase_and_short ascii_tables ascii_tables_ok large_page).
    vm_compute. discriminate.
Defined.

(** ** Specification normalisation (C7) *)

Section SpecsFacts.
Context (U : Unicode).

(** What one input pair contributes when nothing is filtered out: the
    cleaned key, its folded form and the clipped value. *)
Definition spec_candidate (p : option str * option str) : option (str * str * str) :=
  let key := _clean_spec_text U p.1 in
  let val := _clean_spec_text U p.2 in
  let kn := key_norm U key in
  if str_eqb key [] || str_eqb val [] then None
  else if str_eqb kn [] || str_in kn SPEC_NOISE_KEYS then None
  else if str_in (lower U val) UNAVAILABLE then None
  else if 80 <? len key then None
  else Some (key, kn, clip_value U val).

(** Keep the first entry of every folded key, in input order. *)
Fixpoint first_per_fold (l : list (str * str * str)) (seen : gset str)
    : list (str * str * str) :=
  match l with
  | [] => []
  | (k, kn, v) :: l' =>
      if bool_decide (kn ∈ seen) then first_per_fold l' seen
      else (k, kn, v) :: first_per_fold l' ({[kn]} ∪ seen)
  end.







Lemma spec_candidate_sound (p : option str * option str) (k kn v : str) :
  spec_candidate p = Some (k, kn, v) ->
  k = _clean_spec_text U p.1 /\ kn = key_norm U k /\
  v = clip_value U (_clean_spec_text U p.2) /\
  (kn ∉ SPEC_NOISE_KEYS) /\ kn <> [] /\ k <> [] /\ len k <= 80 /\
  (lower U (_clean_spec_text U p.2) ∉ UNAVAILABLE).
Proof.
  unfold spec_candidate.
  destruct (str_eqb (_clean_spec_text U p.1) [] || _) eqn:E1; [done|].
  destruct (str_eqb (key_norm U _) [] || _) eqn:E2; [done|].
  destruct (str_in (lower U _) _) eqn:E3; [done|].
  destruct (80 <? _) eqn:E4; [done|].
  intros [= <- <- <-].
  apply orb_false_iff in E1 as [E1 _]. apply orb_false_iff in E2 as [E2 E2'].
  repeat split; try done.
  - intros H%str_in_spec. congruence.
  - intros H%str_eqb_eq. congruence.
  - intros H%str_eqb_eq. congruence.
  - by apply Z.ltb_ge.
  - intros H%str_in_spec. congruence.
Qed.

#[local] Opaque str_in str_eqb lower key_norm _clean_spec_text clip_value.

Lemma normalize_loop_cons (m : Z) (p : option str * option str)
    (rest : list (option str * option str)) (specs : list (str * str))
    (seen : gset str) :
  normalize_loop U m (p :: rest) specs seen =
  match spec_candidate p with
  | None => normalize_loop U m rest specs seen
  | Some (key, kn, v) =>
      if bool_decide (kn ∈ seen) then normalize_loop U m rest specs seen
      else
        let specs' := dict_set key v specs in
        if m <=? len specs' then specs'
        else normalize_loop U m rest specs' ({[kn]} ∪ seen)
  end.
Proof.
  destruct p as [rk rv]. unfold spec_candidate. simpl.
  destruct (str_eqb (_clean_spec_text U rk) [] || _); [done|].
  destruct (str_eqb (key_norm U _) []); simpl; [done|].
  destruct (str_in (key_norm U _) SPEC_NOISE_KEYS); simpl; [done|].
  destruct (bool_decide _) eqn:E; simpl;
    (destruct (str_in _ UNAVAILABLE); [done|]);
    (destruct (80 <? _); [done|]); by rewrite E.
Qed.


#[local] Transparent str_in str_eqb lower key_norm _clean_spec_text clip_value.


Lemma first_per_fold_sub (l : list (str * str * str)) (seen : gset str) :
  first_per_fold l seen ⊆ l.
Proof.
  revert seen; induction l as [|[[k kn] v] l IH]; intros seen; simpl; [done|].
  destruct (bool_decide _).
  - intros x Hx. apply elem_of_cons. right. by eapply IH.
  - intros x. rewrite !elem_of_cons. intros [->|?]; [by left|right]. by eapply IH.
Qed.


End SpecsFacts.

Section SpecsContract.
Context (U : Unicode).





End SpecsContract.

#[global] Arguments _price : simpl never.
#[global] Arguments _norm_img : simpl never.
#[global] Arguments _blocked : simpl never.
#[global] Arguments _normalize_specs : simpl never.
#[global] Arguments py_str : simpl never.

(** ** Effects: inversion of the monad's operations *)

Lemma bind_ok {A B} (m : M A) (k : A -> M B) (log log' : Log) (v : B) :
  bind m k log = (Ok v, log') ->
  exists a l1, m log = (Ok a, l1) /\ k a l1 = (Ok v, log').
Proof.
  unfold bind. destruct (m log) as [[a|e] l1]; [eauto | discriminate].
Qed.

Lemma lift_ok {A} (r : Result A) (log log' : Log) (v : A) :
  lift r log = (Ok v, log') -> r = Ok v /\ log' = log.
Proof. unfold lift. by intros [= -> ->]. Qed.

Lemma ret_ok {A} (a v : A) (log log' : Log) :
  ret a log = (Ok v, log') -> v = a /\ log' = log.
Proof. unfold ret. by intros [= -> ->]. Qed.

Lemma ok_some_inj {A} (a b : A) : @Ok (option A) (Some a) = Ok (Some b) -> a = b.
Proof. by intros [= ->]. Qed.

Lemma ok_pair_some_inj {A B} (x y : A) (a b : B) :
  @Ok (A * option B) (x, Some a) = Ok (y, Some b) -> x = y /\ a = b.
Proof. by intros [= -> ->]. Qed.

(** Peel the binds of a computation known to return. *)
Ltac unbind H :=
  repeat
    match type of H with
    | bind _ _ _ = (Ok _, _) =>
        let a := fresh "a" in
        let l := fresh "l" in
        let Hm := fresh "Hm" in
        apply bind_ok in H as (a & l & Hm & H)
    end.

(** ** The price and image fields of a scraped record (C4, C10) *)

(** [10 < v < 10_000_000], as the program compares. *)
Definition in_range (v : float) : Prop :=
  fltb (flit 10 1) v = true /\ fltb v (flit 10000000 1) = true.

Definition price_ok (p : option float) : Prop :=
  match p with Some v => in_range v | None => True end.

Definition img_ok (i : option str) : Prop :=
  match i with Some u => startswith (lit "http") u = true | None => True end.

Lemma _price_in_range (U : Unicode) (t : option str) : price_ok (_price U t).
Proof.
  unfold _price. destruct t as [t|]; [|done].
  destruct (search_number _ _) as [[ip fp]|]; [|done].
  destruct (fltb _ _ && fltb _ _) eqn:Hr; [|done].
  by apply andb_true_iff in Hr.
Qed.

Lemma _norm_img_http (U : Unicode) (u : option str) : img_ok (_norm_img U u).
Proof.
  unfold _norm_img. destruct u as [[|c u]|]; try done.
  by destruct (startswith (lit "http") _) eqn:Hs.
Qed.

Lemma price_or_ok (a b : option float) :
  price_ok a -> price_ok b -> price_ok (price_or a b).
Proof. unfold price_or. by destruct (price_truthy a). Qed.

Section RecordFacts.
Context `{E : Env}.

Lemma price_of_json_ok (v : json) : price_ok (price_of_json v).
Proof. destruct v; try done; apply _price_in_range. Qed.

Lemma price_keys_ok (d : list (str * json)) (keys : list str) (acc : option float) :
  price_ok acc -> price_ok (price_keys d keys acc).
Proof.
  revert acc; induction keys as [|k keys IH]; intros acc Hacc; simpl; [done|].
  destruct (truthy (jget d k)); [|by apply IH].
  destruct (price_truthy _); [apply _price_in_range|].
  apply IH, _price_in_range.
Qed.

Lemma price_from_patterns_ok (html : str) (pats : list Pattern) :
  price_ok (price_from_patterns html pats).
Proof.
  induction pats as [|pat pats IH]; simpl; [done|].
  destruct (re_search pat html); [|done].
  destruct (price_truthy _); [apply _price_in_range | done].
Qed.

Lemma price_from_ok (soup : Soup) (sels : list str) : price_ok (price_from soup sels).
Proof.
  induction sels as [|sel sels IH]; simpl; [done|].
  destruct (select_one soup sel); [|done].
  destruct (price_truthy _); [apply _price_in_range | done].
Qed.

Lemma pid_price_ok (html url : str) : price_ok (_extract_flipkart_pid_price html url).
Proof.
  unfold _extract_flipkart_pid_price.
  destruct (urlparse url); [|done]. destruct (parse_qs _); [|done].
  destruct (qs_get _ _) as [[|[|c pid] vs]|]; try done.
  apply price_from_patterns_ok.
Qed.

Lemma prefer_pid_price_ok (pp p : option float) :
  price_ok pp -> price_ok p -> price_ok (prefer_pid_price pp p).
Proof.
  unfold prefer_pid_price. destruct pp as [v|]; [|done].
  by destruct (float_truthy v && _).
Qed.

Lemma json_ld_item_ok (st st' : option str * option float * option str) (item : json) :
  json_ld_item st item = Ok st' -> price_ok st.1.2 -> price_ok st'.1.2.
Proof.
  destruct st as [[t p] i]. unfold json_ld_item.
  destruct (str_truthy t && str_truthy i && price_truthy p).
  { by intros [= <-]. }
  destruct item as [| | | | | |d]; try done.
  intros [= <-] Hp. simpl in *.
  destruct (price_truthy p); [done|].
  destruct (jget d (lit "offers")) as [| | | | |[|[] ?]|o]; try done;
    apply price_of_json_ok.
Qed.

Lemma json_ld_items_ok (items : list json) (st st' : option str * option float * option str) :
  json_ld_items st items = Ok st' -> price_ok st.1.2 -> price_ok st'.1.2.
Proof.
  revert st; induction items as [|item items IH]; intros st; simpl.
  - by intros [= <-].
  - destruct (json_ld_item st item) as [st1|] eqn:H1; [|done].
    intros H2 Hp. eapply IH; [exact H2|]. by eapply json_ld_item_ok.
Qed.

Lemma json_ld_scripts_ok (scripts : list Element)
    (st st' : option str * option float * option str) :
  json_ld_scripts st scripts = Ok st' -> price_ok st.1.2 -> price_ok st'.1.2.
Proof.
  revert st; induction scripts as [|sc scripts IH]; intros st; simpl.
  - by intros [= <-].
  - destruct (script_text sc) as [|c raw]; [apply IH|].
    destruct (json_loads _) as [data|]; [|apply IH].
    destruct (json_ld_items _ _) as [st1|] eqn:H1; [|done].
    intros H2 Hp. eapply IH; [exact H2|]. by eapply json_ld_items_ok.
Qed.

Lemma _json_ld_ok (soup : Soup) (t i : option str) (p : option float) :
  _json_ld soup = Ok (t, p, i) -> price_ok p.
Proof.
  unfold _json_ld. intros H.
  by apply (json_ld_scripts_ok _ _ _ H).
Qed.

Lemma _og_ok (soup : Soup) : price_ok (_og soup).1.2.
Proof.
  unfold _og. simpl. destruct (select_one _ _); [apply _price_in_range | done].
Qed.

Lemma scripts_price_ok (html : str) : price_ok (_extract_price_from_scripts html).
Proof. apply price_from_patterns_ok. Qed.

(** What both claims need of a record. *)
Definition good_record (r : Product) : Prop :=
  price_ok (price r) /\ img_ok (image_url r).

Lemma structured_price_ok (data : list (str * json)) : price_ok (structured_price data).
Proof.
  unfold structured_price. set (p := price_keys _ _ None).
  assert (Hp : price_ok p) by (by apply price_keys_ok).
  destruct (price_truthy p); [done|].
  destruct (jget data (lit "pricing")); try done. by apply price_keys_ok.
Qed.

Lemma structured_img_ok (data : list (str * json)) : img_ok (structured_img data).
Proof.
  unfold structured_img, img_of_json.
  match goal with |- img_ok (if ?b then _ else _) => destruct b end;
    [apply _norm_img_http | done].
Qed.

Lemma parse_structured_good (data : list (str * json)) (r : Product) :
  _parse_amazon_structured data = Ok (Some r) -> good_record r.
Proof.
  unfold _parse_amazon_structured. destruct data as [|kv data]; [done|].
  destruct (jget_or _ _ _); try done.
  destruct (negb _); [done|]. intros <-%ok_some_inj. split.
  - apply structured_price_ok.
  - apply structured_img_ok.
Qed.

Lemma amazon_structured_good (struct : option (list (str * json))) (r : Product) :
  amazon_structured struct = Ok (Some r) -> good_record r.
Proof.
  unfold amazon_structured. destruct struct as [[|kv data]|]; try done.
  destruct (_parse_amazon_structured _) as [[r'|]|] eqn:Hp; try done.
  destruct (_ || _); [|done]. intros [= <-]. by eapply parse_structured_good.
Qed.

Lemma amazon_extract_good (url html : str) (r : Product) :
  amazon_extract url html = Ok (Some r) -> good_record r.
Proof.
  unfold amazon_extract.
  destruct (_json_ld _) as [[[ld_t ld_p] ld_i]|] eqn:Hld; [|done].
  pose proof (_og_ok (BeautifulSoup html)) as Hog.
  destruct (_og _) as [[og_t og_p] og_i]. simpl in Hog.
  destruct (negb _); [done|]. intros <-%ok_some_inj. split; cbn [price image_url].
  - apply price_or_ok.
    + match goal with |- price_ok (if ?b then _ else _) => destruct b end;
        [apply price_from_ok | apply scripts_price_ok].
    + apply price_or_ok; [by eapply _json_ld_ok | done].
  - apply _norm_img_http.
Qed.

Lemma flipkart_extract_good (url html url' : str) (r : Product) :
  flipkart_extract url html = Ok (url', Some r) -> good_record r.
Proof.
  unfold flipkart_extract.
  destruct (match select_one _ _ with Some _ => _ | None => _ end) as [u|]; [|done].
  destruct (_json_ld _) as [[[ld_t ld_p] ld_i]|] eqn:Hld; [|done].
  pose proof (_og_ok (BeautifulSoup html)) as Hog.
  destruct (_og _) as [[og_t og_p] og_i]. simpl in Hog.
  destruct (negb _); [done|]. intros [_ <-]%ok_pair_some_inj.
  split; cbn [price image_url].
  - apply price_or_ok.
    + apply prefer_pid_price_ok; [apply pid_price_ok|].
      match goal with |- price_ok (if ?b then _ else _) => destruct b end;
        [apply price_from_ok | apply scripts_price_ok].
    + apply price_or_ok; [by eapply _json_ld_ok | done].
  - apply _norm_img_http.
Qed.

Lemma scrape_amazon_good (url : str) (log log' : Log) (r : Product) :
  scrape_amazon url log = (Ok (Some r), log') -> good_record r.
Proof.
  unfold scrape_amazon. intros H.
  apply bind_ok in H as (_ & l0 & _ & H).
  apply bind_ok in H as (struct & l1 & _ & H).
  apply bind_ok in H as (early & l2 & [Hs _]%lift_ok & H).
  destruct early as [r'|].
  - apply ret_ok in H as [[= ->] _]. by eapply amazon_structured_good.
  - apply bind_ok in H as (resp0 & l3 & _ & H).
    apply bind_ok in H as (resp & l4 & _ & H).
    destruct resp as [resp|]; [|by apply ret_ok in H as [? _]].
    destruct (unusable (Some resp)); [by apply ret_ok in H as [? _]|].
    apply lift_ok in H as [H _]. by eapply amazon_extract_good.
Qed.

Lemma scrape_flipkart_good (depth : nat) (url : str) (log log' : Log) (r : Product) :
  scrape_flipkart depth url log = (Ok (Some r), log') -> good_record r.
Proof.
  revert url log. induction depth as [|depth IH]; intros url log; [done|].
  cbn [scrape_flipkart]. intros H.
  apply bind_ok in H as (_ & l0 & _ & H).
  apply bind_ok in H as (host & l1 & _ & H).
  apply bind_ok in H as (resp & l2 & _ & H).
  destruct resp as [resp|]; [|by apply ret_ok in H as [? _]].
  destruct (unusable (Some resp)); [by apply ret_ok in H as [? _]|].
  apply bind_ok in H as ([url' found] & l3 & [Hx _]%lift_ok & H).
  cbn [fst snd] in H. destruct found as [record|].
  - apply ret_ok in H as [[= ->] _]. by eapply flipkart_extract_good.
  - destruct (str_in host FK_SHORT_HOSTS); [|by apply ret_ok in H as [? _]].
    apply bind_ok in H as (resolved & l4 & _ & H).
    destruct (_ && _); [by eapply IH | by apply ret_ok in H as [? _]].
Qed.

End RecordFacts.

(** C4. A record returned by [scrape_amazon] or [scrape_flipkart], in any
    world and at any recursion depth, carries no price or a price [v] with
    [10 < v < 10_000_000]: a candidate outside the range never reaches a
    record. *)
Theorem scraped_price_in_range `{E : Env} (depth : nat) (url : str)
    (log log' : Log) (r : Product) (v : float) :
  scrape_amazon url log = (Ok (Some r), log') \/
  scrape_flipkart depth url log = (Ok (Some r), log') ->
  price r = Some v ->
  fltb (flit 10 1) v = true /\ fltb v (flit 10000000 1) = true.
Proof.
  intros Hr Hv.
  assert (Hg : good_record r).
  { destruct Hr as [Hr|Hr];
      [by eapply scrape_amazon_good | by eapply scrape_flipkart_good]. }
  destruct Hg as [Hp _]. rewrite Hv in Hp. exact Hp.
Qed.

(** The sample page, scraped as an Amazon page: its price is 1299.0. *)
Definition sample_amazon_run : Result (option Product) * Log :=
  @scrape_amazon sample_pages SAMPLE_AMAZON_URL [].

Definition sample_amazon_record : Product := {|
  platform := lit "Amazon";
  title := Some SAMPLE_TITLE;
  price := Some (flit 1299 1);
  image_url := Some (lit "https://m.media-amazon.com/images/I/sample.jpg");
  url := JStr SAMPLE_AMAZON_URL;
  availability := JStr (lit "In Stock");
  specs := [];
|}.

Definition sample_amazon_log : Log :=
  [Enter (lit "scrape_amazon") SAMPLE_AMAZON_URL;
   Fetch (GetStructured SAMPLE_AMAZON_URL 30);
   Fetch (GetProxy SAMPLE_AMAZON_URL false 60)].

Lemma sample_amazon_run_eq :
  sample_amazon_run = (Ok (Some sample_amazon_record), sample_amazon_log).
Proof. vm_compute. reflexivity. Qed.

Lemma scraped_price_in_range_witness :
  fltb (flit 10 1) (flit 1299 1) = true /\
  fltb (flit 1299 1) (flit 10000000 1) = true.
Proof.
  apply (@scraped_price_in_range sample_pages 0 SAMPLE_AMAZON_URL []
           sample_amazon_log sample_amazon_record (flit 1299 1)).
  - left. exact sample_amazon_run_eq.
  - reflexivity.
Defined.

(** C10. The image URL of a record returned by [scrape_amazon] or
    [scrape_flipkart] is absent or starts with ["http"]; [_norm_img], the
    last step of both, rewrites a stripped candidate that starts with
    ["//"] to ["https:"] plus that candidate, keeps one that starts with
    ["http"], and drops every other. *)
Theorem scraped_image_absolute `{E : Env} (depth : nat) (url : str)
    (log log' : Log) (r : Product) :
  (scrape_amazon url log = (Ok (Some r), log') \/
   scrape_flipkart depth url log = (Ok (Some r), log') ->
   forall i, image_url r = Some i -> startswith (lit "http") i = true) /\
  (forall c : str, c <> [] ->
     let s := strip uni c in
     (startswith (lit "//") s = true ->
      _norm_img uni (Some c) = Some (lit "https:" ++ s)) /\
     (startswith (lit "//") s = false -> startswith (lit "http") s = true ->
      _norm_img uni (Some c) = Some s) /\
     (startswith (lit "//") s = false -> startswith (lit "http") s = false ->
      _norm_img uni (Some c) = None)).
Proof.
  split.
  - intros Hr i Hi.
    assert (Hg : good_record r).
    { destruct Hr as [Hr|Hr];
        [by eapply scrape_amazon_good | by eapply scrape_flipkart_good]. }
    destruct Hg as [_ Hg]. rewrite Hi in Hg. exact Hg.
  - intros c Hc s. unfold _norm_img. destruct c as [|x c]; [done|].
    fold s. repeat split.
    + intros ->. reflexivity.
    + intros -> ->. reflexivity.
    + intros -> ->. reflexivity.
Qed.

Lemma scraped_image_absolute_witness :
  startswith (lit "http") (lit "https://m.media-amazon.com/images/I/sample.jpg") = true.
Proof.
  apply (proj1 (@scraped_image_absolute sample_pages 0 SAMPLE_AMAZON_URL []
                  sample_amazon_log sample_amazon_record)).
  - left. exact sample_amazon_run_eq.
  - reflexivity.
Defined.

(** ** Resolution from a redirect parameter (C8) *)

Section ResolveFacts.
Context `{E : Env}.



End ResolveFacts.


(** The example of the specification: a short link that carries the
    product page in its [redirect] parameter. *)
Definition REDIRECT_EXAMPLE : str :=
  lit "https://fkrt.cc/x?redirect=https%3A%2F%2Fwww.flipkart.com%2Fp%2Fabc".


(** ** The retry of [scrape_flipkart] (C6) *)

(** C6 (the code at the failing input). With a short link that names
    another short link that names a third, and pages that hold no product
    data, [scrape_flipkart] is entered three times: the retry is taken
    twice, not once. *)
Theorem flipkart_retries_twice :
  flipkart_entries (@scrape_flipkart blank_pages 1000 NESTED_A []).2 =
  [NESTED_A; NESTED_B; NESTED_C] /\
  (@scrape_flipkart blank_pages 1000 NESTED_A []).1 = Ok None.
Proof. vm_compute. split; reflexivity. Qed.

Lemma bind_run {A B} (m : M A) (k : A -> M B) (l l' : Log) (a : A) :
  m l = (Ok a, l') -> bind m k l = k a l'.
Proof. unfold bind. by intros ->. Qed.

(** In the world of the two short links: what one call does before it
    calls itself. *)
Lemma loop_fetch (url : str) (l : Log) :
  @flipkart_fetch two_short_links url true l =
  (Ok (Some blank_response),
   (l ++ [Fetch (GetProxy url false 15)]) ++ [Fetch (GetProxy url true 15)]).
Proof. vm_compute. reflexivity. Qed.

Lemma loop_host (url : str) :
  url = SHORT_A \/ url = SHORT_B ->
  @netloc_lower two_short_links url = Ok (lit "dl.flipkart.com").
Proof. intros [->| ->]; vm_compute; reflexivity. Qed.

Lemma loop_extract (url : str) :
  url = SHORT_A \/ url = SHORT_B ->
  @flipkart_extract two_short_links url (text blank_response) = Ok (url, None).
Proof. intros [->| ->]; vm_compute; reflexivity. Qed.

Lemma loop_resolve_a (l : Log) :
  exists l', @resolve_url two_short_links SHORT_A false l = (Ok SHORT_B, l').
Proof. eexists. vm_compute. reflexivity. Qed.

Lemma loop_resolve_b (l : Log) :
  exists l', @resolve_url two_short_links SHORT_B false l = (Ok SHORT_A, l').
Proof. eexists. vm_compute. reflexivity. Qed.

Ltac loop_step url other resolve_lemma :=
  cbn [scrape_flipkart];
  rewrite (bind_run (emit (Enter (lit "scrape_flipkart") url)) _ _ _ tt eq_refl);
  rewrite (bind_run (lift _) _ _ _ (lit "dl.flipkart.com"))
    by (unfold lift; rewrite loop_host; auto);
  change (str_in (lit "dl.flipkart.com") FK_SHORT_HOSTS) with true;
  rewrite (bind_run _ _ _ _ _ (loop_fetch url _));
  change (unusable (Some blank_response)) with false; cbv beta iota;
  rewrite (bind_run (lift _) _ _ _ (url, None))
    by (unfold lift; rewrite loop_extract; auto);
  cbn [fst snd];
  match goal with
  | |- context [bind (resolve_url url false) _ ?l0] =>
      let l' := fresh "l'" in
      let Hr := fresh "Hr" in
      destruct (resolve_lemma l0) as [l' Hr];
      rewrite (bind_run _ _ _ _ _ Hr);
      change (negb (str_eqb other []) && negb (str_eqb other url)) with true;
      cbv beta iota; by exists l'
  end.

(** One retry on the two short links that lead to each other: the call on
    one link becomes the call on the other, one frame deeper. *)
Lemma two_short_links_step (depth : nat) (log : Log) :
  (exists log', @scrape_flipkart two_short_links (S depth) SHORT_A log =
                @scrape_flipkart two_short_links depth SHORT_B log') /\
  (exists log', @scrape_flipkart two_short_links (S depth) SHORT_B log =
                @scrape_flipkart two_short_links depth SHORT_A log').
Proof.
  split.
  - loop_step SHORT_A SHORT_B loop_resolve_a.
  - loop_step SHORT_B SHORT_A loop_resolve_b.
Qed.

(** No bound on the retries: whatever the recursion limit, the scrape of a
    short link that leads to one that leads back ends in [RecursionError]. *)
Lemma flipkart_retry_unbounded (depth : nat) (log : Log) :
  (@scrape_flipkart two_short_links depth SHORT_A log).1 = Raise RecursionError /\
  (@scrape_flipkart two_short_links depth SHORT_B log).1 = Raise RecursionError.
Proof.
  revert log. induction depth as [|depth IH]; intros log; [done|].
  destruct (two_short_links_step depth log) as [[la Ha] [lb Hb]].
  rewrite Ha, Hb. split; apply IH.
Qed.

(** ** The outcome of [analyze_url] (C1) *)



Lemma report_success `{E : Env} (raw url source : str) (name : option str)
    (results : list (str * Product)) :
  success (report raw url source name results) = true /\
  error (report raw url source name results) = None /\
  platforms_found (report raw url source name results) = results.*1.
Proof. done. Qed.







(** ** Order on the prices a record can hold *)









(** ** The comparison block (C9) *)










Lemma comparison_of_both_priced :
  build_comparison both_priced =
  {| cheapest_platform := Some (lit "amazon");
     cheapest_price := Some (flit 500 1);
     price_difference := Some (flit 150 1);
     savings_platform := Some (lit "amazon");
     both_found := true |}.
Proof. vm_compute. reflexivity. Qed.


(** ** The prediction block (C2) *)

(** The projected price at a horizon with decay factor [f / 100]. *)
Definition projected (p : float) (f : Z) : float := py_round2 (fmul p (flit f 100)).

(** C2 (as amended). For a current price [p], the projected prices at 7,
    15, 30, 60 and 90 days are [p] times 0.98, 0.95, 0.92, 0.90 and 0.88,
    each rounded to two decimals; the maximum savings are [p] minus the
    least projected price, rounded to two decimals; the recommendation is
    WAIT when the savings divided by [p] exceed 0.05 and BUY_NOW otherwise;
    without a current price the recommendation is PRICE_UNAVAILABLE, with
    no projection and no savings. At [p = 1000] the projections are exactly
    980, 950, 920, 900, 880, the savings 120 and the advice WAIT. *)
Theorem prediction_contract (p : float) (n : nat) :
  (float_truthy p = true ->
   let pr := build_prediction (Some p) n in
   let lowest := fmin_list (projected p 98)
                   [projected p 95; projected p 92; projected p 90; projected p 88] in
   let ms := py_round2 (fsub p lowest) in
   future_prices pr =
     [(lit "7_days", projected p 98); (lit "15_days", projected p 95);
      (lit "30_days", projected p 92); (lit "60_days", projected p 90);
      (lit "90_days", projected p 88)] /\
   max_savings pr = Some ms /\
   recommendation pr =
     (if fltb (flit 5 100) (fdiv ms p) then lit "WAIT" else lit "BUY_NOW")) /\
  (let pr := build_prediction None n in
   future_prices pr = [] /\ max_savings pr = None /\
   recommendation pr = lit "PRICE_UNAVAILABLE") /\
  (let pr := build_prediction (Some (flit 1000 1)) n in
   future_prices pr =
     [(lit "7_days", flit 980 1); (lit "15_days", flit 950 1);
      (lit "30_days", flit 920 1); (lit "60_days", flit 900 1);
      (lit "90_days", flit 880 1)] /\
   max_savings pr = Some (flit 120 1) /\
   recommendation pr = lit "WAIT").
Proof.
  split; [|split].
  - intros Hp. unfold build_prediction. rewrite Hp. cbn zeta.
    cbn [future_prices max_savings recommendation].
    split; [reflexivity|]. split; [reflexivity|].
    reflexivity.
  - done.
  - unfold build_prediction. cbn [float_truthy flit].
    repeat split; vm_compute; reflexivity.
Qed.

Lemma prediction_contract_witness :
  let pr := build_prediction (Some (flit 1299 1)) 1 in
  future_prices pr =
    [(lit "7_days", flit 127302 100); (lit "15_days", flit 123405 100);
     (lit "30_days", flit 119508 100); (lit "60_days", flit 11691 10);
     (lit "90_days", flit 114312 100)] /\
  max_savings pr = Some (flit 15588 100) /\
  recommendation pr = lit "WAIT".
Proof.
  exact (proj1 (prediction_contract (flit 1299 1) 1) eq_refl).
Defined.

(** C2 (as stated) fails: at the price 12.34 the 7-day projection is 12.09,
    which is neither the floating-point product of 12.34 and 0.98 (that is
    12.0932) nor that decimal; and the savings are 1.48, where 12.34 minus
    the least projection 10.86 is 1.4800000000000004. *)
Lemma projection_is_rounded :
  let p := flit 1234 100 in
  let pr := build_prediction (Some p) 1 in
  head (future_prices pr) = Some (lit "7_days", flit 1209 100) /\
  float_repr (fmul p (flit 98 100)) = lit "12.0932" /\
  flit 1209 100 <> fmul p (flit 98 100) /\
  max_savings pr = Some (flit 148 100) /\
  float_repr (fsub p (flit 1086 100)) = lit "1.4800000000000004" /\
  flit 148 100 <> fsub p (flit 1086 100).
Proof. vm_compute. repeat split; (reflexivity || discriminate). Qed.

(** ** Price normalisation (C3) *)

(** *** Correct rounding: arithmetic *)






(** ** The binary exponent *)




(** ** Correct rounding depends on the ratio only *)







(** ** The float of a ratio between 8 and 2^24 *)






(** ** Decimal digits *)











(** ** Reading a decimal numeral back *)

Section ReadBack.
Context (U : Unicode) (OK : UnicodeOK U).
















(** *** What a token is *)




End ReadBack.

(** ** The shortest digits of a parsed price *)


(** *** The decimal exponent *)









Section Shortest.
Context (N k j : Z) (m : positive) (E : Z).
Context (Hk : 0 <= k <= 2) (Hj : 1 <= j <= 6).
Context (Hdec : 10 ^ j * 10 ^ k <= N < 10 ^ (j + 1) * 10 ^ k).
Context (HE : 28 <= E <= 49).
Context (Herr : Z.abs (2 * (Z.pos m * 10 ^ k - N * 2 ^ E)) <= 10 ^ k).
Context (Hv : rn_ratio false N (10 ^ k) = S754_finite false m (- E)).







End Shortest.

(** ** The text of a price *)

















(** * Further properties *)

(** ** What a computation sends *)

Lemma requests_of_app (a b : list Event) :
  requests_of (a ++ b) = requests_of a ++ requests_of b.
Proof. apply omap_app. Qed.

Section Bounded.
Context `{E : Env}.

Lemma bounded_ret {A} (ev : Event -> Prop) (P : Result A -> Prop) (a : A) :
  P (Ok a) -> bounded ev 0 P (ret a).
Proof.
  intros HP log. exists (Ok a), []. rewrite app_nil_r. by repeat split.
Qed.

Lemma bounded_lift {A} (ev : Event -> Prop) (P : Result A -> Prop) (r : Result A) :
  P r -> bounded ev 0 P (lift r).
Proof.
  intros HP log. exists r, []. rewrite app_nil_r. by repeat split.
Qed.

Lemma bounded_pure {A} (ev : Event -> Prop) (P : Result A -> Prop) (f : Log -> A) :
  (forall log, P (Ok (f log))) -> bounded ev 0 P (fun log => (Ok (f log), log)).
Proof.
  intros HP log. exists (Ok (f log)), []. rewrite app_nil_r. by repeat split.
Qed.

Lemma bounded_enter (ev : Event -> Prop) (fn url : str) (P : Result unit -> Prop) :
  ev (Enter fn url) -> P (Ok tt) -> bounded ev 0 P (emit (Enter fn url)).
Proof.
  intros Hev HP log. exists (Ok tt), [Enter fn url]. repeat split; [done| |done].
  by constructor.
Qed.

Lemma bounded_request (ev : Event -> Prop) (P : Result (option Response) -> Prop)
    (c : NetCall) :
  ev (Fetch c) -> (forall r, P (Ok r)) -> bounded ev 1 P (request c).
Proof.
  intros Hc HP log. exists (Ok (http log c)), [Fetch c].
  repeat split; [done| |done]. by constructor.
Qed.

Lemma bounded_bind {A B} (ev : Event -> Prop) (n1 n2 : nat)
    (P1 : Result A -> Prop) (P2 : Result B -> Prop) (m : M A) (k : A -> M B) :
  bounded ev n1 P1 m ->
  (forall a, P1 (Ok a) -> bounded ev n2 P2 (k a)) ->
  (forall e, P1 (Raise e) -> P2 (Raise e)) ->
  bounded ev (n1 + n2) P2 (bind m k).
Proof.
  intros Hm Hk He log. destruct (Hm log) as (res & evs & Hrun & Hn & Hab & HP).
  unfold bind. rewrite Hrun. destruct res as [a|e].
  - destruct (Hk a HP (log ++ evs)) as (res' & evs' & Hrun' & Hn' & Hab' & HP').
    exists res', (evs ++ evs'). rewrite Hrun', <- app_assoc.
    split; [done|]. split; [|split; [by apply Forall_app|done]].
    rewrite requests_of_app, length_app. lia.
  - exists (Raise e), evs. split; [done|]. split; [lia|]. split; [done|]. by apply He.
Qed.

Lemma bounded_weaken {A} (ev ev' : Event -> Prop) (n n' : nat)
    (P P' : Result A -> Prop) (m : M A) :
  (n <= n')%nat -> (forall e, ev e -> ev' e) -> (forall r, P r -> P' r) ->
  bounded ev n P m -> bounded ev' n' P' m.
Proof.
  intros Hn Hev HP Hm log. destruct (Hm log) as (res & evs & Hrun & Hl & Hab & Hr).
  exists res, evs. repeat split; [done|lia| |by apply HP].
  eapply Forall_impl; [exact Hab|done].
Qed.

(** The same computation, counted more generously. *)
Lemma bounded_le {A} (ev : Event -> Prop) (n n' : nat) (P : Result A -> Prop) (m : M A) :
  (n <= n')%nat -> bounded ev n P m -> bounded ev n' P m.
Proof. intros Hn. by apply bounded_weaken. Qed.

(** *** The three fetch strategies *)

Lemma direct_sent (url : str) (e : Event) : direct_to url e -> sent url e.
Proof. destruct e as [c|fn u]; [|done]. intros [Hc Hp]. split; [done|]. by rewrite Hp. Qed.

Lemma scraperapi_html_bounded (url : str) (render : bool) (timeout : Z) :
  bounded (sent url) 1 (returns (sized 1000)) (_scraperapi_html url render timeout).
Proof.
  unfold _scraperapi_html. destruct (negb has_key) eqn:Hk.
  - apply (bounded_le _ 0); [lia|]. by apply bounded_ret.
  - apply negb_false_iff in Hk.
    apply (bounded_bind (sent url) 1 0 (returns (fun _ => True))).
    + by apply bounded_request.
    + intros [r|] _; [|by apply bounded_ret].
      destruct (Z.eqb_spec (status_code r) 200) as [Hs|]; [|by apply bounded_ret].
      destruct (Z.ltb_spec 1000 (content_len r)); [|by apply bounded_ret].
      by apply bounded_ret.
    + done.
Qed.

Lemma scraperapi_structured_bounded (url : str) (timeout : Z) :
  bounded (sent url) 1 (returns (fun _ => True)) (_scraperapi_structured url timeout).
Proof.
  unfold _scraperapi_structured.
  destruct (negb has_key) eqn:Hk;
    [apply (bounded_le _ 0); [lia|]; by apply bounded_ret|].
  apply negb_false_iff in Hk.
  destruct (negb (contains _ _));
    [apply (bounded_le _ 0); [lia|]; by apply bounded_ret|].
  apply (bounded_bind (sent url) 1 0 (returns (fun _ => True))).
  - by apply bounded_request.
  - intros [r|] _; [|by apply bounded_ret].
    destruct (status_code r =? 200); [|by apply bounded_ret].
    destruct (json_body r) as [[]|]; by apply bounded_ret.
  - done.
Qed.

Lemma direct_loop_bounded (url referer : str) (timeout : Z) (uas : list nat) :
  bounded (direct_to url) (length uas) (returns (sized 2000)) (direct_loop url referer timeout uas).
Proof.
  induction uas as [|ua uas IH]; [by apply bounded_ret|].
  cbn [direct_loop length].
  apply (bounded_bind (direct_to url) 1 (length uas) (returns (fun _ => True))).
  - by apply bounded_request.
  - intros r _. unfold accepted. destruct r as [r|]; [|done].
    destruct (Z.eqb_spec (status_code r) 200) as [Hs|]; [|done].
    destruct (Z.ltb_spec 2000 (content_len r)); [|done].
    apply (bounded_le _ 0); [lia|]. by apply bounded_ret.
  - done.
Qed.

Lemma accepted_sized (r : option Response) : sized 2000 (accepted r).
Proof.
  unfold accepted. destruct r as [r|]; [|done].
  destruct (Z.eqb_spec (status_code r) 200) as [Hs|]; [|done].
  by destruct (Z.ltb_spec 2000 (content_len r)).
Qed.

Lemma direct_fetch_bounded (url referer : str) (fast : bool) :
  bounded (direct_to url) (if fast then 2 else 5) (returns (sized 2000)) (_direct_fetch url referer fast).
Proof.
  unfold _direct_fetch.
  replace (if fast then 2%nat else 5%nat)
    with (1 + length (if fast then [0%nat] else [0; 1; 2; 3]%nat))%nat by (by destruct fast).
  apply (bounded_bind (direct_to url) 1 _ (returns (sized 2000))).
  - destruct _HAS_CS.
    + replace 1%nat with (1 + 0)%nat by done.
      apply (bounded_bind (direct_to url) 1 0 (returns (fun _ => True))).
      * by apply bounded_request.
      * intros r _. apply bounded_ret. apply accepted_sized.
      * done.
    + apply (bounded_le _ 0); [lia|]. by apply bounded_ret.
  - intros [r|] Hr.
    + apply (bounded_le _ 0); [lia|]. by apply bounded_ret.
    + apply direct_loop_bounded.
  - done.
Qed.

End Bounded.

Section Bounded2.
Context `{E : Env}.

(** The race for a Flipkart short link: both proxy requests are sent; the
    answer is one that passed the size check and is not a block page. *)
Lemma flipkart_short_bounded (url : str) (timeout : Z) :
  bounded (sent url) 2
    (returns (fun r => sized 1000 r /\ (r <> None -> usable r = true)))
    (_scraperapi_html_flipkart_short url timeout).
Proof.
  unfold _scraperapi_html_flipkart_short. destruct (negb has_key).
  - apply (bounded_le _ 0); [lia|]. by apply bounded_ret.
  - change 2%nat with (1 + (1 + 0))%nat.
    apply (bounded_bind _ 1 _ (returns (sized 1000)));
      [apply scraperapi_html_bounded| |done].
    intros plain Hp.
    apply (bounded_bind _ 1 0 (returns (sized 1000)));
      [apply scraperapi_html_bounded| |done].
    intros rendered Hr.
    apply (bounded_pure _ _ (fun log => default None (head (filter _ _)))).
    intros log. cbn [returns].
    destruct (head _) as [r|] eqn:Hh; [|done]. cbn [default].
    apply head_Some_elem_of, list_elem_of_filter in Hh as [Hu Hin].
    apply list_elem_of_fmap in Hin as (b & -> & _).
    cbn [returns] in Hp, Hr. unfold id. split; [by destruct b|done].
Qed.

(** *** Resolution *)

Lemma marketplace_in_marketplace (c : str) :
  is_marketplace_in c = true -> is_marketplace c = true.
Proof.
  unfold is_marketplace_in, is_marketplace.
  intros [H|H]%orb_true_iff; rewrite H; [done|]. by rewrite orb_true_r.
Qed.

Lemma product_url_in_marketplace (blob : str) (pats : list nat) (c : str) :
  product_url_in blob pats = Some c -> is_marketplace c = true.
Proof.
  induction pats as [|i pats IH]; [done|]. cbn [product_url_in].
  destruct (re_search _ _) as [g|]; [|done].
  match goal with
  | |- context [if is_marketplace ?x then _ else _] =>
      destruct (is_marketplace x) eqn:Hm; [|done]
  end.
  by intros [= <-].
Qed.

Lemma extract_product_url_marketplace (text c : str) :
  _extract_product_url_from_text text = Some c -> is_marketplace c = true.
Proof.
  unfold _extract_product_url_from_text. destruct text as [|x text]; [done|].
  destruct (product_url_in (x :: text) _) as [c'|] eqn:H1.
  - intros [= <-]. by eapply product_url_in_marketplace.
  - apply product_url_in_marketplace.
Qed.

Lemma query_target_marketplace (qs : list (str * list str)) (keys : list str) (c : str) :
  query_target qs keys = Some c -> is_marketplace c = true.
Proof.
  induction keys as [|k keys IH]; [done|]. cbn [query_target].
  destruct (qs_get qs k) as [[|v vs]|]; [done| |done].
  destruct (is_marketplace (unquote v)) eqn:Hm; [|done]. by intros [= <-].
Qed.

Lemma resolve_from_query_marketplace (url c : str) :
  resolve_from_query url = Some c -> is_marketplace c = true.
Proof.
  unfold resolve_from_query. destruct (urlparse url) as [u|]; [|done].
  destruct (parse_qs _) as [qs|]; [|done]. apply query_target_marketplace.
Qed.

Lemma resolve_from_response_marketplace (url : str) (r : Response) (c : str) :
  resolve_from_response url r = Ok (Some c) -> is_marketplace c = true.
Proof.
  unfold resolve_from_response.
  set (final := match resp_url r with [] => url | f => f end).
  destruct (is_marketplace_in final && _) eqn:Hf.
  - intros [= <-]. apply andb_true_iff in Hf as [Hf _].
    by apply marketplace_in_marketplace.
  - destruct (location r) as [|l loc].
    + intros [= H]. by eapply extract_product_url_marketplace.
    + destruct (urljoin url (l :: loc)) as [c'|]; [|done].
      destruct (is_marketplace c') eqn:Hm.
      * by intros [= <-].
      * intros [= H]. by eapply extract_product_url_marketplace.
Qed.

Lemma resolve_from_meta_marketplace (soup : Soup) (sels : list str) (c : str) :
  resolve_from_meta soup sels = Some c -> is_marketplace c = true.
Proof.
  induction sels as [|sel sels IH]; [done|]. cbn [resolve_from_meta].
  destruct (select_one soup sel) as [el|]; [|done].
  destruct (is_marketplace_in _) eqn:Hm; [|done].
  intros [= <-]. by apply marketplace_in_marketplace.
Qed.

Lemma resolve_profiles_bounded (url : str) (timeout : Z) (profiles : list nat) :
  bounded (sent url) (length profiles)
    (returns (fun r => forall c, r = Some c -> is_marketplace c = true))
    (resolve_profiles url timeout profiles).
Proof.
  induction profiles as [|h profiles IH]; [by apply bounded_ret|].
  cbn [resolve_profiles length].
  apply (bounded_bind _ 1 _ (returns (fun _ => True)));
    [by apply bounded_request| |done].
  intros [r|] _; [|done].
  destruct (resolve_from_response url r) as [[c|]|] eqn:Hr; [|done|done].
  apply (bounded_le _ 0); [lia|]. apply bounded_ret.
  intros c' [= <-]. by eapply resolve_from_response_marketplace.
Qed.

(** What [resolve_url] answers is the link it was given or the address of
    a marketplace page; it asks for nothing but that link, at most four
    times (three in fast mode). *)
Lemma resolve_url_bounded (url : str) (fast : bool) :
  bounded (sent url) (if fast then 3 else 4)
    (fun res => (forall c, res = Ok c -> c = url \/ is_marketplace c = true) /\
                (forall e, res = Raise e -> urlparse url = Raise e))
    (resolve_url url fast).
Proof.
  unfold resolve_url.
  apply (bounded_le _ (0 + (if fast then 3 else 4))); [lia|].
  apply (bounded_bind _ 0 _ (returns (fun _ => True)));
    [by apply bounded_enter| |done].
  intros _ _. destruct (resolve_from_query url) as [c|] eqn:Hq.
  { apply (bounded_le _ 0); [lia|]. apply bounded_ret. split; [|done].
    intros c' [= <-]. right. by eapply resolve_from_query_marketplace. }
  replace (if fast then 3%nat else 4%nat)
    with (length (if fast then [0; 1]%nat else [0; 1; 2]%nat) + 1)%nat
    by (by destruct fast).
  apply (bounded_bind _ _ _ _ _ _ _ (resolve_profiles_bounded _ _ _)); [|done].
  intros [c|] Hc.
  { apply (bounded_le _ 0); [lia|]. apply bounded_ret. split; [|done].
    intros c' [= <-]. right. by apply Hc. }
  change 1%nat with (0 + 1)%nat.
  apply (bounded_bind _ 0 _ (fun res => res = netloc_lower url));
    [by apply bounded_lift| |].
  2:{ intros e He. split; [done|]. intros e' [= <-].
      unfold netloc_lower in He. destruct (urlparse url); congruence. }
  intros host _.
  change 1%nat with (1 + 0)%nat.
  apply (bounded_bind _ _ _ _ _ _ _ (scraperapi_html_bounded _ _ _)); [|done].
  assert (Hsame : bounded (sent url) 0
            (fun res => (forall c, res = Ok c -> c = url \/ is_marketplace c = true) /\
                        (forall e, res = Raise e -> urlparse url = Raise e))
            (ret url)).
  { apply bounded_ret. split; [|done]. intros c' [= <-]. by left. }
  intros [r|] _; [|done].
  destruct (resp_ok r); [|done].
  destruct (resolve_from_meta _ _) as [c|] eqn:Hm.
  { apply bounded_ret. split; [|done]. intros c' [= <-]. right.
    by eapply resolve_from_meta_marketplace. }
  destruct (_extract_product_url_from_text _) as [c|] eqn:Hx; [|done].
  apply bounded_ret. split; [|done]. intros c' [= <-]. right.
  by eapply extract_product_url_marketplace.
Qed.

End Bounded2.

(** ** The records the scrapers build *)

Section Shapes.
Context `{E : Env}.

Lemma parse_structured_shape (data : list (str * json)) (r : Product) :
  _parse_amazon_structured data = Ok (Some r) ->
  platform r = lit "Amazon" /\ filled r.
Proof.
  unfold _parse_amazon_structured. destruct data as [|kv data]; [done|].
  destruct (jget_or _ _ _); try done.
  destruct (negb _) eqn:Hn; [done|]. intros <-%ok_some_inj.
  split; [done|]. unfold filled. cbn [title price image_url].
  by apply negb_false_iff in Hn.
Qed.

Lemma amazon_structured_shape (struct : option (list (str * json))) (r : Product) :
  amazon_structured struct = Ok (Some r) ->
  platform r = lit "Amazon" /\ filled r /\
  str_truthy (title r) || price_truthy (price r) = true.
Proof.
  unfold amazon_structured. destruct struct as [[|kv data]|]; try done.
  destruct (_parse_amazon_structured _) as [[r'|]|] eqn:Hp; try done.
  destruct (_ || _) eqn:Ht; [|done]. intros [= <-].
  destruct (parse_structured_shape _ _ Hp). done.
Qed.

Lemma amazon_extract_shape (link html : str) (r : Product) :
  amazon_extract link html = Ok (Some r) ->
  platform r = lit "Amazon" /\ filled r /\ url r = JStr link.
Proof.
  unfold amazon_extract.
  destruct (_json_ld _) as [[[ld_t ld_p] ld_i]|] eqn:Hld; [|done].
  destruct (_og _) as [[og_t og_p] og_i].
  destruct (negb _) eqn:Hn; [done|]. intros <-%ok_some_inj.
  split; [done|]. split; [|done]. unfold filled. cbn [title price image_url].
  by apply negb_false_iff in Hn.
Qed.

Lemma flipkart_extract_shape (link html link' : str) (r : Product) :
  flipkart_extract link html = Ok (link', Some r) ->
  platform r = lit "Flipkart" /\ filled r /\
  url r = JStr link' /\ availability r = JStr (lit "In Stock").
Proof.
  unfold flipkart_extract.
  destruct (match select_one _ _ with Some _ => _ | None => _ end) as [u|]; [|done].
  destruct (_json_ld _) as [[[ld_t ld_p] ld_i]|] eqn:Hld; [|done].
  destruct (_og _) as [[og_t og_p] og_i].
  destruct (negb _) eqn:Hn; [done|]. intros [<- <-]%ok_pair_some_inj.
  split; [done|]. split; [|done]. unfold filled. cbn [title price image_url].
  by apply negb_false_iff in Hn.
Qed.

Lemma parse_structured_raise (data : list (str * json)) (e : exn) :
  _parse_amazon_structured data = Raise e -> e = AttributeError.
Proof.
  unfold _parse_amazon_structured. destruct data as [|kv data]; [done|].
  destruct (jget_or _ _ _); try (by intros [= <-]).
  by destruct (negb _).
Qed.

Lemma amazon_structured_raise (struct : option (list (str * json))) (e : exn) :
  amazon_structured struct = Raise e -> e = AttributeError.
Proof.
  unfold amazon_structured. destruct struct as [[|kv data]|]; try done.
  destruct (_parse_amazon_structured _) as [[r'|]|e'] eqn:Hp; try done.
  - by destruct (_ || _).
  - intros [= <-]. by eapply parse_structured_raise.
Qed.

Lemma json_ld_item_raise (st : option str * option float * option str) (item : json)
    (e : exn) :
  json_ld_item st item = Raise e -> e = AttributeError.
Proof.
  unfold json_ld_item. destruct st as [[t p] i].
  destruct (_ && _); [done|]. destruct item; try done; by intros [= <-].
Qed.

Lemma json_ld_items_raise (items : list json)
    (st : option str * option float * option str) (e : exn) :
  json_ld_items st items = Raise e -> e = AttributeError.
Proof.
  revert st. induction items as [|item items IH]; intros st; [done|].
  cbn [json_ld_items]. destruct (json_ld_item st item) as [st'|e'] eqn:Hi.
  - apply IH.
  - intros [= <-]. by eapply json_ld_item_raise.
Qed.

Lemma json_ld_scripts_raise (scripts : list Element)
    (st : option str * option float * option str) (e : exn) :
  json_ld_scripts st scripts = Raise e -> e = AttributeError.
Proof.
  revert st. induction scripts as [|sc scripts IH]; intros st; [done|].
  cbn [json_ld_scripts]. destruct (script_text sc) as [|c raw]; [apply IH|].
  destruct (json_loads _) as [data|]; [|apply IH].
  destruct (json_ld_items st _) as [st'|e'] eqn:Hi; [apply IH|].
  intros [= <-]. by eapply json_ld_items_raise.
Qed.

Lemma amazon_extract_raise (url html : str) (e : exn) :
  amazon_extract url html = Raise e -> e = AttributeError.
Proof.
  unfold amazon_extract.
  destruct (_json_ld _) as [[[ld_t ld_p] ld_i]|e'] eqn:Hld.
  - destruct (_og _) as [[og_t og_p] og_i]. by destruct (negb _).
  - intros [= <-]. by eapply json_ld_scripts_raise.
Qed.

(** What [scrape_amazon] does: at most seven requests (the structured
    endpoint, the proxy, cloudscraper and the four user agents), all for
    the page asked; a record it returns is an Amazon record with a title,
    a price or an image. *)
Lemma scrape_amazon_bounded (url : str) :
  bounded (sent url) 7
    (fun res => (forall r, res = Ok (Some r) -> platform r = lit "Amazon" /\ filled r) /\
                (forall e, res = Raise e -> e = AttributeError))
    (scrape_amazon url).
Proof.
  unfold scrape_amazon.
  apply (bounded_le _ (0 + (1 + (0 + (1 + (5 + 0)))))); [lia|].
  apply (bounded_bind _ 0 _ (returns (fun _ => True)));
    [by apply bounded_enter| |done].
  intros _ _.
  apply (bounded_bind _ _ _ _ _ _ _ (scraperapi_structured_bounded _ _)); [|done].
  intros struct _.
  apply (bounded_bind _ 0 _
           (fun res => (forall r, res = Ok (Some r) ->
                                  platform r = lit "Amazon" /\ filled r) /\
                       (forall e, res = Raise e -> e = AttributeError))).
  { apply bounded_lift. split.
    - intros r Hr. destruct (amazon_structured_shape _ _ Hr) as (? & ? & _). done.
    - intros e. apply amazon_structured_raise. }
  2:{ intros e [_ He]. split; [done|]. intros e' [= <-]. by apply He. }
  intros [r|] [Hearly _].
  { apply (bounded_le _ 0); [lia|]. apply bounded_ret. split; [|done].
    intros r' [= <-]. by apply Hearly. }
  apply (bounded_bind _ _ _ _ _ _ _ (scraperapi_html_bounded _ _ _)); [|done].
  intros resp0 _.
  apply (bounded_bind _ 5 0 (returns (fun _ => True))).
  - destruct (unusable resp0).
    + eapply bounded_weaken; [| | |apply (direct_fetch_bounded url _ false)];
        [done|apply direct_sent|]. by intros [].
    + apply (bounded_le _ 0); [lia|]. by apply bounded_ret.
  - intros [r|] _; [|by apply bounded_ret].
    destruct (unusable (Some r)); [by apply bounded_ret|].
    apply bounded_lift. split.
    + intros r' Hr'. destruct (amazon_extract_shape _ _ _ Hr') as (? & ? & _). done.
    + intros e. apply amazon_extract_raise.
  - done.
Qed.

Lemma scrape_amazon_shape (url : str) (log log' : Log) (r : Product) :
  scrape_amazon url log = (Ok (Some r), log') ->
  platform r = lit "Amazon" /\ filled r.
Proof.
  intros H.
  destruct (scrape_amazon_bounded url log) as (res & evs & Hrun & _ & _ & HP & _).
  rewrite Hrun in H. injection H as -> _. by apply HP.
Qed.

Lemma flipkart_fetch_bounded (url : str) (is_short_fk : bool) :
  bounded (sent url) (if is_short_fk then 5 else 4) (returns (fun _ => True))
    (flipkart_fetch url is_short_fk).
Proof.
  unfold flipkart_fetch.
  replace (if is_short_fk then 5%nat else 4%nat)
    with ((if is_short_fk then 3 else 1) + (2 + (if is_short_fk then 0 else 1)))%nat
    by (by destruct is_short_fk).
  apply (bounded_bind _ _ _ (returns (fun _ => True))).
  - destruct is_short_fk.
    + change 3%nat with (2 + 1)%nat.
      apply (bounded_bind _ _ _ (returns (fun _ => True))).
      * eapply bounded_weaken; [| | |apply flipkart_short_bounded]; [done|done|].
        by intros [].
      * intros resp _. destruct (unusable resp).
        -- eapply bounded_weaken; [| | |apply scraperapi_html_bounded]; [done|done|].
           by intros [].
        -- apply (bounded_le _ 0); [lia|]. by apply bounded_ret.
      * done.
    + eapply bounded_weaken; [| | |apply scraperapi_html_bounded]; [done|done|].
      by intros [].
  - intros resp _.
    apply (bounded_bind _ _ _ (returns (fun _ => True))).
    + destruct (unusable resp).
      * eapply bounded_weaken; [| | |apply (direct_fetch_bounded url _ true)];
          [done|apply direct_sent|]. by intros [].
      * apply (bounded_le _ 0); [lia|]. by apply bounded_ret.
    + intros resp' _. destruct (unusable resp' && has_key && negb is_short_fk) eqn:Hc.
      * destruct is_short_fk; [by rewrite andb_false_r in Hc|].
        eapply bounded_weaken; [| | |apply scraperapi_html_bounded]; [done|done|].
        by intros [].
      * apply (bounded_le _ 0); [lia|]. by apply bounded_ret.
    + done.
  - done.
Qed.

(** A record [scrape_flipkart] returns, however deep the retries went. *)
Lemma scrape_flipkart_shape (depth : nat) (url : str) (log log' : Log) (r : Product) :
  scrape_flipkart depth url log = (Ok (Some r), log') ->
  platform r = lit "Flipkart" /\ filled r /\ availability r = JStr (lit "In Stock").
Proof.
  revert url log. induction depth as [|depth IH]; intros url log; [done|].
  cbn [scrape_flipkart]. intros H.
  apply bind_ok in H as (_ & l0 & _ & H).
  apply bind_ok in H as (host & l1 & _ & H).
  apply bind_ok in H as (resp & l2 & _ & H).
  destruct resp as [resp|]; [|by apply ret_ok in H as [? _]].
  destruct (unusable (Some resp)); [by apply ret_ok in H as [? _]|].
  apply bind_ok in H as ([url' found] & l3 & [Hx _]%lift_ok & H).
  cbn [fst snd] in H. destruct found as [record|].
  - apply ret_ok in H as [[= ->] _].
    destruct (flipkart_extract_shape _ _ _ _ Hx) as (? & ? & _ & ?). done.
  - destruct (str_in host FK_SHORT_HOSTS); [|by apply ret_ok in H as [? _]].
    apply bind_ok in H as (resolved & l4 & _ & H).
    destruct (_ && _); [by eapply IH | by apply ret_ok in H as [? _]].
Qed.

(** The scrape of a page whose host is no Flipkart short link: one frame,
    at most four requests. *)
Lemma scrape_flipkart_long_bounded (depth : nat) (url host : str) :
  netloc_lower url = Ok host -> str_in host FK_SHORT_HOSTS = false ->
  bounded (sent url) 4 (fun _ => True) (scrape_flipkart (S depth) url).
Proof.
  intros Hh Hs. cbn [scrape_flipkart].
  apply (bounded_le _ (0 + (0 + (4 + 0)))); [lia|].
  apply (bounded_bind _ 0 _ (returns (fun _ => True)));
    [by apply bounded_enter| |done].
  intros _ _.
  apply (bounded_bind _ 0 _ (fun res => res = Ok host)); [by apply bounded_lift| |done].
  intros h [= ->]. rewrite Hs.
  apply (bounded_bind _ _ _ _ _ _ _ (flipkart_fetch_bounded _ false)); [|done].
  intros [r|] _; [|by apply bounded_ret].
  destruct (unusable (Some r)); [by apply bounded_ret|].
  change 0%nat with (0 + 0)%nat.
  apply (bounded_bind _ 0 0 (fun _ => True)); [by apply bounded_lift| |done].
  intros found _. destruct found.2; by apply bounded_ret.
Qed.

Lemma scrape_flipkart_long_depth (depth : nat) (url host : str) (log : Log) :
  netloc_lower url = Ok host -> str_in host FK_SHORT_HOSTS = false ->
  scrape_flipkart (S depth) url log = scrape_flipkart 1 url log.
Proof.
  intros Hh Hs. cbn [scrape_flipkart]. unfold bind, emit, lift.
  rewrite Hh, Hs. reflexivity.
Qed.

End Shapes.

(** ** Titles *)

Section Titles.
Context `{E : Env}.

Lemma nonempty_titled (s : str) : titled (nonempty s).
Proof. by destruct s. Qed.

Lemma str_or_titled (a b : option str) : titled b -> titled (str_or a b).
Proof. unfold str_or. by destruct a as [[|c a]|]. Qed.

Lemma title_from_titled (soup : Soup) (sels : list str) : titled (title_from soup sels).
Proof.
  induction sels as [|sel sels IH]; [done|]. cbn [title_from].
  destruct (select_one soup sel) as [el|]; [|done].
  destruct (text_joined el) as [|c t]; [done|].
  by destruct (negb _ && _).
Qed.

Lemma json_ld_item_titled (st st' : option str * option float * option str) (item : json) :
  titled st.1.1 -> json_ld_item st item = Ok st' -> titled st'.1.1.
Proof.
  destruct st as [[t p] i]. cbn [fst]. intros Ht. unfold json_ld_item.
  destruct (_ && _ && _); [by intros [= <-]|].
  destruct item; try done. intros [= <-]. cbn [fst].
  destruct (str_truthy t); [done|].
  destruct (jget kv _); try done. apply nonempty_titled.
Qed.

Lemma json_ld_items_titled (items : list json)
    (st st' : option str * option float * option str) :
  titled st.1.1 -> json_ld_items st items = Ok st' -> titled st'.1.1.
Proof.
  revert st. induction items as [|item items IH]; intros st Ht; cbn [json_ld_items].
  - by intros [= <-].
  - destruct (json_ld_item st item) as [st1|] eqn:H1; [|done].
    apply IH. by eapply json_ld_item_titled.
Qed.

Lemma json_ld_scripts_titled (scripts : list Element)
    (st st' : option str * option float * option str) :
  titled st.1.1 -> json_ld_scripts st scripts = Ok st' -> titled st'.1.1.
Proof.
  revert st. induction scripts as [|sc scripts IH]; intros st Ht; cbn [json_ld_scripts].
  - by intros [= <-].
  - destruct (script_text sc) as [|c raw]; [by apply IH|].
    destruct (json_loads (c :: raw)) as [data|]; [|by apply IH].
    destruct (json_ld_items st _) as [st1|] eqn:H1; [|done].
    apply IH. by eapply json_ld_items_titled.
Qed.

Lemma json_ld_titled (soup : Soup) (t : option str) (p : option float) (i : option str) :
  _json_ld soup = Ok (t, p, i) -> titled t.
Proof.
  unfold _json_ld. intros H.
  by apply (json_ld_scripts_titled _ (None, None, None) (t, p, i)) in H.
Qed.

Lemma meta_content_titled (soup : Soup) (sel : str) : titled (meta_content soup sel).
Proof.
  unfold meta_content. destruct (select_one soup sel); [apply nonempty_titled|done].
Qed.

Lemma og_titled (soup : Soup) : titled (_og soup).1.1.
Proof.
  unfold _og. cbn [fst].
  destruct (str_truthy _) eqn:Ht; [|apply meta_content_titled].
  apply meta_content_titled.
Qed.

Lemma amazon_extract_titled (link html : str) (r : Product) :
  amazon_extract link html = Ok (Some r) -> titled (title r).
Proof.
  unfold amazon_extract.
  destruct (_json_ld _) as [[[ld_t ld_p] ld_i]|] eqn:Hld; [|done].
  pose proof (og_titled (BeautifulSoup html)) as Hog.
  destruct (_og _) as [[og_t og_p] og_i]. cbn [fst] in Hog.
  destruct (negb _); [done|]. intros <-%ok_some_inj. cbn [title].
  by apply str_or_titled, str_or_titled.
Qed.

Lemma flipkart_extract_titled (link html link' : str) (r : Product) :
  flipkart_extract link html = Ok (link', Some r) -> titled (title r).
Proof.
  unfold flipkart_extract.
  destruct (match select_one _ _ with Some _ => _ | None => _ end) as [u|]; [|done].
  destruct (_json_ld _) as [[[ld_t ld_p] ld_i]|] eqn:Hld; [|done].
  pose proof (og_titled (BeautifulSoup html)) as Hog.
  destruct (_og _) as [[og_t og_p] og_i]. cbn [fst] in Hog.
  destruct (negb _); [done|]. intros [_ <-]%ok_pair_some_inj. cbn [title].
  by apply str_or_titled, str_or_titled.
Qed.

Lemma parse_structured_titled (data : list (str * json)) (r : Product) :
  _parse_amazon_structured data = Ok (Some r) -> titled (title r).
Proof.
  unfold _parse_amazon_structured. destruct data as [|kv data]; [done|].
  destruct (jget_or _ _ _); try done.
  destruct (negb _); [done|]. intros <-%ok_some_inj. apply nonempty_titled.
Qed.

Lemma amazon_structured_titled (struct : option (list (str * json))) (r : Product) :
  amazon_structured struct = Ok (Some r) -> titled (title r).
Proof.
  unfold amazon_structured. destruct struct as [[|kv data]|]; try done.
  destruct (_parse_amazon_structured _) as [[r'|]|] eqn:Hp; try done.
  destruct (_ || _); [|done]. intros [= <-]. by eapply parse_structured_titled.
Qed.

Lemma scrape_amazon_titled (link : str) (log log' : Log) (r : Product) :
  scrape_amazon link log = (Ok (Some r), log') -> titled (title r).
Proof.
  unfold scrape_amazon. intros H.
  apply bind_ok in H as (_ & l0 & _ & H).
  apply bind_ok in H as (struct & l1 & _ & H).
  apply bind_ok in H as (early & l2 & [He _]%lift_ok & H).
  destruct early as [r0|].
  { apply ret_ok in H as [[= ->] _]. by eapply amazon_structured_titled. }
  apply bind_ok in H as (resp0 & l3 & _ & H).
  apply bind_ok in H as (resp & l4 & _ & H).
  destruct resp as [resp|]; [|by apply ret_ok in H as [? _]].
  destruct (unusable (Some resp)); [by apply ret_ok in H as [? _]|].
  apply lift_ok in H as [H _]. by eapply amazon_extract_titled.
Qed.

Lemma scrape_flipkart_titled (depth : nat) (link : str) (log log' : Log) (r : Product) :
  scrape_flipkart depth link log = (Ok (Some r), log') -> titled (title r).
Proof.
  revert link log. induction depth as [|depth IH]; intros link log; [done|].
  cbn [scrape_flipkart]. intros H.
  apply bind_ok in H as (_ & l0 & _ & H).
  apply bind_ok in H as (host & l1 & _ & H).
  apply bind_ok in H as (resp & l2 & _ & H).
  destruct resp as [resp|]; [|by apply ret_ok in H as [? _]].
  destruct (unusable (Some resp)); [by apply ret_ok in H as [? _]|].
  apply bind_ok in H as ([link' found] & l3 & [Hx _]%lift_ok & H).
  cbn [fst snd] in H. destruct found as [record|].
  - apply ret_ok in H as [[= ->] _]. by eapply flipkart_extract_titled.
  - destruct (str_in host FK_SHORT_HOSTS); [|by apply ret_ok in H as [? _]].
    apply bind_ok in H as (resolved & l4 & _ & H).
    destruct (_ && _); [by eapply IH | by apply ret_ok in H as [? _]].
Qed.

End Titles.

(** A record never carries an empty title: whichever scraper returned it,
    and from whichever source the title was taken (the structured answer,
    a selector, JSON-LD, the Open Graph or Twitter tags), the title is
    absent or has at least one character. *)
Theorem record_title_not_empty `{E : Env} (depth : nat) (link : str) (log log' : Log)
    (r : Product) :
  scrape_amazon link log = (Ok (Some r), log') \/
  scrape_flipkart depth link log = (Ok (Some r), log') ->
  title r <> Some [].
Proof.
  intros [H|H]; [by eapply scrape_amazon_titled|by eapply scrape_flipkart_titled].
Qed.

Lemma record_title_not_empty_witness :
  title sample_amazon_record <> Some [].
Proof.
  apply (@record_title_not_empty sample_pages 0 SAMPLE_AMAZON_URL [] sample_amazon_log).
  left. exact sample_amazon_run_eq.
Defined.

(** ** Stripping *)

Lemma lstrip_by_suffix (f : char -> bool) (s : str) :
  exists a, s = a ++ lstrip_by f s /\ forallb f a = true.
Proof.
  induction s as [|c s (a & Ha & Hf)]; [by exists []|].
  cbn [lstrip_by]. destruct (f c) eqn:Hc.
  - exists (c :: a). split; [by rewrite Ha at 1|]. simpl. by rewrite Hc.
  - by exists [].
Qed.

Lemma lstrip_by_head (f : char -> bool) (s : str) (c : char) (r : str) :
  lstrip_by f s = c :: r -> f c = false.
Proof.
  induction s as [|x s IH]; [done|]. cbn [lstrip_by].
  destruct (f x) eqn:Hx; [done|]. by intros [= <- _].
Qed.

Lemma lstrip_by_fixed (f : char -> bool) (c : char) (s : str) :
  f c = false -> lstrip_by f (c :: s) = c :: s.
Proof. intros Hc. cbn [lstrip_by]. by rewrite Hc. Qed.

Lemma rstrip_by_prefix (f : char -> bool) (s : str) :
  exists b, s = rstrip_by f s ++ b /\ forallb f b = true.
Proof.
  unfold rstrip_by. destruct (lstrip_by_suffix f (rev s)) as (a & Ha & Hf).
  exists (rev a). split.
  - rewrite <- rev_app_distr, <- Ha. by rewrite rev_involutive.
  - rewrite forallb_forall in Hf. apply forallb_forall.
    intros x Hx. apply Hf. by apply in_rev.
Qed.

Lemma rstrip_by_last (f : char -> bool) (s r : str) (c : char) :
  rstrip_by f s = r ++ [c] -> f c = false.
Proof.
  unfold rstrip_by. intros H. apply (f_equal (@rev char)) in H.
  rewrite rev_involutive, rev_app_distr in H. simpl in H.
  by eapply lstrip_by_head.
Qed.

Lemma rstrip_by_fixed (f : char -> bool) (s : str) (c : char) :
  f c = false -> rstrip_by f (s ++ [c]) = s ++ [c].
Proof.
  intros Hc. unfold rstrip_by. rewrite rev_app_distr. cbn [rev app].
  rewrite lstrip_by_fixed by done. cbn [rev]. by rewrite rev_involutive.
Qed.

Lemma rstrip_by_head (f : char -> bool) (a : char) (m : str) :
  f a = false -> exists m', rstrip_by f (a :: m) = a :: m'.
Proof.
  intros Ha. unfold rstrip_by.
  destruct (lstrip_by_suffix f (rev (a :: m))) as (x & Hx & Hf).
  simpl in Hx. destruct (lstrip_by f (rev m ++ [a])) as [|c t] eqn:Hl.
  - rewrite app_nil_r in Hx. rewrite <- Hx in Hf.
    rewrite forallb_app in Hf. simpl in Hf. rewrite Ha in Hf.
    by rewrite andb_false_r in Hf.
  - simpl. rewrite Hl.
    assert (Hlast : exists t', c :: t = t' ++ [a]).
    { destruct (exists_last (l := c :: t) ltac:(done)) as (t' & z & Ht).
      exists t'. rewrite Ht in Hx. rewrite app_assoc in Hx.
      apply app_inj_tail in Hx as [_ ->]. done. }
    destruct Hlast as (t' & ->). rewrite rev_app_distr. simpl. eauto.
Qed.

Lemma strip_by_trimmed (f : char -> bool) (s : str) : trimmed f (strip_by f s).
Proof.
  unfold strip_by. destruct (lstrip_by f s) as [|a m] eqn:Hl; [by left|].
  pose proof (lstrip_by_head f s a m Hl) as Ha.
  destruct (rstrip_by_head f a m Ha) as (m' & Hm). rewrite Hm.
  destruct (exists_last (l := a :: m') ltac:(done)) as (r & c & Hr).
  right. exists a, m', (r, c). split; [done|]. split; [done|]. split; [done|].
  simpl. rewrite Hr in Hm. by eapply rstrip_by_last.
Qed.

Lemma strip_by_fixed (f : char -> bool) (s : str) : trimmed f s -> strip_by f s = s.
Proof.
  intros [->|(a & m & [r c] & Hs & Hz & Ha & Hc)]; [done|].
  unfold strip_by. rewrite Hs, lstrip_by_fixed by done.
  rewrite <- Hs, Hz. by apply rstrip_by_fixed.
Qed.

Lemma strip_by_idem (f : char -> bool) (s : str) :
  strip_by f (strip_by f s) = strip_by f s.
Proof. apply strip_by_fixed, strip_by_trimmed. Qed.

(** What is stripped is a piece of the string. *)
Lemma strip_by_infix (f : char -> bool) (s : str) :
  exists a b, s = a ++ strip_by f s ++ b.
Proof.
  unfold strip_by. destruct (lstrip_by_suffix f s) as (a & Ha & _).
  destruct (rstrip_by_prefix f (lstrip_by f s)) as (b & Hb & _).
  exists a, b. by rewrite <- Hb.
Qed.

Lemma trimmed_weaken (f g : char -> bool) (s : str) :
  (forall c, c ∈ s -> g c = true -> f c = true) -> trimmed f s -> trimmed g s.
Proof.
  intros H [->|(a & m & [r c] & Hs & Hz & Ha & Hc)]; [by left|].
  right. exists a, m, (r, c). split; [done|]. split; [done|]. simpl in *. split.
  - destruct (g a) eqn:Hg; [|done]. rewrite H in Ha; [done| |done].
    rewrite Hs. left.
  - destruct (g c) eqn:Hg; [|done]. rewrite H in Hc; [done| |done].
    rewrite Hz. apply elem_of_app. right. left.
Qed.

(** ** Image addresses *)

Lemma norm_img_cons (U : Unicode) (c : char) (s : str) :
  _norm_img U (Some (c :: s)) =
  let u := strip U (c :: s) in
  let u := if startswith (lit "//") u then lit "https:" ++ u else u in
  if startswith (lit "http") u then Some u else None.
Proof. reflexivity. Qed.

Lemma norm_img_fixed (U : Unicode) (OK : UnicodeOK U) (u v : str) :
  _norm_img U (Some u) = Some v -> _norm_img U (Some v) = Some v.
Proof.
  unfold _norm_img at 1. destruct u as [|c u]; [done|]. cbv zeta.
  set (u1 := strip U (c :: u)).
  assert (Hh : u_isspace U 104%N = false) by (by rewrite (ok_isspace U OK)).
  assert (Htrim : trimmed (u_isspace U) u1) by apply strip_by_trimmed.
  intros Hv.
  assert (Hv' : trimmed (u_isspace U) v /\ startswith (lit "http") v = true).
  { destruct (startswith (lit "//") u1) eqn:Hss.
    - destruct (startswith (lit "http") _) eqn:Hs; [|done].
      injection Hv as <-. split; [|done].
      apply startswith_spec in Hss as [t Ht].
      destruct Htrim as [H0|(a & m & [r z] & _ & Hz & _ & Hfz)];
        [by rewrite H0 in Ht|].
      right. exists 104%N, (lit "ttps:" ++ u1), (lit "https:" ++ r, z).
      split; [done|]. split; [|done].
      change (lit "https:" ++ u1 = (lit "https:" ++ r) ++ [z]).
      change (u1 = r ++ [z]) in Hz. rewrite Hz. apply app_assoc.
    - destruct (startswith (lit "http") u1) eqn:Hs; [|done].
      by injection Hv as <-. }
  destruct Hv' as [Hv' Hs]. pose proof Hs as Hs'.
  apply startswith_spec in Hs' as [t Ht].
  assert (H1 : startswith (lit "//") v = false) by (by rewrite Ht).
  destruct v as [|x v']; [done|]. rewrite norm_img_cons. cbv zeta.
  unfold strip. rewrite strip_by_fixed by done.
  by rewrite H1, Hs.
Qed.

(** [_norm_img] changes nothing in what it returned: a normalised address
    is normalised to itself. *)
Theorem norm_img_idempotent (U : Unicode) (OK : UnicodeOK U) (u : option str) :
  _norm_img U (_norm_img U u) = _norm_img U u.
Proof.
  destruct (_norm_img U u) as [v|] eqn:Hu; [|done].
  destruct u as [u|]; [|done]. by eapply norm_img_fixed.
Qed.

(** ** Cleaned specification text *)

Section CleanFacts.
Context (U : Unicode) (OK : UnicodeOK U).

Lemma blank_isspace : u_isspace U 32%N = true.
Proof using OK. by rewrite (ok_isspace U OK). Qed.

Lemma collapse_single (b : bool) (s : str) :
  single_spaced U b (collapse_spaces U b s) = true.
Proof using OK.
  revert b. induction s as [|c s IH]; intros b; [done|].
  cbn [collapse_spaces]. destruct (u_isspace U c) eqn:Hc.
  - destruct b; [apply IH|]. cbn [single_spaced].
    rewrite blank_isspace. by rewrite IH.
  - cbn [single_spaced]. rewrite Hc. apply IH.
Qed.

Lemma single_collapse (b : bool) (s : str) :
  single_spaced U b s = true -> collapse_spaces U b s = s.
Proof.
  revert b. induction s as [|c s IH]; intros b; [done|].
  cbn [single_spaced collapse_spaces]. destruct (u_isspace U c).
  - intros [[Hc Hb]%andb_true_iff Hs]%andb_true_iff.
    apply N.eqb_eq in Hc as ->. apply negb_true_iff in Hb as ->.
    by rewrite IH.
  - intros Hs. by rewrite IH.
Qed.

Lemma single_mono (s : str) :
  single_spaced U true s = true -> single_spaced U false s = true.
Proof.
  destruct s as [|c s]; [done|]. cbn [single_spaced].
  destruct (u_isspace U c); [|done]. by rewrite andb_false_r.
Qed.

Lemma single_any (b : bool) (s : str) :
  single_spaced U b s = true -> single_spaced U false s = true.
Proof. destruct b; [apply single_mono|done]. Qed.

Lemma single_suffix (b : bool) (a s : str) :
  single_spaced U b (a ++ s) = true -> single_spaced U false s = true.
Proof.
  revert b. induction a as [|c a IH]; intros b; [apply single_any|].
  cbn [app single_spaced]. destruct (u_isspace U c).
  - intros [_ Hs]%andb_true_iff. by eapply IH.
  - apply IH.
Qed.

Lemma single_prefix (b : bool) (s z : str) :
  single_spaced U b (s ++ z) = true -> single_spaced U b s = true.
Proof.
  revert b. induction s as [|c s IH]; intros b; [done|].
  cbn [app single_spaced]. destruct (u_isspace U c).
  - intros [H1 Hs]%andb_true_iff. rewrite H1. by apply IH.
  - apply IH.
Qed.

Lemma single_infix (b : bool) (a m z : str) :
  single_spaced U b (a ++ m ++ z) = true -> single_spaced U false m = true.
Proof. intros H%single_suffix. by eapply single_prefix. Qed.

Lemma single_space_blank (b : bool) (s : str) (c : char) :
  single_spaced U b s = true -> c ∈ s -> u_isspace U c = true -> c = 32%N.
Proof.
  revert b. induction s as [|x s IH]; intros b Hs Hin Hc; [by apply elem_of_nil in Hin|].
  cbn [single_spaced] in Hs. apply elem_of_cons in Hin as [->|Hin].
  - rewrite Hc in Hs. apply andb_true_iff in Hs as [[Hx _]%andb_true_iff _].
    by apply N.eqb_eq in Hx.
  - destruct (u_isspace U x).
    + apply andb_true_iff in Hs as [_ Hs]. by eapply IH.
    + by eapply IH.
Qed.

Lemma replace_nbsp_unmarked (fuel : nat) (s : str) :
  (length s <= fuel)%nat ->
  Forall (fun c => c <> 160%N) (replace_from fuel [160%N] (lit " ") s).
Proof.
  revert s. induction fuel as [|f IH]; intros s Hl.
  - destruct s; [constructor|simpl in Hl; lia].
  - destruct s as [|c s]; [constructor|]. cbn [replace_from startswith].
    simpl in Hl. destruct (N.eqb_spec 160 c) as [<-|Hc]; cbn [andb].
    + change (drop (length [160%N]) (160%N :: s)) with s.
      change (Forall (fun c => c <> 160%N) (32%N :: replace_from f [160%N] (lit " ") s)).
      constructor; [done|]. apply IH. lia.
    + constructor; [done|]. apply IH. lia.
Qed.

Lemma replace_nbsp_absent (fuel : nat) (s : str) :
  Forall (fun c => c <> 160%N) s -> replace_from fuel [160%N] (lit " ") s = s.
Proof.
  revert s. induction fuel as [|f IH]; intros s Hs; [done|].
  destruct s as [|c s]; [done|]. apply Forall_cons in Hs as [Hc Hs].
  cbn [replace_from startswith].
  destruct (N.eqb_spec 160 c) as [<-|_]; [done|]. cbn [andb]. by rewrite IH.
Qed.

Lemma filter_bidi_unmarked (s : str) :
  Forall (fun c => c <> 160%N) s ->
  Forall unmarked (filter (fun c => negb (is_bidi c)) s).
Proof.
  intros Hs. apply Forall_forall. intros c [Hb Hin]%list_elem_of_filter.
  rewrite Forall_forall in Hs. split; [by apply Hs|].
  by apply negb_prop_elim, Is_true_false in Hb.
Qed.

Lemma filter_bidi_absent (s : str) :
  Forall unmarked s -> filter (fun c => negb (is_bidi c)) s = s.
Proof.
  induction 1 as [|c s [_ Hc] _ IH]; [done|].
  unfold str in *. rewrite filter_cons, decide_True by (by rewrite Hc).
  by rewrite IH.
Qed.

Lemma collapse_unmarked (b : bool) (s : str) :
  Forall unmarked s -> Forall unmarked (collapse_spaces U b s).
Proof.
  intros Hs. revert b. induction Hs as [|c s Hc _ IH]; intros b; [constructor|].
  cbn [collapse_spaces]. destruct (u_isspace U c).
  - destruct b; [apply IH|]. constructor; [done|apply IH].
  - constructor; [done|apply IH].
Qed.

Lemma strip_by_Forall (P : char -> Prop) (f : char -> bool) (s : str) :
  Forall P s -> Forall P (strip_by f s).
Proof.
  intros Hs. destruct (strip_by_infix f s) as (a & b & Hab).
  rewrite Hab in Hs. by apply Forall_app in Hs as [_ [Hs _]%Forall_app].
Qed.

Lemma strip_by_single (f : char -> bool) (b : bool) (s : str) :
  single_spaced U b s = true -> single_spaced U false (strip_by f s) = true.
Proof.
  intros Hs. destruct (strip_by_infix f s) as (a & z & Hab).
  rewrite Hab in Hs. by eapply single_infix.
Qed.

Lemma clean_tidy (v : str) : tidy U (_clean_spec_text U (Some v)).
Proof using OK.
  unfold _clean_spec_text.
  set (t2 := filter _ (replace _ _ v)).
  assert (H2 : Forall unmarked t2).
  { apply filter_bidi_unmarked, replace_nbsp_unmarked. lia. }
  set (t3 := strip U (collapse_spaces U false t2)).
  assert (H3 : Forall unmarked t3 /\ single_spaced U false t3 = true).
  { split.
    - by apply strip_by_Forall, collapse_unmarked.
    - eapply strip_by_single, collapse_single. }
  destruct H3 as [H3 H3'].
  set (m := strip_by (char_in (lit ": ")) t3).
  assert (Hm : Forall unmarked m) by (by apply strip_by_Forall).
  assert (Hm' : single_spaced U false m = true) by (by eapply strip_by_single).
  assert (Hsp : forall c, c ∈ m -> u_isspace U c = true -> char_in (lit ": ") c = true).
  { intros c Hin Hc. by rewrite (single_space_blank false m c Hm' Hin Hc). }
  assert (Htrim : trimmed (char_in (lit ": ")) m) by apply strip_by_trimmed.
  unfold strip. rewrite strip_by_fixed by (by eapply trimmed_weaken).
  split; [done|]. split; [done|].
  eapply trimmed_weaken; [|exact Htrim].
  intros c Hin. unfold spec_trim. intros [Hc|Hc]%orb_true_iff; [by apply Hsp|done].
Qed.

Lemma clean_fixed (s : str) : tidy U s -> _clean_spec_text U (Some s) = s.
Proof.
  intros (Hu & Hs & Ht). unfold _clean_spec_text, replace.
  rewrite replace_nbsp_absent
    by (eapply Forall_impl; [exact Hu|]; by intros c [? _]).
  rewrite filter_bidi_absent by done. rewrite single_collapse by done.
  unfold strip.
  assert (H1 : trimmed (u_isspace U) s).
  { eapply trimmed_weaken; [|exact Ht]. intros c _ Hc. unfold spec_trim. by rewrite Hc. }
  assert (H2 : trimmed (char_in (lit ": ")) s).
  { eapply trimmed_weaken; [|exact Ht]. intros c _ Hc. unfold spec_trim.
    by rewrite Hc, orb_true_r. }
  by rewrite (strip_by_fixed _ s H1), (strip_by_fixed _ s H2), (strip_by_fixed _ s H1).
Qed.

End CleanFacts.

(** [_clean_spec_text] is idempotent, and what it returns neither begins
    nor ends with white space or a colon, holds no no-break space and no
    directional mark, and has its white space reduced to single blanks. *)
Theorem clean_spec_text_idempotent (U : Unicode) (OK : UnicodeOK U) (v : option str) :
  _clean_spec_text U (Some (_clean_spec_text U v)) = _clean_spec_text U v /\
  tidy U (_clean_spec_text U v).
Proof.
  destruct v as [v|].
  - split; [apply clean_fixed|]; by apply clean_tidy.
  - split; [done|]. split; [constructor|]. split; [done|by left].
Qed.

(** ** The size of normalised specifications *)

Section SpecSizes.
Context (U : Unicode).

Lemma clip_value_sized (val : str) :
  val <> [] -> clip_value U val <> [] /\ len (clip_value U val) <= 260.
Proof.
  intros Hv. unfold clip_value. destruct (Z.ltb_spec 260 (len val)) as [Hl|Hl].
  - split; [by destruct (rstrip_by _ _)|].
    destruct (rstrip_by_prefix (u_isspace U) (take 257 val)) as (b & Hb & _).
    assert (Ht : (length (take 257 val) <= 257)%nat) by (rewrite length_take; lia).
    rewrite Hb, length_app in Ht. rewrite len_app. unfold len.
    change (length (lit "...")) with 3%nat. lia.
  - done.
Qed.

Lemma spec_candidate_sized (p : option str * option str) (k kn v : str) :
  spec_candidate U p = Some (k, kn, v) -> entry_sized (k, v).
Proof.
  intros Hc. pose proof (spec_candidate_sound U p k kn v Hc)
    as (_ & _ & -> & _ & _ & Hk & Hl & _).
  unfold spec_candidate in Hc.
  destruct (str_eqb (_clean_spec_text U p.1) [] || str_eqb (_clean_spec_text U p.2) [])
    eqn:E1; [done|].
  apply orb_false_iff in E1 as [_ E1].
  assert (Hv : _clean_spec_text U p.2 <> []).
  { intros H%str_eqb_eq. congruence. }
  destruct (clip_value_sized _ Hv). done.
Qed.

Lemma dict_set_sized (key val : str) (d : list (str * str)) :
  Forall entry_sized d -> entry_sized (key, val) ->
  Forall entry_sized (dict_set key val d) /\
  1 <= len (dict_set key val d) <= len d + 1.
Proof.
  intros Hd Hkv. induction Hd as [|[k v] d Hx Hd IH].
  - cbn [dict_set]. split; [constructor; [done|constructor]|]. unfold len. simpl. lia.
  - cbn [dict_set]. destruct (str_eqb k key) eqn:Hk.
    + apply str_eqb_eq in Hk as ->. split; [by constructor|].
      unfold len. simpl. lia.
    + destruct IH as [IH1 IH2]. split; [by constructor|].
      unfold len in *. simpl. lia.
Qed.

Lemma normalize_loop_sized (m : Z) (pairs : list (option str * option str))
    (specs : list (str * str)) (seen : gset str) :
  Forall entry_sized specs -> specs = [] \/ len specs < m ->
  Forall entry_sized (normalize_loop U m pairs specs seen) /\
  len (normalize_loop U m pairs specs seen) <= Z.max 1 m.
Proof.
  revert specs seen. induction pairs as [|p pairs IH]; intros specs seen Hs Hl.
  - cbn [normalize_loop]. split; [done|]. destruct Hl as [->|Hl]; [|lia].
    unfold len. simpl. lia.
  - rewrite normalize_loop_cons.
    destruct (spec_candidate U p) as [[[key kn] v]|] eqn:Hc; [|by apply IH].
    destruct (bool_decide (kn ∈ seen)); [by apply IH|]. cbn zeta.
    destruct (dict_set_sized key v specs Hs (spec_candidate_sized _ _ _ _ Hc))
      as [Hd1 Hd2].
    destruct (Z.leb_spec m (len (dict_set key v specs))) as [Hcap|Hcap].
    + split; [done|]. destruct Hl as [->|Hl]; [|lia].
      change (len (dict_set key v [])) with 1. lia.
    + apply IH; [done|]. by right.
Qed.

End SpecSizes.

(** Whatever the cap [max_items], [_normalize_specs] returns at most
    [max(1, max_items)] entries (the cap is tested after an entry is
    stored), each with a non-empty key of at most 80 characters and a
    non-empty value of at most 260. *)
Theorem normalize_specs_sizes (U : Unicode) (pairs : list (option str * option str))
    (max_items : Z) :
  len (_normalize_specs U pairs max_items) <= Z.max 1 max_items /\
  forall k v, (k, v) ∈ _normalize_specs U pairs max_items ->
    k <> [] /\ len k <= 80 /\ v <> [] /\ len v <= 260.
Proof.
  unfold _normalize_specs.
  destruct (normalize_loop_sized U max_items pairs [] ∅) as [H1 H2];
    [constructor|by left|].
  split; [done|]. intros k v Hin. rewrite Forall_forall in H1. by apply (H1 (k, v)).
Qed.

(** ** Short hosts *)

Lemma short_hosts_plain :
  forallb (fun h => forallb lower_fixed h &&
                    bool_decide (lstrip_by (char_in (lit "www.")) h = h))
          SHORT_HOSTS = true.
Proof. vm_compute. reflexivity. Qed.

Lemma lstrip_www (p h : str) :
  Forall (fun c => c = 119%N \/ c = 46%N) p ->
  lstrip_by (char_in (lit "www.")) h = h ->
  lstrip_by (char_in (lit "www.")) (p ++ h) = h.
Proof.
  intros Hp Hh. induction Hp as [|c p Hc _ IH]; [done|].
  cbn [app lstrip_by]. by destruct Hc as [-> | ->].
Qed.

(** [_is_short] strips the characters of ["www."] from the front of the
    host, not the prefix: a short host is recognised behind any run of
    [w] and [.], so [www.amzn.in] is short, and so is [wow.ly]. *)
Theorem is_short_ignores_www `{E : Env} (OK : UnicodeOK uni) (url : str) (u : Url)
    (p h : str) :
  urlparse url = Ok u -> netloc u = p ++ h ->
  Forall (fun c => c = 119%N \/ c = 46%N) p -> h ∈ SHORT_HOSTS ->
  _is_short url = Ok true.
Proof.
  intros Hu Hn Hp Hh.
  pose proof short_hosts_plain as Hall. rewrite forallb_forall in Hall.
  specialize (Hall h (proj1 (list_elem_of_In _ _) Hh)).
  apply andb_true_iff in Hall as [Hfix Hstrip%bool_decide_eq_true].
  assert (Hpfix : forallb lower_fixed p = true).
  { apply forallb_forall. intros c Hc%list_elem_of_In.
    rewrite Forall_forall in Hp. by destruct (Hp c Hc) as [-> | ->]. }
  unfold _is_short, stripped_host, netloc_lower. rewrite Hu, Hn.
  unfold lower. rewrite <- (app_nil_r (p ++ h)).
  rewrite (lower_from_fixed uni OK) by (by rewrite forallb_app, Hpfix, Hfix).
  cbn [lower_from]. rewrite app_nil_r, lstrip_www by done.
  f_equal. by apply str_in_spec.
Qed.

(** ** Names read off a URL *)

Lemma dashes_to_space_free (b : bool) (s : str) :
  Forall (fun c => c <> 45%N /\ c <> 95%N) (dashes_to_space b s).
Proof.
  revert b. induction s as [|c s IH]; intros b; [constructor|].
  cbn [dashes_to_space].
  destruct (N.eqb_spec c 45) as [->|H1]; cbn [orb].
  - destruct b; [apply IH|]. constructor; [done|apply IH].
  - destruct (N.eqb_spec c 95) as [->|H2].
    + destruct b; [apply IH|]. constructor; [done|apply IH].
    + constructor; [done|apply IH].
Qed.

Lemma name_of_free `{E : Env} (g name : str) :
  name_of g = Some name ->
  Forall (fun c => c <> 45%N /\ c <> 95%N) name /\ trimmed (u_isspace uni) name.
Proof.
  unfold name_of. intros [= <-]. split.
  - apply strip_by_Forall, dashes_to_space_free.
  - apply strip_by_trimmed.
Qed.

(** A product name derived from the URL holds no dash and no underscore,
    and neither begins nor ends with white space. *)
Theorem name_from_url_free `{E : Env} (url name : str) :
  _name_from_url url = Some name ->
  Forall (fun c => c <> 45%N /\ c <> 95%N) name /\ trimmed (u_isspace uni) name.
Proof.
  unfold _name_from_url. destruct (urlparse url) as [u|]; [|done].
  destruct (if contains (lit "amazon") _ then _ else _) as [g|]; [apply name_of_free|].
  destruct (if contains (lit "flipkart") _ then _ else _) as [g|]; [apply name_of_free|].
  destruct (filter _ _) as [|x xs]; [done|]. apply name_of_free.
Qed.

Lemma norm_img_idempotent_witness :
  _norm_img ascii_tables (_norm_img ascii_tables (Some (lit " //cdn.example/a.jpg "))) =
  _norm_img ascii_tables (Some (lit " //cdn.example/a.jpg ")).
Proof.
  exact (norm_img_idempotent ascii_tables ascii_tables_ok
           (Some (lit " //cdn.example/a.jpg "))).
Defined.

Lemma clean_spec_text_idempotent_witness :
  _clean_spec_text ascii_tables
    (Some (_clean_spec_text ascii_tables (Some (lit " Colour :  Deep    Black : ")))) =
  _clean_spec_text ascii_tables (Some (lit " Colour :  Deep    Black : ")) /\
  tidy ascii_tables (_clean_spec_text ascii_tables (Some (lit " Colour :  Deep    Black : "))).
Proof.
  exact (clean_spec_text_idempotent ascii_tables ascii_tables_ok
           (Some (lit " Colour :  Deep    Black : "))).
Defined.

Lemma is_short_ignores_www_witness :
  @_is_short offline (lit "http://wow.ly/a") = Ok true.
Proof.
  eapply (@is_short_ignores_www offline ascii_tables_ok (lit "http://wow.ly/a") _
            (lit "w") (lit "ow.ly")).
  - vm_compute. reflexivity.
  - vm_compute. reflexivity.
  - repeat constructor.
  - apply list_elem_of_In. vm_compute. tauto.
Defined.

Lemma name_from_url_free_witness :
  Forall (fun c => c <> 45%N /\ c <> 95%N) (lit "very long product name") /\
  trimmed (u_isspace ascii_tables) (lit "very long product name").
Proof.
  apply (@name_from_url_free offline
           (lit "https://shop.example/very-long_product-name/x")).
  vm_compute. reflexivity.
Defined.

(** ** What the fetch strategies send and accept *)

(** [_direct_fetch] never raises; it sends at most five requests (two in
    fast mode), all for the page asked and none through the proxy
    service, and a response it returns has status 200 and more than 2000
    bytes. *)
Theorem direct_fetch_contract `{E : Env} (url referer : str) (fast : bool) (log : Log) :
  exists r evs,
    _direct_fetch url referer fast log = (Ok r, log ++ evs) /\
    (length (requests_of evs) <= if fast then 2 else 5)%nat /\
    Forall (direct_to url) evs /\
    forall resp, r = Some resp -> status_code resp = 200 /\ 2000 < content_len resp.
Proof.
  destruct (direct_fetch_bounded url referer fast log)
    as ([r|e] & evs & Hrun & Hn & Hev & HP); [|done].
  exists r, evs. split; [done|]. split; [done|]. split; [done|]. by intros resp ->.
Qed.

(** The race for a Flipkart short link never raises; it sends at most the
    two proxy requests, and a response it returns has status 200, more
    than 1000 bytes and is no block page. *)
Theorem flipkart_short_race_contract `{E : Env} (url : str) (timeout : Z) (log : Log) :
  exists r evs,
    _scraperapi_html_flipkart_short url timeout log = (Ok r, log ++ evs) /\
    (length (requests_of evs) <= 2)%nat /\ Forall (sent url) evs /\
    forall resp, r = Some resp ->
      status_code resp = 200 /\ 1000 < content_len resp /\
      _blocked uni (text resp) = false.
Proof.
  destruct (flipkart_short_bounded url timeout log)
    as ([r|e] & evs & Hrun & Hn & Hev & HP); [|done].
  exists r, evs. split; [done|]. split; [done|]. split; [done|].
  intros resp ->. destruct HP as [[Hs Hc] Hu]. split; [done|]. split; [done|].
  specialize (Hu ltac:(done)). unfold usable in Hu.
  apply andb_true_iff in Hu as [_ Hb]. by apply negb_true_iff in Hb.
Qed.

(** ** Resolution *)

(** [resolve_url] sends at most four requests (three in fast mode), all
    for the link it was given, and the proxy service is asked only when
    there is a key. *)
Theorem resolve_url_requests `{E : Env} (url : str) (fast : bool) (log : Log) :
  exists res evs,
    resolve_url url fast log = (res, log ++ evs) /\
    (length (requests_of evs) <= if fast then 3 else 4)%nat /\
    Forall (sent url) evs.
Proof.
  destruct (resolve_url_bounded url fast log) as (res & evs & Hrun & Hn & Hev & _).
  by exists res, evs.
Qed.

(** What [resolve_url] returns is the link it was given or an address
    that names a marketplace ([amazon.in], [amazon.com] or
    [flipkart.com]): it never sends the caller anywhere else. *)
Theorem resolve_url_answer `{E : Env} (url : str) (fast : bool) (log log' : Log) (c : str) :
  resolve_url url fast log = (Ok c, log') -> c = url \/ is_marketplace c = true.
Proof.
  intros H.
  destruct (resolve_url_bounded url fast log) as (res & evs & Hrun & _ & _ & HP & _).
  rewrite Hrun in H. injection H as -> _. by apply HP.
Qed.

Lemma resolve_url_answer_witness :
  lit "https://www.flipkart.com/p/abc" = REDIRECT_EXAMPLE \/
  is_marketplace (lit "https://www.flipkart.com/p/abc") = true.
Proof.
  apply (@resolve_url_answer offline REDIRECT_EXAMPLE false []
           [Enter (lit "resolve_url") REDIRECT_EXAMPLE]).
  vm_compute. reflexivity.
Defined.

(** ** The scrapers *)

(** [scrape_amazon] sends at most seven requests (the structured
    endpoint, the proxy, cloudscraper and the four user agents), all for
    the page asked. *)
Theorem scrape_amazon_requests `{E : Env} (url : str) (log : Log) :
  exists res evs,
    scrape_amazon url log = (res, log ++ evs) /\
    (length (requests_of evs) <= 7)%nat /\ Forall (sent url) evs.
Proof.
  destruct (scrape_amazon_bounded url log) as (res & evs & Hrun & Hn & Hev & _).
  by exists res, evs.
Qed.

(** A record [scrape_amazon] returns is marked ["Amazon"] and has a
    title, a price or an image: an empty record is never returned. *)
Theorem scrape_amazon_record `{E : Env} (url : str) (log log' : Log) (r : Product) :
  scrape_amazon url log = (Ok (Some r), log') ->
  platform r = lit "Amazon" /\ filled r.
Proof. apply scrape_amazon_shape. Qed.

Lemma scrape_amazon_record_witness :
  platform sample_amazon_record = lit "Amazon" /\ filled sample_amazon_record.
Proof.
  apply (@scrape_amazon_record sample_pages SAMPLE_AMAZON_URL [] sample_amazon_log).
  exact sample_amazon_run_eq.
Defined.

(** A record [scrape_flipkart] returns, after any number of retries, is
    marked ["Flipkart"], is said to be in stock, and has a title, a price
    or an image. *)
Theorem scrape_flipkart_record `{E : Env} (depth : nat) (url : str) (log log' : Log)
    (r : Product) :
  scrape_flipkart depth url log = (Ok (Some r), log') ->
  platform r = lit "Flipkart" /\ filled r /\ availability r = JStr (lit "In Stock").
Proof. apply scrape_flipkart_shape. Qed.

Lemma sample_flipkart_run_eq :
  @scrape_flipkart sample_pages 10 SAMPLE_FLIPKART_URL [] =
  (Ok (Some sample_flipkart_record), sample_flipkart_log).
Proof. vm_compute. reflexivity. Qed.

Lemma scrape_flipkart_record_witness :
  platform sample_flipkart_record = lit "Flipkart" /\ filled sample_flipkart_record /\
  availability sample_flipkart_record = JStr (lit "In Stock").
Proof.
  apply (@scrape_flipkart_record sample_pages 10 SAMPLE_FLIPKART_URL []
           sample_flipkart_log).
  exact sample_flipkart_run_eq.
Defined.

(** The retry of [scrape_flipkart] is for short links only: on a page
    whose host is none of the four Flipkart short hosts the scrape takes
    one frame whatever the recursion limit, and sends at most four
    requests, all for that page. *)
Theorem scrape_flipkart_long_link `{E : Env} (depth : nat) (url host : str) (log : Log) :
  netloc_lower url = Ok host -> str_in host FK_SHORT_HOSTS = false ->
  scrape_flipkart (S depth) url log = scrape_flipkart 1 url log /\
  exists res evs,
    scrape_flipkart (S depth) url log = (res, log ++ evs) /\
    (length (requests_of evs) <= 4)%nat /\ Forall (sent url) evs.
Proof.
  intros Hh Hs. split; [by eapply scrape_flipkart_long_depth|].
  destruct (scrape_flipkart_long_bounded depth url host Hh Hs log)
    as (res & evs & Hrun & Hn & Hev & _).
  by exists res, evs.
Qed.

Lemma scrape_flipkart_long_link_witness :
  @scrape_flipkart sample_pages 10 SAMPLE_FLIPKART_URL [] =
  @scrape_flipkart sample_pages 1 SAMPLE_FLIPKART_URL [] /\
  exists res evs,
    @scrape_flipkart sample_pages 10 SAMPLE_FLIPKART_URL [] = (res, [] ++ evs) /\
    (length (requests_of evs) <= 4)%nat /\
    Forall (@sent sample_pages SAMPLE_FLIPKART_URL) evs.
Proof.
  apply (@scrape_flipkart_long_link sample_pages 9 SAMPLE_FLIPKART_URL
           (lit "www.flipkart.com") []); vm_compute; reflexivity.
Defined.

(** Without a key, nothing goes through the proxy service: every request
    of [scrape_amazon] and of [resolve_url] is sent to the site itself. *)
Theorem keyless_runs_are_direct `{E : Env} (url : str) (fast : bool) (log : Log) :
  SCRAPER_API_KEY = [] ->
  (exists res evs, scrape_amazon url log = (res, log ++ evs) /\
                   Forall (direct_to url) evs) /\
  (exists res evs, resolve_url url fast log = (res, log ++ evs) /\
                   Forall (direct_to url) evs).
Proof.
  intros Hk.
  assert (Hno : has_key = false) by (unfold has_key; by rewrite Hk).
  assert (Hd : forall e, sent url e -> direct_to url e).
  { intros [c|fn u]; [|done]. intros [Hc Hp]. split; [done|].
    destruct (via_proxy c); [|done]. rewrite Hno in Hp. by specialize (Hp eq_refl). }
  split.
  - destruct (scrape_amazon_bounded url log) as (res & evs & Hrun & _ & Hev & _).
    exists res, evs. split; [done|]. by eapply Forall_impl.
  - destruct (resolve_url_bounded url fast log) as (res & evs & Hrun & _ & Hev & _).
    exists res, evs. split; [done|]. by eapply Forall_impl.
Qed.

Lemma keyless_runs_are_direct_witness :
  (exists res evs, @scrape_amazon keyless SAMPLE_AMAZON_URL [] = (res, [] ++ evs) /\
                   Forall (direct_to SAMPLE_AMAZON_URL) evs) /\
  (exists res evs, @resolve_url keyless SAMPLE_AMAZON_URL false [] = (res, [] ++ evs) /\
                   Forall (direct_to SAMPLE_AMAZON_URL) evs).
Proof.
  apply (@keyless_runs_are_direct keyless SAMPLE_AMAZON_URL false []). reflexivity.
Defined.

(** ** What can be raised *)








(** ** One platform per analysis *)

Lemma confidence_of (p : option float) (n : nat) :
  confidence (build_prediction p n) =
  if (n =? 2)%nat then flit 85 100 else flit 60 100.
Proof.
  unfold build_prediction. destruct p as [p|]; [|done]. by destruct (float_truthy p).
Qed.

Lemma price_difference_single (plat : str) (d : Product) :
  price_difference (build_comparison [(plat, d)]) = None /\
  both_found (build_comparison [(plat, d)]) = false.
Proof.
  unfold build_comparison.
  destruct (cheapest_loop _ _) as [pl cp]. cbn [price_difference both_found].
  split; [|done]. unfold found_prices. cbn [omap list_omap snd].
  destruct (price d) as [p|]; [|done]. by destruct (float_truthy p).
Qed.

Lemma report_single (raw url source : str) (name : option str) (d : Product) :
  source = lit "amazon" \/ source = lit "flipkart" ->
  platform d = platform_name source ->
  single_platform raw (report raw url source name [(source, d)]) source d.
Proof.
  intros Hs Hp.
  assert (Hfind : source_data [(source, d)] source = Some d).
  { unfold source_data. cbn [list_find fst]. by rewrite decide_True. }
  unfold single_platform, report.
  cbn [source_platform platforms_found source_url amazon flipkart current_price
       product_image_url comparison prediction].
  rewrite Hfind.
  split; [done|]. split; [done|]. split; [done|].
  split; [by destruct Hs as [-> | ->]|]. split; [by destruct Hs as [-> | ->]|].
  split; [done|]. split; [done|]. split; [done|]. split.
  - eexists. split; [done|]. destruct (price_difference_single source d). done.
  - eexists. split; [done|]. by rewrite confidence_of.
Qed.

(** A successful analysis names one platform, the one the URL belongs
    to: the result holds that platform's record and no record for the
    other, [both_found] is false, there is no price difference, the
    confidence is 0.60, and the price and image reported for the product
    are those of that record. *)
Theorem analyze_url_single_platform `{E : Env} (raw_url : str) (log log' : Log)
    (r : Analysis) :
  analyze_url raw_url log = (Ok r, log') -> success r = true ->
  exists source d,
    (source = lit "amazon" \/ source = lit "flipkart") /\
    single_platform raw_url r source d.
Proof.
  unfold analyze_url. intros H Hsucc.
  destruct (strip uni raw_url) as [|c url0] eqn:Hurl.
  { apply ret_ok in H as [-> _]. done. }
  apply bind_ok in H as (host & l1 & _ & H).
  apply bind_ok in H as (must & l2 & _ & H).
  apply bind_ok in H as (url & l3 & _ & H).
  set (url_l := lower uni url) in H.
  assert (Hsrc : exists source,
    (source = lit "amazon" \/ source = lit "flipkart") /\
    (if contains (lit "amazon.in") url_l || contains (lit "amazon.com") url_l
     then Some (lit "amazon")
     else if contains (lit "flipkart.com") url_l then Some (lit "flipkart") else None)
    = Some source \/
    (if contains (lit "amazon.in") url_l || contains (lit "amazon.com") url_l
     then Some (lit "amazon")
     else if contains (lit "flipkart.com") url_l then Some (lit "flipkart") else None)
    = None).
  { destruct (_ || _); [exists (lit "amazon"); left; by split; [left|]|].
    destruct (contains (lit "flipkart.com") url_l);
      [exists (lit "flipkart"); left; by split; [right|]|].
    exists []. by right. }
  destruct Hsrc as (source & [[Hsource Heq]|Heq]); rewrite Heq in H.
  2:{ apply ret_ok in H as [-> _]. done. }
  exists source.
  apply bind_ok in H as (data & l4 & Hscrape & H).
  assert (Hplat : forall d, data = Some d -> platform d = platform_name source).
  { intros d ->. unfold platform_name.
    destruct (str_eqb source (lit "amazon")).
    - by destruct (scrape_amazon_shape _ _ _ _ Hscrape).
    - by destruct (scrape_flipkart_shape _ _ _ _ _ Hscrape). }
  destruct data as [d|]; cbv beta iota in H.
  - apply ret_ok in H as [-> _]. exists d. split; [done|].
    apply report_single; [done|by apply Hplat].
  - destruct (negb (str_truthy _)) eqn:Hn.
    + apply ret_ok in H as [-> _]. done.
    + apply ret_ok in H as [-> _]. eexists. split; [done|].
      by apply report_single.
Qed.

Lemma analyze_url_single_platform_witness :
  exists source d,
    (source = lit "amazon" \/ source = lit "flipkart") /\
    single_platform SAMPLE_AMAZON_URL sample_analysis source d.
Proof.
  apply (@analyze_url_single_platform sample_pages SAMPLE_AMAZON_URL []
           (@analyze_url sample_pages SAMPLE_AMAZON_URL []).2).
  - vm_compute. reflexivity.
  - vm_compute. reflexivity.
Defined.

(** ** Links that need no resolution *)



Section DirectLinks.
Context `{E : Env} (OK : UnicodeOK uni).



End DirectLinks.



(** ** The analysis endpoint (app.py) *)


(** ** When no request is answered *)

Section Silence.
Context `{E : Env} (OK : UnicodeOK uni).
Hypothesis silent : forall l c, http l c = None.















End Silence.



